(** * repo-analytics: keyword / builtin / dunder frequency analytics

    A shallow embedding of [keyword_analytics.py], [py312_language.py] and
    the cache-key helper of [app.py], with the properties of the lexical
    classification and aggregation engine proved about it.

    Conventions.
    - A Python [str] is a [string]; its characters are code points below 256.
    - A [frozenset] of names is a [list string] queried with [mem].
    - A [collections.Counter] (and the [dict] built from it) is an
      association list in insertion order: Python dictionaries iterate in
      insertion order and the reporting order of the result depends on it.
    - A Python exception is a value of [exn]; a call that may raise returns
      a [result].
    - What the program obtains from outside (the tokenizer of the standard
      library, the network, [git], the file system) is a section variable of
      the workflow, or an explicit argument. *)

From Stdlib Require Import List String Ascii Bool Arith ZArith Lia.
From Stdlib Require Import Permutation Sorted DecimalString.
Import ListNotations.

Local Open Scope string_scope.
Local Open Scope list_scope.

(* ================================================================== *)
(** * Exceptions and results *)

Inductive exn : Type :=
| TokenError                      (* tokenize.TokenError *)
| IndentationError                (* raised by the tokenizer, not a TokenError *)
| ValueError (msg : string)
| OSError
| CalledProcessError              (* subprocess.run(..., check=True) *)
| TimeoutExpired.                 (* subprocess.TimeoutExpired *)

Inductive result (A : Type) : Type :=
| Ok (a : A)
| Raise (e : exn).
Arguments Ok {A} a.
Arguments Raise {A} e.

Definition rbind {A B : Type} (r : result A) (k : A -> result B) : result B :=
  match r with
  | Ok a => k a
  | Raise e => Raise e
  end.

(* ================================================================== *)
(** * py312_language.py: the frozen language reference *)

Definition frozenset := list string.

(** [s in fs] *)
Definition mem (s : string) (fs : frozenset) : bool :=
  existsb (String.eqb s) fs.

(** [a | b] *)
Definition union (a b : frozenset) : frozenset := a ++ b.

Definition PY312_KWLIST : frozenset :=
  [ "False"; "None"; "True"; "and"; "as"; "assert"; "async"; "await";
    "break"; "class"; "continue"; "def"; "del"; "elif"; "else"; "except";
    "finally"; "for"; "from"; "global"; "if"; "import"; "in"; "is";
    "lambda"; "nonlocal"; "not"; "or"; "pass"; "raise"; "return"; "try";
    "while"; "with"; "yield" ].

Definition PY312_SOFTKWLIST : frozenset := [ "_"; "case"; "match"; "type" ].

Definition PY312_KEYWORDS : frozenset := union PY312_KWLIST PY312_SOFTKWLIST.

Definition PY312_BUILTIN_FUNCTIONS : frozenset :=
  [ "abs"; "aiter"; "all"; "anext"; "any"; "ascii"; "bin"; "bool"; "breakpoint";
    "bytearray"; "bytes"; "callable"; "chr"; "classmethod"; "compile"; "complex";
    "delattr"; "dict"; "dir"; "divmod"; "enumerate"; "eval"; "exec"; "filter";
    "float"; "format"; "frozenset"; "getattr"; "globals"; "hasattr"; "hash";
    "help"; "hex"; "id"; "input"; "int"; "isinstance"; "issubclass"; "iter";
    "len"; "list"; "locals"; "map"; "max"; "memoryview"; "min"; "next";
    "object"; "oct"; "open"; "ord"; "pow"; "print"; "property"; "range";
    "repr"; "reversed"; "round"; "set"; "setattr"; "slice"; "sorted";
    "staticmethod"; "str"; "sum"; "super"; "tuple"; "type"; "vars"; "zip";
    "__import__"; "__build_class__" ].

Definition PY312_BUILTIN_CONSTANTS_AND_TYPES : frozenset :=
  [ "None"; "Ellipsis"; "NotImplemented"; "False"; "True";
    "bool"; "memoryview"; "bytearray"; "bytes"; "classmethod"; "complex";
    "dict"; "enumerate"; "filter"; "float"; "frozenset"; "property"; "int";
    "list"; "map"; "object"; "range"; "reversed"; "set"; "slice";
    "staticmethod"; "str"; "super"; "tuple"; "type"; "zip" ].

Definition PY312_BUILTIN_EXCEPTIONS : frozenset :=
  [ "BaseException"; "Exception"; "ArithmeticError"; "AssertionError";
    "AttributeError"; "BlockingIOError"; "BrokenPipeError"; "BufferError";
    "BytesWarning"; "ChildProcessError"; "ConnectionAbortedError";
    "ConnectionError"; "ConnectionRefusedError"; "ConnectionResetError";
    "DeprecationWarning"; "EOFError"; "EncodingWarning"; "EnvironmentError";
    "FileExistsError"; "FileNotFoundError"; "FloatingPointError";
    "FutureWarning"; "GeneratorExit"; "OSError"; "ImportError";
    "ImportWarning"; "IndentationError"; "IndexError"; "InterruptedError";
    "IsADirectoryError"; "KeyError"; "KeyboardInterrupt"; "LookupError";
    "MemoryError"; "ModuleNotFoundError"; "NameError"; "NotImplementedError";
    "OverflowError"; "PendingDeprecationWarning"; "PermissionError";
    "ProcessLookupError"; "RecursionError"; "ReferenceError"; "ResourceWarning";
    "RuntimeError"; "RuntimeWarning"; "StopAsyncIteration"; "StopIteration";
    "SyntaxError"; "SyntaxWarning"; "SystemError"; "SystemExit"; "TabError";
    "TimeoutError"; "TypeError"; "UnboundLocalError"; "UnicodeDecodeError";
    "UnicodeEncodeError"; "UnicodeError"; "UnicodeTranslateError"; "UnicodeWarning";
    "UserWarning"; "ValueError"; "Warning"; "ZeroDivisionError";
    "BaseExceptionGroup"; "ExceptionGroup" ].

Definition PY312_BUILTINS : frozenset :=
  union (union PY312_BUILTIN_FUNCTIONS PY312_BUILTIN_CONSTANTS_AND_TYPES)
        PY312_BUILTIN_EXCEPTIONS.

Definition PY312_SPECIAL_METHODS : frozenset :=
  [ (* Basic customization *)
    "__init__"; "__new__"; "__del__"; "__repr__"; "__str__"; "__bytes__";
    "__format__"; "__lt__"; "__le__"; "__eq__"; "__ne__"; "__gt__"; "__ge__";
    "__hash__"; "__bool__"; "__getattribute__"; "__getattr__"; "__setattr__";
    "__delattr__"; "__dir__"; "__set_name__"; "__init_subclass__"; "__prepare__";
    "__instancecheck__"; "__subclasscheck__"; "__class_getitem__";
    (* Descriptors *)
    "__get__"; "__set__"; "__delete__"; "__set_name__";
    (* Callable *)
    "__call__";
    (* Container / sequence *)
    "__len__"; "__length_hint__"; "__getitem__"; "__setitem__"; "__delitem__";
    "__iter__"; "__reversed__"; "__contains__"; "__missing__";
    (* Numeric (binary) *)
    "__add__"; "__sub__"; "__mul__"; "__matmul__"; "__truediv__"; "__floordiv__";
    "__mod__"; "__divmod__"; "__pow__"; "__lshift__"; "__rshift__"; "__and__";
    "__xor__"; "__or__";
    "__radd__"; "__rsub__"; "__rmul__"; "__rmatmul__"; "__rtruediv__";
    "__rfloordiv__"; "__rmod__"; "__rdivmod__"; "__rpow__"; "__rlshift__";
    "__rrshift__"; "__rand__"; "__rxor__"; "__ror__";
    "__iadd__"; "__isub__"; "__imul__"; "__imatmul__"; "__itruediv__";
    "__ifloordiv__"; "__imod__"; "__ipow__"; "__ilshift__"; "__irshift__";
    "__iand__"; "__ixor__"; "__ior__";
    (* Numeric (unary / conversion) *)
    "__neg__"; "__pos__"; "__abs__"; "__invert__"; "__complex__"; "__int__";
    "__float__"; "__index__"; "__round__"; "__trunc__"; "__floor__"; "__ceil__";
    (* Context manager *)
    "__enter__"; "__exit__";
    (* Async *)
    "__await__"; "__aiter__"; "__anext__"; "__aenter__"; "__aexit__";
    (* Coroutine *)
    "__coroutine__";
    (* Buffer / memoryview *)
    "__buffer__"; "__release_buffer__";
    (* Module / class *)
    "__mro_entries__"; "__getnewargs__"; "__getnewargs_ex__";
    (* Copy / reduce *)
    "__reduce__"; "__reduce_ex__"; "__copy__"; "__deepcopy__";
    (* String (legacy format) *)
    "__format__";
    (* Slot names used by C API / internals *)
    "__doc__"; "__module__"; "__name__"; "__qualname__"; "__class__";
    "__dict__"; "__weakref__"; "__bases__"; "__mro__"; "__subclasses__";
    "__sizeof__"; "__fspath__" ].

(** The three names [keyword_analytics.py] imports from [py312_language],
    gathered so that the workflow can be read against any reference. *)
Record LanguageReference : Type := {
  KEYWORDS : frozenset;
  BUILTINS : frozenset;
  SPECIAL_METHODS : frozenset
}.

Definition PY312 : LanguageReference :=
  {| KEYWORDS := PY312_KEYWORDS;
     BUILTINS := PY312_BUILTINS;
     SPECIAL_METHODS := PY312_SPECIAL_METHODS |}.

(* ================================================================== *)
(** * collections.Counter *)

(** A counter is its items, in insertion order; keys are pairwise distinct
    (see [counter_wf]). *)
Definition Counter := list (string * nat).

(** [c[k]]: a missing key reads as 0 and is not inserted. *)
Fixpoint counter_get (c : Counter) (k : string) : nat :=
  match c with
  | [] => 0
  | (k', v) :: c' => if String.eqb k k' then v else counter_get c' k
  end.

(** [c[k] = v]: an existing key keeps its position, a new one goes last. *)
Fixpoint counter_set (c : Counter) (k : string) (v : nat) : Counter :=
  match c with
  | [] => [(k, v)]
  | (k', v') :: c' =>
      if String.eqb k k' then (k', v) :: c' else (k', v') :: counter_set c' k v
  end.

(** [c[k] += 1] *)
Definition counter_incr (c : Counter) (k : string) : Counter :=
  counter_set c k (counter_get c k + 1).

(** [c.update(other)] for a mapping [other]:
    [for elem, count in other.items(): c[elem] = count + c.get(elem, 0)]. *)
Definition counter_update (c other : Counter) : Counter :=
  fold_left (fun acc kv => counter_set acc (fst kv) (snd kv + counter_get acc (fst kv)))
            other c.

(** [sum(c.values())] *)
Definition sum_values (c : Counter) : nat :=
  fold_left Nat.add (map snd c) 0.

(** [sorted(...)]: Python's sort is stable, also under [reverse=True]; the
    model is the stable insertion sort for the order [le], where [le x y]
    says that [x] may stand before [y]. *)
Section StableSort.
Context {A : Type}.
Variable le : A -> A -> bool.

Fixpoint insert_by (x : A) (l : list A) : list A :=
  match l with
  | [] => [x]
  | y :: l' => if le x y then x :: y :: l' else y :: insert_by x l'
  end.

Definition sorted_by (l : list A) : list A :=
  fold_right insert_by [] l.
End StableSort.

(** The order of [key=itemgetter(1), reverse=True]: larger counts first. *)
Definition count_ge (x y : string * nat) : bool := Nat.leb (snd y) (snd x).

(** [c.most_common()]:
    [sorted(self.items(), key=itemgetter(1), reverse=True)] *)
Definition most_common (c : Counter) : list (string * nat) :=
  sorted_by count_ge c.

(** [dict(pairs)] *)
Definition dict_of (pairs : list (string * nat)) : Counter :=
  fold_left (fun d kv => counter_set d (fst kv) (snd kv)) pairs [].

Definition keys (c : Counter) : list string := map fst c.

Definition counter_wf (c : Counter) : Prop := NoDup (keys c).

(* ================================================================== *)
(** * Python string methods used by the program *)

Definition code (c : ascii) : nat := nat_of_ascii c.

Definition in_range (lo hi n : nat) : bool := Nat.leb lo n && Nat.leb n hi.

(** [str.isspace] on one character (code points below 256). *)
Definition isspace (c : ascii) : bool :=
  let n := code c in
  in_range 9 13 n || in_range 28 32 n || Nat.eqb n 133 || Nat.eqb n 160.

Definition is_ascii_letter (c : ascii) : bool :=
  let n := code c in in_range 65 90 n || in_range 97 122 n.

Definition is_ascii_digit (c : ascii) : bool := in_range 48 57 (code c).

(** The class [\w] of a [str] pattern: alphanumeric or underscore. Below 256
    the alphanumeric code points outside ASCII are the Latin-1 letters and
    the superscript digits and fractions. *)
Definition is_word (c : ascii) : bool :=
  let n := code c in
  is_ascii_letter c || is_ascii_digit c || Nat.eqb n 95
  || Nat.eqb n 170 || Nat.eqb n 178 || Nat.eqb n 179 || Nat.eqb n 181
  || Nat.eqb n 185 || Nat.eqb n 186 || in_range 188 190 n
  || in_range 192 214 n || in_range 216 246 n || in_range 248 255 n.

Fixpoint lstrip (s : string) : string :=
  match s with
  | EmptyString => EmptyString
  | String c s' => if isspace c then lstrip s' else s
  end.

(** [rstrip_by p s] removes the longest suffix of characters satisfying [p]. *)
Fixpoint rstrip_by (p : ascii -> bool) (s : string) : string :=
  match s with
  | EmptyString => EmptyString
  | String c s' =>
      match rstrip_by p s' with
      | EmptyString => if p c then EmptyString else String c EmptyString
      | r => String c r
      end
  end.

(** [s.strip()] *)
Definition strip (s : string) : string := rstrip_by isspace (lstrip s).

(** [s.endswith(suffix)] *)
Definition endswith (s suffix : string) : bool :=
  Nat.leb (String.length suffix) (String.length s)
  && String.eqb (substring (String.length s - String.length suffix)
                           (String.length suffix) s) suffix.

(** [sub in s] *)
Fixpoint contains (sub s : string) : bool :=
  match s with
  | EmptyString => String.eqb sub EmptyString
  | String _ s' => prefix sub s || contains sub s'
  end.

(** [s.split(sep)[-1]] for a one-character separator: what follows the last
    separator. *)
Fixpoint last_segment (sep : ascii) (s : string) : string :=
  match s with
  | EmptyString => EmptyString
  | String c s' =>
      if Ascii.eqb c sep then last_segment sep s'
      else if contains (String sep EmptyString) s' then last_segment sep s'
      else s
  end.

(** [s.replace(old, '')] for a non-empty [old]: occurrences are removed from
    left to right without overlap. [skip] counts the characters of an
    occurrence still to be dropped. *)
Fixpoint remove_all_from (old : string) (skip : nat) (s : string) : string :=
  match s with
  | EmptyString => EmptyString
  | String c s' =>
      match skip with
      | S k => remove_all_from old k s'
      | O =>
          if prefix old s then remove_all_from old (String.length old - 1) s'
          else String c (remove_all_from old 0 s')
      end
  end.

Definition remove_all (old s : string) : string := remove_all_from old 0 s.

(** [s[:n]] *)
Definition take_prefix (n : nat) (s : string) : string := substring 0 n s.

(** The pattern [^[\w.-]+/[\w.-]+$], tried with [re.match]. *)
Definition is_repo_char (c : ascii) : bool :=
  is_word c || Ascii.eqb c "."%char || Ascii.eqb c "-"%char.

(** [all_repo_chars s]: [s] is a non-empty run of the class. *)
Fixpoint all_repo_chars (s : string) : bool :=
  match s with
  | EmptyString => false
  | String c EmptyString => is_repo_char c
  | String c s' => is_repo_char c && all_repo_chars s'
  end.

(** After a non-empty run of the class: a slash, then a non-empty run of the
    class up to the end, where [$] also accepts one final newline. *)
Fixpoint owner_then_repo (seen_owner : bool) (s : string) : bool :=
  match s with
  | EmptyString => false
  | String c s' =>
      if is_repo_char c then owner_then_repo true s'
      else if Ascii.eqb c "/"%char then
        seen_owner
        && (all_repo_chars s'
            || (endswith s' (String "010"%char EmptyString)
                && all_repo_chars (substring 0 (String.length s' - 1) s')))
      else false
  end.

Definition re_match_owner_repo (s : string) : bool := owner_then_repo false s.

(** [len(s.encode("utf-8", errors="replace"))]: a code point below 128 takes
    one byte, one from 128 to 255 takes two. *)
Fixpoint utf8_len (s : string) : nat :=
  match s with
  | EmptyString => 0
  | String c s' => (if Nat.ltb (code c) 128 then 1 else 2) + utf8_len s'
  end.

(* ================================================================== *)
(** * tokenize: what the program sees of the standard tokenizer *)

Inductive token_type : Type :=
| NAME | NUMBER | STRING | OP | COMMENT | NEWLINE | NL
| INDENT | DEDENT | ENDMARKER | ERRORTOKEN.

Definition token_type_eqb (a b : token_type) : bool :=
  match a, b with
  | NAME, NAME | NUMBER, NUMBER | STRING, STRING | OP, OP
  | COMMENT, COMMENT | NEWLINE, NEWLINE | NL, NL | INDENT, INDENT
  | DEDENT, DEDENT | ENDMARKER, ENDMARKER | ERRORTOKEN, ERRORTOKEN => true
  | _, _ => false
  end.

(** The two fields of [tokenize.TokenInfo] that the program reads. *)
Record TokenInfo : Type := { tok_type : token_type; tok_string : string }.

(** How a generator ends: exhausted, or by raising. *)
Inductive stream_end : Type :=
| StopIteration
| Raised (e : exn).

(** One run of the generator [tokenize.generate_tokens(readline)]: the tokens
    it yields, in order, and how it ends. *)
Definition TokenStream : Type := (list TokenInfo * stream_end)%type.

(* ================================================================== *)
(** * The analysis result *)

(** The dictionary under ["meta"]; a key that a workflow does not set is
    [None]. *)
Record Meta : Type := {
  source : string;
  language_reference : string;
  files_processed : option nat;
  total_tokens_analyzed : nat;
  total_keyword_occurrences : nat;
  total_builtin_occurrences : nat;
  total_dunder_occurrences : nat;
  total_bytes : option nat;
  repo_url : option string;
  cpython_root : option string
}.

Record AnalysisResult : Type := {
  meta : Meta;
  keyword_freq : Counter;
  builtin_freq : Counter;
  dunder_freq : Counter
}.

(** [result["meta"]["repo_url"] = url] *)
Definition set_repo_url (url : string) (r : AnalysisResult) : AnalysisResult :=
  let m := meta r in
  {| meta := {| source := source m;
                language_reference := language_reference m;
                files_processed := files_processed m;
                total_tokens_analyzed := total_tokens_analyzed m;
                total_keyword_occurrences := total_keyword_occurrences m;
                total_builtin_occurrences := total_builtin_occurrences m;
                total_dunder_occurrences := total_dunder_occurrences m;
                total_bytes := total_bytes m;
                repo_url := Some url;
                cpython_root := cpython_root m |};
     keyword_freq := keyword_freq r;
     builtin_freq := builtin_freq r;
     dunder_freq := dunder_freq r |}.

(** [result["meta"]["cpython_root"] = root] *)
Definition set_cpython_root (root : string) (r : AnalysisResult) : AnalysisResult :=
  let m := meta r in
  {| meta := {| source := source m;
                language_reference := language_reference m;
                files_processed := files_processed m;
                total_tokens_analyzed := total_tokens_analyzed m;
                total_keyword_occurrences := total_keyword_occurrences m;
                total_builtin_occurrences := total_builtin_occurrences m;
                total_dunder_occurrences := total_dunder_occurrences m;
                total_bytes := total_bytes m;
                repo_url := repo_url m;
                cpython_root := Some root |};
     keyword_freq := keyword_freq r;
     builtin_freq := builtin_freq r;
     dunder_freq := dunder_freq r |}.

(* ================================================================== *)
(** * The file system under a repository root *)

(** A path below the root, as its components, with what
    [path.read_text(encoding="utf-8", errors="replace")] does there: the
    decoded text, or [OSError] (unreadable file, directory, dangling link). *)
Record Entry : Type := {
  parts : list string;
  read_text : result string
}.

(** Everything below a root, files and directories at any depth, in the
    order in which the file system enumerates it. *)
Definition Directory : Type := list Entry.

(** The final component of a path. *)
Definition name (p : list string) : string := last p EmptyString.

(** [root.rglob("*.py")]: the paths whose final component matches [*.py]. *)
Definition rglob_py (root : Directory) : list Entry :=
  filter (fun e => endswith (name (parts e)) ".py") root.

(** The order of [pathlib] paths: components compared one after the other. *)
Fixpoint path_compare (p q : list string) : comparison :=
  match p, q with
  | [], [] => Eq
  | [], _ :: _ => Lt
  | _ :: _, [] => Gt
  | a :: p', b :: q' =>
      match String.compare a b with
      | Eq => path_compare p' q'
      | c => c
      end
  end.

Definition path_le (a b : Entry) : bool :=
  match path_compare (parts a) (parts b) with
  | Gt => false
  | _ => true
  end.

(* ================================================================== *)
(** * Work performed *)

(** The computations of the directory workflows run in an error monad that
    also records, in order, each source text handed to the tokenizer. The
    record is not program state: it is what "tokenization work" means. *)
Definition Work (A : Type) : Type := list string -> result A * list string.

Definition ret {A : Type} (a : A) : Work A := fun w => (Ok a, w).

Definition raise {A : Type} (e : exn) : Work A := fun w => (Raise e, w).

Definition bind {A B : Type} (m : Work A) (k : A -> Work B) : Work B :=
  fun w =>
    match m w with
    | (Ok a, w') => k a w'
    | (Raise e, w') => (Raise e, w')
    end.

(** A pure call that may raise. *)
Definition lift {A : Type} (r : result A) : Work A := fun w => (r, w).

(** Note that [src] goes through the tokenizer. *)
Definition tokenizing (src : string) : Work unit := fun w => (Ok tt, w ++ [src]).

Declare Scope work_scope.
Delimit Scope work_scope with work.
Notation "x <- m ;; k" := (bind m (fun x => k))
  (at level 61, m at next level, right associativity) : work_scope.
Notation "m ;;; k" := (bind m (fun _ => k))
  (at level 61, right associativity) : work_scope.

(** The local variables of the loop of [_run_workflow_directory]. *)
Module Loop.
Record state : Type := {
  keyword_totals : Counter;
  builtin_totals : Counter;
  dunder_totals : Counter;
  total_tokens : nat;
  files_processed : nat;
  total_bytes : nat
}.

Definition init : state :=
  {| keyword_totals := []; builtin_totals := []; dunder_totals := [];
     total_tokens := 0; files_processed := 0; total_bytes := 0 |}.
End Loop.

(** Decimal rendering of an [int] inside an f-string. *)
Definition str_of_nat (n : nat) : string :=
  DecimalString.NilZero.string_of_uint (Nat.to_uint n).

Definition str_of_Z (z : Z) : string :=
  DecimalString.NilZero.string_of_int (Z.to_int z).

(* ================================================================== *)
(** * keyword_analytics.py *)

Definition token : Type := (string * string)%type.

(** The last steps of [clone_repo], on the path [repo_path = target_dir /
    name], over a file system: [if repo_path.exists():
    shutil.rmtree(repo_path)], then the [git] subprocess. [FS] are the states
    of the file system; [rmtree] and [git] give the state they leave or the
    exception they raise; [iterdir] lists the directories then found under
    [target_dir], as [run_workflow_repo] reads them. A path is given by its
    [name] under [target_dir]. *)
Section CloneSteps.
Variable FS : Type.
Variable path_exists : FS -> string -> bool.
Variable rmtree : FS -> string -> result FS.
Variable git : FS -> string -> string -> Z -> result FS.
Variable iterdir : FS -> list Directory.

Definition remove_then_clone (work : FS) (url name : string)
           (timeout_seconds : Z) : result (list Directory) :=
  rbind (if path_exists work name then rmtree work name else Ok work)
        (fun cleared =>
           rbind (git cleared url name timeout_seconds)
                 (fun cloned => Ok (iterdir cloned))).

End CloneSteps.

Section Workflow.

(** [PY312_KEYWORDS], [PY312_BUILTINS], [PY312_SPECIAL_METHODS]. *)
Variable lang : LanguageReference.

(** [tokenize.generate_tokens(io.StringIO(source).readline)]. *)
Variable generate_tokens : string -> TokenStream.

(** [urllib.request.urlopen(url, timeout=30)] read and decoded, or the
    exception it raises. *)
Variable urlopen_read : string -> result string.

(** What [clone_repo] does to the path [work / name] of a fresh working
    directory, for a clone URL and a timeout: the removal of the path where
    it exists ([shutil.rmtree]), then [git clone --depth 1 url work/name]
    under the timeout. It gives the exception raised by either step, or the
    directories then found in the working directory, in [iterdir] order.
    [remove_then_clone] spells the two steps out over a file system. *)
Variable git_clone : string -> string -> Z -> result (list Directory).

Definition fetch_corpus_into_ram (url : string) : result string :=
  urlopen_read url.

(** One turn of the loop of [tokenize_source]. *)
Definition tokenize_step (tokens : list token) (tok : TokenInfo) : list token :=
  if negb (token_type_eqb (tok_type tok) NAME) then tokens
  else if mem (tok_string tok) (KEYWORDS lang)
       then tokens ++ [("keyword", tok_string tok)]
       else tokens ++ [("name", tok_string tok)].

(** The loop runs for each token yielded; [except tokenize.TokenError:
    pass] keeps what was appended so far, any other exception leaves the
    function. *)
Definition tokenize_source (source : string) : result (list token) :=
  let '(yielded, fin) := generate_tokens source in
  let tokens := fold_left tokenize_step yielded [] in
  match fin with
  | StopIteration => Ok tokens
  | Raised TokenError => Ok tokens
  | Raised e => Raise e
  end.

(** One turn of the loop of [count_keywords_builtins_dunder]. *)
Definition count_step (counts : Counter * Counter * Counter) (tok : token)
  : Counter * Counter * Counter :=
  let '(keyword_counts, builtin_counts, dunder_counts) := counts in
  let '(kind, s) := tok in
  if String.eqb kind "keyword" then
    (counter_incr keyword_counts s, builtin_counts, dunder_counts)
  else if String.eqb kind "name" then
    let builtin_counts :=
      if mem s (BUILTINS lang) then counter_incr builtin_counts s
      else builtin_counts in
    let dunder_counts :=
      if mem s (SPECIAL_METHODS lang) then counter_incr dunder_counts s
      else dunder_counts in
    (keyword_counts, builtin_counts, dunder_counts)
  else counts.

Definition count_keywords_builtins_dunder (tokens : list token)
  : Counter * Counter * Counter :=
  fold_left count_step tokens ([], [], []).

Definition run_workflow (corpus_url in_memory_source : option string)
  : result AnalysisResult :=
  rbind
    (match in_memory_source, corpus_url with
     | Some src, _ => Ok (src, "in_memory")
     | None, Some (String c u) =>
         rbind (fetch_corpus_into_ram (String c u))
               (fun src => Ok (src, String c u))
     | None, _ => Raise (ValueError "Provide either corpus_url or in_memory_source")
     end)
    (fun '(source, source_note) =>
  rbind (tokenize_source source) (fun tokens =>
  let '(keyword_freq, builtin_freq, dunder_freq) :=
    count_keywords_builtins_dunder tokens in
  Ok {| meta :=
          {| source := source_note;
             language_reference := "Python 3.12 (frozen)";
             files_processed := None;
             total_tokens_analyzed := List.length tokens;
             total_keyword_occurrences := sum_values keyword_freq;
             total_builtin_occurrences := sum_values builtin_freq;
             total_dunder_occurrences := sum_values dunder_freq;
             total_bytes := None;
             repo_url := None;
             cpython_root := None |};
        keyword_freq := dict_of (most_common keyword_freq);
        builtin_freq := dict_of (most_common builtin_freq);
        dunder_freq := dict_of (most_common dunder_freq) |})).

Local Open Scope work_scope.

(** The body of the loop over [py_files], for one path. *)
Definition process_file (st : Loop.state) (path : Entry) : Work Loop.state :=
  match read_text path with
  | Raise OSError => ret st                           (* continue *)
  | Raise e => raise e
  | Ok source =>
      let total_bytes := Loop.total_bytes st + utf8_len source in
      tokenizing source ;;;
      tokens <- lift (tokenize_source source) ;;
      let '(kw, blt, dnd) := count_keywords_builtins_dunder tokens in
      ret {| Loop.keyword_totals := counter_update (Loop.keyword_totals st) kw;
             Loop.builtin_totals := counter_update (Loop.builtin_totals st) blt;
             Loop.dunder_totals := counter_update (Loop.dunder_totals st) dnd;
             Loop.total_tokens := Loop.total_tokens st + List.length tokens;
             Loop.files_processed := Loop.files_processed st + 1;
             Loop.total_bytes := total_bytes |}
  end.

Fixpoint process_files (py_files : list Entry) (st : Loop.state) : Work Loop.state :=
  match py_files with
  | [] => ret st
  | path :: rest => st' <- process_file st path ;; process_files rest st'
  end.

Definition _run_workflow_directory (repo_root : Directory) (source_label : string)
  : Work AnalysisResult :=
  let py_files := sorted_by path_le (rglob_py repo_root) in
  st <- process_files py_files Loop.init ;;
  ret {| meta :=
           {| source := source_label;
              language_reference := "Python 3.12 (frozen)";
              files_processed := Some (Loop.files_processed st);
              total_tokens_analyzed := Loop.total_tokens st;
              total_keyword_occurrences := sum_values (Loop.keyword_totals st);
              total_builtin_occurrences := sum_values (Loop.builtin_totals st);
              total_dunder_occurrences := sum_values (Loop.dunder_totals st);
              total_bytes := Some (Loop.total_bytes st);
              repo_url := None;
              cpython_root := None |};
         keyword_freq := dict_of (most_common (Loop.keyword_totals st));
         builtin_freq := dict_of (most_common (Loop.builtin_totals st));
         dunder_freq := dict_of (most_common (Loop.dunder_totals st)) |}.

Definition _normalize_repo_url (repo_input : string) : string :=
  let s := strip repo_input in
  if re_match_owner_repo s then "https://github.com/" ++ s ++ ".git"
  else if contains "github.com" s && negb (endswith s ".git") then
    (if endswith s "/" then s else s ++ ".git")
  else s.

(** [clone_repo] computes the clone URL and the directory name, then runs
    the removal and the clone on [target_dir / name] (the step [git_clone]).
    It returns [target_dir / name]; the model returns what the step leaves
    in the working directory. *)
Definition clone_repo (repo_url : string) (timeout_seconds : Z)
  : result (list Directory) :=
  let url := _normalize_repo_url repo_url in
  let name :=
    match remove_all ".git"
            (last_segment "/"%char (rstrip_by (Ascii.eqb "/"%char) url)) with
    | EmptyString => "repo"
    | n => n
    end in
  git_clone url name timeout_seconds.

Definition no_py_files_error : exn :=
  ValueError "Repository contains no .py files".

Definition too_many_files_error (py_count : nat) (max_files : Z) : exn :=
  ValueError ("Repository has " ++ str_of_nat py_count
              ++ " .py files; max allowed is " ++ str_of_Z max_files).

Definition run_workflow_repo (repo_url : string) (timeout_seconds max_files : Z)
  : Work AnalysisResult :=
  children <- lift (clone_repo repo_url timeout_seconds) ;;
  match children with
  | [] => raise (ValueError "Clone produced no directory")
  | repo_root :: _ =>
      let py_count := List.length (rglob_py repo_root) in
      if Nat.eqb py_count 0 then raise no_py_files_error
      else if (max_files <? Z.of_nat py_count)%Z
           then raise (too_many_files_error py_count max_files)
      else
        result <- _run_workflow_directory repo_root repo_url ;;
        ret (set_repo_url repo_url result)
  end.

Definition run_workflow_cpython (cpython_root : string) (tree : Directory)
  : Work AnalysisResult :=
  result <- _run_workflow_directory tree "python/cpython (full repo)" ;;
  ret (set_cpython_root cpython_root result).

End Workflow.

(** The defaults of [run_workflow_repo]. *)
Definition default_timeout_seconds : Z := 120.
Definition default_max_files : Z := 50000.

(* ================================================================== *)
(** * app.py *)

Section Cache.
(** [hashlib.sha256(text.encode()).hexdigest()]. *)
Variable sha256_hexdigest : string -> string.

Definition _cache_key (repo : string) : string :=
  let url := _normalize_repo_url repo in
  take_prefix 24 (sha256_hexdigest url).
End Cache.

(* ================================================================== *)
(** * A model of the standard tokenizer

    [generate_tokens] below follows the tokenizer behind
    [tokenize.generate_tokens] in CPython 3.12: names, numbers, string
    literals, comments, operators, bracket nesting, logical lines and
    indentation. It is total and reads its input once, from left to right.

    It ends by [TokenError] on: end of input inside brackets or inside a
    triple-quoted string, a single-quoted string not closed on its line, a
    stray backslash, a non-printable character, more than 200 nested
    brackets. It ends by [IndentationError] on a dedent to a column that is
    not on the indentation stack, on inconsistent tabs and spaces, and on
    more than 100 indentation levels.

    Not modelled: f-strings are delivered as one [STRING] token (their
    replacement fields are not tokenized); numeric literals are not checked
    for malformed digit groups; characters from 128 on count as identifier
    characters unchecked; a carriage return counts as white space. *)
Module Lexer.

Fixpoint take_while {A : Type} (p : A -> bool) (l : list A) : list A :=
  match l with
  | c :: l' => if p c then c :: take_while p l' else []
  | [] => []
  end.

Definition is_ch (ch : string) (c : ascii) : bool :=
  match ch with
  | String d EmptyString => Ascii.eqb c d
  | _ => false
  end.

(** [c] is one of the characters of [chars]. *)
Fixpoint one_of (chars : string) (c : ascii) : bool :=
  match chars with
  | EmptyString => false
  | String d chars' => Ascii.eqb c d || one_of chars' c
  end.

Definition newline : ascii := "010"%char.
Definition tab : ascii := "009"%char.
Definition formfeed : ascii := "012"%char.
Definition carriage_return : ascii := "013"%char.
Definition backslash : ascii := "\"%char.
Definition quote : ascii := "'"%char.
Definition dquote : ascii := "034"%char.

Definition is_newline (c : ascii) : bool := Ascii.eqb c newline.
Definition is_quote (c : ascii) : bool := Ascii.eqb c quote || Ascii.eqb c dquote.
Definition is_blank (c : ascii) : bool :=
  is_ch " " c || Ascii.eqb c tab || Ascii.eqb c formfeed || Ascii.eqb c carriage_return.

Definition is_ident_start (c : ascii) : bool :=
  is_ascii_letter c || is_ch "_" c || Nat.leb 128 (code c).
Definition is_ident_char (c : ascii) : bool :=
  is_ident_start c || is_ascii_digit c.

Definition is_printable (c : ascii) : bool :=
  Nat.leb 32 (code c) && negb (Nat.eqb (code c) 127).

Definition text (l : list ascii) : string := string_of_list_ascii l.

(** ** Literals *)

Definition lower (c : ascii) : ascii :=
  if in_range 65 90 (code c) then ascii_of_nat (code c + 32) else c.

(** The prefixes of a string literal, in any case. *)
Definition is_string_prefix (nm : list ascii) : bool :=
  existsb (String.eqb (text (map lower nm)))
          ["r"; "u"; "b"; "f"; "br"; "rb"; "fr"; "rf"].

(** After the opening quote [q] of a single-quoted literal: the number of
    characters up to and including the closing quote, if it is closed on
    the line. A backslash takes the next character with it. *)
Fixpoint short_string_len (q : ascii) (l : list ascii) : option nat :=
  match l with
  | [] => None
  | c :: l' =>
      if Ascii.eqb c q then Some 1
      else if is_newline c then None
      else if Ascii.eqb c backslash then
        match l' with
        | [] => None
        | _ :: l'' => option_map (fun n => 2 + n) (short_string_len q l'')
        end
      else option_map S (short_string_len q l')
  end.

(** After the opening quotes of a triple-quoted literal: the number of
    characters up to and including the closing three quotes. *)
Fixpoint long_string_len (q : ascii) (l : list ascii) : option nat :=
  match l with
  | [] => None
  | c :: l' =>
      if Ascii.eqb c backslash then
        match l' with
        | [] => None
        | _ :: l'' => option_map (fun n => 2 + n) (long_string_len q l'')
        end
      else if Ascii.eqb c q then
        match l' with
        | c1 :: c2 :: _ =>
            if Ascii.eqb c1 q && Ascii.eqb c2 q then Some 3
            else option_map S (long_string_len q l')
        | _ => None
        end
      else option_map S (long_string_len q l')
  end.

(** The length of the string literal whose opening quote [q] is followed
    by [l], or [None] when the literal is not terminated. *)
Definition string_len (q : ascii) (l : list ascii) : option nat :=
  match l with
  | c1 :: c2 :: l' =>
      if Ascii.eqb c1 q && Ascii.eqb c2 q
      then option_map (fun n => 3 + n) (long_string_len q l')
      else option_map S (short_string_len q l)
  | _ => option_map S (short_string_len q l)
  end.

Definition is_digit_part (c : ascii) : bool := is_ascii_digit c || is_ch "_" c.
Definition is_hex_part (c : ascii) : bool :=
  is_digit_part c || one_of "abcdefABCDEF" c.

Definition exponent_len (l : list ascii) : nat :=
  match l with
  | e :: d :: l' =>
      if one_of "eE" e then
        if is_ascii_digit d then 1 + List.length (take_while is_digit_part (d :: l'))
        else if one_of "+-" d then
          match l' with
          | d' :: _ =>
              if is_ascii_digit d'
              then 2 + List.length (take_while is_digit_part l')
              else 0
          | [] => 0
          end
        else 0
      else 0
  | _ => 0
  end.

Definition decimal_len (l : list ascii) : nat :=
  let n1 := List.length (take_while is_digit_part l) in
  let l1 := skipn n1 l in
  let n2 := match l1 with
            | c :: l2 =>
                if is_ch "." c then 1 + List.length (take_while is_digit_part l2) else 0
            | [] => 0
            end in
  let l2 := skipn n2 l1 in
  let n3 := exponent_len l2 in
  let n4 := match skipn n3 l2 with
            | j :: _ => if one_of "jJ" j then 1 else 0
            | [] => 0
            end in
  n1 + n2 + n3 + n4.

(** The length of the numeric literal at the head of [l]. *)
Definition number_len (l : list ascii) : nat :=
  match l with
  | z :: x :: l' =>
      if is_ch "0" z && one_of "xXoObB" x
      then 2 + List.length (take_while is_hex_part l')
      else decimal_len l
  | _ => decimal_len l
  end.

(** The length of the operator that starts with [c], followed by [l]. *)
Definition op_len (c : ascii) (l : list ascii) : nat :=
  let three := existsb (String.eqb (text (c :: firstn 2 l)))
                       ["**="; "//="; ">>="; "<<="; "..."] in
  let two := existsb (String.eqb (text (c :: firstn 1 l)))
                     ["!="; "%="; "&="; "**"; "*="; "+="; "-="; "->"; "//";
                      "/="; ":="; "<<"; "<="; "<>"; "=="; ">="; ">>"; "@=";
                      "^="; "|="] in
  if three then 3 else if two then 2 else 1.

(** ** The scanner *)

Record state : Type := {
  skip : nat;                   (* characters the last token still covers *)
  at_bol : bool;                (* at the beginning of a line *)
  seen : bool;                  (* the logical line has a token *)
  level : nat;                  (* open brackets *)
  indents : list (nat * nat);   (* indentation stack, innermost first *)
  out : list TokenInfo          (* tokens yielded, latest first *)
}.

Definition init : state :=
  {| skip := 0; at_bol := true; seen := false; level := 0;
     indents := []; out := [] |}.

Definition tk (ty : token_type) (l : list ascii) : TokenInfo :=
  {| tok_type := ty; tok_string := text l |}.

(** Yield a token of [n] characters that starts at the current one. *)
Definition yield (ty : token_type) (l : list ascii) (st : state) : state :=
  {| skip := List.length l - 1; at_bol := false; seen := true;
     level := level st; indents := indents st;
     out := tk ty l :: out st |}.

Definition with_level (n : nat) (st : state) : state :=
  {| skip := skip st; at_bol := at_bol st; seen := seen st;
     level := n; indents := indents st; out := out st |}.

Definition skipping (n : nat) (st : state) : state :=
  {| skip := n; at_bol := false; seen := seen st;
     level := level st; indents := indents st; out := out st |}.

(** The column reached by the white space at the head of a line, with tabs
    to the next multiple of 8 ([col]) and of 1 ([altcol]), and the rest of
    the line. *)
Fixpoint measure (l : list ascii) (col altcol : nat) : nat * nat * list ascii :=
  match l with
  | c :: l' =>
      if is_ch " " c then measure l' (S col) (S altcol)
      else if Ascii.eqb c tab then measure l' ((col / 8 + 1) * 8) (S altcol)
      else if Ascii.eqb c formfeed then measure l' 0 0
      else (col, altcol, l)
  | [] => (col, altcol, [])
  end.

Definition top (stack : list (nat * nat)) : nat * nat := hd (0, 0) stack.

(** Leave the indentation levels deeper than [col], one [DEDENT] each. *)
Fixpoint dedent (col : nat) (stack : list (nat * nat)) (out : list TokenInfo)
  : list (nat * nat) * list TokenInfo :=
  match stack with
  | (c, _) :: stack' =>
      if Nat.ltb col c then dedent col stack' (tk DEDENT [] :: out)
      else (stack, out)
  | [] => ([], out)
  end.

(** At the beginning of a line: blank lines and lines inside brackets
    leave the indentation alone; otherwise the column is compared with the
    indentation stack. *)
Definition begin_line (l : list ascii) (st : state) : result state :=
  let '(col, altcol, rest) := measure l 0 0 in
  let blank := match rest with
               | [] => true
               | c :: _ => is_ch "#" c || is_newline c || Ascii.eqb c carriage_return
               end in
  let st0 := {| skip := skip st; at_bol := false; seen := seen st;
                level := level st; indents := indents st; out := out st |} in
  if blank || negb (Nat.eqb (level st) 0) then Ok st0
  else
    let '(tcol, talt) := top (indents st) in
    if Nat.eqb col tcol then
      if Nat.eqb altcol talt then Ok st0 else Raise IndentationError
    else if Nat.ltb tcol col then
      if Nat.leb 99 (List.length (indents st)) then Raise IndentationError
      else if Nat.leb altcol talt then Raise IndentationError
      else Ok {| skip := skip st; at_bol := false; seen := seen st;
                 level := level st; indents := (col, altcol) :: indents st;
                 out := tk INDENT (firstn (List.length l - List.length rest) l)
                        :: out st |}
    else
      let '(stack, out') := dedent col (indents st) (out st) in
      let '(tcol', talt') := top stack in
      if negb (Nat.eqb col tcol') then Raise IndentationError
      else if negb (Nat.eqb altcol talt') then Raise IndentationError
      else Ok {| skip := skip st; at_bol := false; seen := seen st;
                 level := level st; indents := stack; out := out' |}.

(** The token, if any, that starts at [c], which is followed by [rest]. *)
Definition scan_token (c : ascii) (rest : list ascii) (st : state) : result state :=
  if is_newline c then
    Ok {| skip := 0; at_bol := true; seen := false;
          level := level st; indents := indents st;
          out := tk (if Nat.eqb (level st) 0 && seen st then NEWLINE else NL) [c]
                 :: out st |}
  else if is_blank c then Ok st
  else if is_ch "#" c then
    let body := c :: take_while (fun x => negb (is_newline x)) rest in
    Ok {| skip := List.length body - 1; at_bol := false; seen := seen st;
          level := level st; indents := indents st;
          out := tk COMMENT body :: out st |}
  else if Ascii.eqb c backslash then
    match rest with
    | n :: _ => if is_newline n then Ok (skipping 1 st) else Raise TokenError
    | [] => Raise TokenError
    end
  else if is_ident_start c then
    let nm := c :: take_while is_ident_char rest in
    match skipn (List.length nm - 1) rest with
    | q :: after =>
        if is_quote q && is_string_prefix nm then
          match string_len q after with
          | Some n => Ok (yield STRING (nm ++ firstn n (q :: after)) st)
          | None => Raise TokenError
          end
        else Ok (yield NAME nm st)
    | [] => Ok (yield NAME nm st)
    end
  else if is_ascii_digit c
          || (is_ch "." c && match rest with d :: _ => is_ascii_digit d | [] => false end)
  then Ok (yield NUMBER (firstn (number_len (c :: rest)) (c :: rest)) st)
  else if is_quote c then
    match string_len c rest with
    | Some n => Ok (yield STRING (firstn n (c :: rest)) st)
    | None => Raise TokenError
    end
  else if one_of "([{" c then
    if Nat.leb 200 (level st) then Raise TokenError
    else Ok (with_level (S (level st)) (yield OP [c] st))
  else if one_of ")]}" c then
    Ok (with_level (Nat.pred (level st)) (yield OP [c] st))
  else if negb (is_printable c) then Raise TokenError
  else if one_of "$?`" c then Ok (yield ERRORTOKEN [c] st)
  else Ok (yield OP (firstn (op_len c rest) (c :: rest)) st).

(** At the end of the input. *)
Definition finish (st : state) : TokenStream :=
  if negb (Nat.eqb (level st) 0) then (rev (out st), Raised TokenError)
  else
    let out1 := if seen st then tk NEWLINE [] :: out st else out st in
    let out2 := map (fun _ => tk DEDENT []) (indents st) ++ out1 in
    (rev (tk ENDMARKER [] :: out2), StopIteration).

(** One pass over the characters; those covered by the last token are
    passed over. *)
Fixpoint scan (l : list ascii) (st : state) : TokenStream :=
  match l with
  | [] => finish st
  | c :: rest =>
      match skip st with
      | S k =>
          scan rest {| skip := k; at_bol := at_bol st; seen := seen st;
                       level := level st; indents := indents st; out := out st |}
      | O =>
          match (if at_bol st then begin_line l st else Ok st) with
          | Raise e => (rev (out st), Raised e)
          | Ok st1 =>
              match scan_token c rest st1 with
              | Raise e => (rev (out st1), Raised e)
              | Ok st2 => scan rest st2
              end
          end
      end
  end.

Definition generate_tokens (source : string) : TokenStream :=
  scan (list_ascii_of_string source) init.

End Lexer.

(* ================================================================== *)
(** * Vocabulary of the properties *)

(** The counter obtained by counting the names of a list one by one. *)
Definition tally (names : list string) : Counter :=
  fold_left counter_incr names [].

(** The distinct names of a list, each at the place of its first
    occurrence. *)
Definition first_seen (names : list string) : list string :=
  fold_left (fun acc x => if mem x acc then acc else acc ++ [x]) names [].

(** The number of occurrences of [k] in [names]. *)
Definition occurrences (names : list string) (k : string) : nat :=
  count_occ string_dec names k.

(** The texts of the [NAME] tokens of a token sequence. *)
Definition name_strings (yielded : list TokenInfo) : list string :=
  map tok_string
      (filter (fun tok => token_type_eqb (tok_type tok) NAME) yielded).

Section Vocabulary.
Variable lang : LanguageReference.
Variable generate_tokens : string -> TokenStream.

(** The pair that [tokenize_source] appends for a name. *)
Definition classify (s : string) : token :=
  (if mem s (KEYWORDS lang) then "keyword" else "name", s).

(** The names that go to each of the three tables. *)
Definition keyword_names (names : list string) : list string :=
  filter (fun s => mem s (KEYWORDS lang)) names.

Definition builtin_names (names : list string) : list string :=
  filter (fun s => negb (mem s (KEYWORDS lang)) && mem s (BUILTINS lang)) names.

Definition dunder_names (names : list string) : list string :=
  filter (fun s => negb (mem s (KEYWORDS lang)) && mem s (SPECIAL_METHODS lang))
         names.

(** The names scanned from a source text before the scan ends. *)
Definition scanned_names (source : string) : list string :=
  name_strings (fst (generate_tokens source)).

(** The names scanned during a walk over files, in the order of the
    walk; a file that cannot be read contributes nothing. *)
Definition walked_names (py_files : list Entry) : list string :=
  flat_map (fun path => match read_text path with
                        | Ok source => scanned_names source
                        | Raise _ => []
                        end) py_files.

(** The files of a walk that can be read. *)
Definition readable (py_files : list Entry) : list Entry :=
  filter (fun path => match read_text path with
                      | Ok _ => true
                      | Raise _ => false
                      end) py_files.
End Vocabulary.

(** The files that [_run_workflow_directory] walks, in its order. *)
Definition py_files_of (repo_root : Directory) : list Entry :=
  sorted_by path_le (rglob_py repo_root).

(** A frequency map is ranked for a list of names when it lists the names
    with their numbers of occurrences, larger counts first, and names with
    the same count in the order of their first occurrence. *)
Definition ranked (names : list string) (freq : Counter) : Prop :=
  StronglySorted (fun x y => snd y <= snd x) freq
  /\ (forall k v, In (k, v) freq <-> In k names /\ v = occurrences names k)
  /\ (forall n, keys (filter (fun kv => Nat.eqb (snd kv) n) freq)
                = filter (fun k => Nat.eqb (occurrences names k) n)
                         (first_seen names)).

Section Produced.
Variable lang : LanguageReference.
Variable generate_tokens : string -> TokenStream.
Variable urlopen_read : string -> result string.
Variable git_clone : string -> string -> Z -> result (list Directory).

(** [produced names r]: the analysis result [r] is returned by one of the
    workflows, and [names] are the names it scanned, in order. *)
Inductive produced : list string -> AnalysisResult -> Prop :=
| produced_in_memory (corpus_url : option string) (source : string) r :
    run_workflow lang generate_tokens urlopen_read corpus_url (Some source) = Ok r ->
    produced (scanned_names generate_tokens source) r
| produced_from_url (url source : string) r :
    urlopen_read url = Ok source ->
    run_workflow lang generate_tokens urlopen_read (Some url) None = Ok r ->
    produced (scanned_names generate_tokens source) r
| produced_directory (repo_root : Directory) (source_label : string) w w' r :
    _run_workflow_directory lang generate_tokens repo_root source_label w = (Ok r, w') ->
    produced (walked_names generate_tokens (py_files_of repo_root)) r
| produced_repo (repo_url : string) (timeout_seconds max_files : Z)
                (repo_root : Directory) (others : list Directory) w w' r :
    clone_repo git_clone repo_url timeout_seconds = Ok (repo_root :: others) ->
    run_workflow_repo lang generate_tokens git_clone repo_url timeout_seconds
                      max_files w = (Ok r, w') ->
    produced (walked_names generate_tokens (py_files_of repo_root)) r
| produced_cpython (cpython_root : string) (tree : Directory) w w' r :
    run_workflow_cpython lang generate_tokens cpython_root tree w = (Ok r, w') ->
    produced (walked_names generate_tokens (py_files_of tree)) r.

(** What a result reports about the names it scanned. *)
Definition analysis_of (names : list string) (r : AnalysisResult) : Prop :=
  keyword_freq r = dict_of (most_common (tally (keyword_names lang names)))
  /\ builtin_freq r = dict_of (most_common (tally (builtin_names lang names)))
  /\ dunder_freq r = dict_of (most_common (tally (dunder_names lang names)))
  /\ total_tokens_analyzed (meta r) = List.length names
  /\ total_keyword_occurrences (meta r)
     = sum_values (tally (keyword_names lang names))
  /\ total_builtin_occurrences (meta r)
     = sum_values (tally (builtin_names lang names))
  /\ total_dunder_occurrences (meta r)
     = sum_values (tally (dunder_names lang names)).

(** The loop of [_run_workflow_directory] after the files that yielded
    [names], of which [n] could be read. *)
Definition loop_invariant (names : list string) (n : nat) (st : Loop.state) : Prop :=
  Loop.keyword_totals st = tally (keyword_names lang names)
  /\ Loop.builtin_totals st = tally (builtin_names lang names)
  /\ Loop.dunder_totals st = tally (dunder_names lang names)
  /\ Loop.total_tokens st = List.length names
  /\ Loop.files_processed st = n.
End Produced.

(** The source texts of the files of a walk that can be read. *)
Definition sources_of (py_files : list Entry) : list string :=
  flat_map (fun path => match read_text path with
                        | Ok source => [source]
                        | Raise _ => []
                        end) py_files.

(** A file that the walk gets through: its text is scanned to the end or
    up to a [TokenError], or it cannot be read. *)
Definition scans_through (generate_tokens : string -> TokenStream)
           (path : Entry) : Prop :=
  match read_text path with
  | Ok source =>
      snd (generate_tokens source) = StopIteration
      \/ snd (generate_tokens source) = Raised TokenError
  | Raise e => e = OSError
  end.

(* ================================================================== *)
(** * Sample inputs *)

Definition example_source : string := "def foo(self): return self.__len__()".

(** Ends inside two open brackets. *)
Definition unterminated_bracket : string := "total = sum(len(x) for x in [a, b".

(** Ends inside a string literal. *)
Definition unterminated_string : string := "label = str('abc".

(** A dedent to a column that no enclosing block has. *)
Definition bad_dedent : string :=
  "if x:" ++ String Lexer.newline "    a = 1" ++ String Lexer.newline "  b = 2".

(** No network, no [git]. *)
Definition no_network : string -> result string := fun _ => Raise OSError.

Definition no_git : string -> string -> Z -> result (list Directory) :=
  fun _ _ _ => Raise CalledProcessError.

(** A [git] whose clone leaves the single directory [d]. *)
Definition clone_yielding (d : Directory)
  : string -> string -> Z -> result (list Directory) :=
  fun _ _ _ => Ok [d].

(** A reference in which [__len__] is a builtin and a special method. *)
Definition overlapping_reference : LanguageReference :=
  {| KEYWORDS := ["def"; "return"];
     BUILTINS := ["len"; "__len__"];
     SPECIAL_METHODS := ["__len__"; "__init__"] |}.

Definition overlapping_source : string := "def f(x): return len(x) + x.__len__()".

(** Four paths match [*.py]: two sound files, one that ends in an open
    bracket and one that cannot be read. *)
Definition sample_tree : Directory :=
  [ {| parts := ["pkg"; "util.py"]; read_text := Ok "def size(x): return len(x)" |};
    {| parts := ["README.md"]; read_text := Ok "print" |};
    {| parts := ["pkg"; "broken.py"]; read_text := Ok unterminated_bracket |};
    {| parts := ["locked.py"]; read_text := Raise OSError |};
    {| parts := ["app.py"]; read_text := Ok example_source |} ].

(** Three matching paths, all readable; the one that comes last in path
    order holds the bad dedent. *)
Definition bad_dedent_tree : Directory :=
  [ {| parts := ["pkg"; "zz_legacy.py"]; read_text := Ok bad_dedent |};
    {| parts := ["app.py"]; read_text := Ok example_source |};
    {| parts := ["pkg"; "util.py"]; read_text := Ok "def size(x): return len(x)" |} ].

(** No path matches [*.py]. *)
Definition docs_only_tree : Directory :=
  [ {| parts := ["README.md"]; read_text := Ok "def" |};
    {| parts := ["LICENSE"]; read_text := Ok "import" |};
    {| parts := ["docs"; "notes.pyc"]; read_text := Ok "class" |};
    {| parts := ["docs"; "index.py.txt"]; read_text := Ok "return" |} ].

(* ================================================================== *)
(** * Counters *)

Lemma mem_In (s : string) (l : list string) : mem s l = true <-> In s l.
Proof.
  unfold mem. rewrite existsb_exists. split.
  - intros [x [Hin Heq]]. apply String.eqb_eq in Heq. now subst.
  - intros Hin. exists s. split; [assumption | apply String.eqb_refl].
Qed.

Lemma mem_false (s : string) (l : list string) : mem s l = false <-> ~ In s l.
Proof.
  rewrite <- mem_In. destruct (mem s l); split; intros; congruence.
Qed.

Lemma counter_get_set_eq (c : Counter) (k : string) (v : nat) :
  counter_get (counter_set c k v) k = v.
Proof.
  induction c as [|[k' v'] c IH]; simpl.
  - now rewrite String.eqb_refl.
  - destruct (String.eqb k k') eqn:E; simpl; rewrite E; auto.
Qed.

Lemma counter_get_set_neq (c : Counter) (k k' : string) (v : nat) :
  k <> k' -> counter_get (counter_set c k v) k' = counter_get c k'.
Proof.
  intros Hne. induction c as [|[k0 v0] c IH]; simpl.
  - destruct (String.eqb k' k) eqn:E; [|reflexivity].
    apply String.eqb_eq in E. congruence.
  - destruct (String.eqb k k0) eqn:E; simpl.
    + apply String.eqb_eq in E. subst k0.
      destruct (String.eqb k' k) eqn:E'; [|reflexivity].
      apply String.eqb_eq in E'. congruence.
    + now rewrite IH.
Qed.

Lemma keys_counter_set (c : Counter) (k : string) (v : nat) :
  keys (counter_set c k v) = if mem k (keys c) then keys c else keys c ++ [k].
Proof.
  induction c as [|[k' v'] c IH]; simpl; [reflexivity|].
  destruct (String.eqb k k') eqn:E; simpl; [reflexivity|].
  unfold keys in *. rewrite IH. unfold mem. now destruct (existsb _ _).
Qed.

Lemma counter_set_fresh (c : Counter) (k : string) (v : nat) :
  ~ In k (keys c) -> counter_set c k v = c ++ [(k, v)].
Proof.
  induction c as [|[k' v'] c IH]; simpl; intros Hni; [reflexivity|].
  destruct (String.eqb k k') eqn:E.
  - apply String.eqb_eq in E. subst. tauto.
  - f_equal. apply IH. tauto.
Qed.

Lemma counter_get_absent (c : Counter) (k : string) :
  ~ In k (keys c) -> counter_get c k = 0.
Proof.
  induction c as [|[k' v'] c IH]; simpl; intros Hni; [reflexivity|].
  destruct (String.eqb k k') eqn:E.
  - apply String.eqb_eq in E. subst. tauto.
  - apply IH. tauto.
Qed.

Lemma counter_set_wf (c : Counter) (k : string) (v : nat) :
  counter_wf c -> counter_wf (counter_set c k v).
Proof.
  unfold counter_wf. intros Hwf. rewrite keys_counter_set.
  destruct (mem k (keys c)) eqn:E; [assumption|].
  apply mem_false in E.
  apply NoDup_app; [assumption | |].
  - apply NoDup_cons; [intros [] | constructor].
  - intros x Hx [Hk|[]]. now subst.
Qed.

(** Two counters with the same keys in the same order and the same counts
    are the same. *)
Lemma counter_ext (c1 c2 : Counter) :
  counter_wf c1 -> keys c1 = keys c2 ->
  (forall k, In k (keys c1) -> counter_get c1 k = counter_get c2 k) ->
  c1 = c2.
Proof.
  revert c2. induction c1 as [|[k v] c1 IH]; intros [|[k2 v2] c2] Hwf Hk Hg;
    simpl in *; try discriminate; [reflexivity|].
  injection Hk as -> Hk. inversion Hwf as [|? ? Hni Hwf']; subst.
  assert (v = v2) as ->.
  { specialize (Hg k2 (or_introl eq_refl)). now rewrite String.eqb_refl in Hg. }
  f_equal. apply IH; [assumption..|].
  intros k Hin. specialize (Hg k (or_intror Hin)).
  destruct (String.eqb k k2) eqn:E; [|assumption].
  apply String.eqb_eq in E. subst. contradiction.
Qed.

Lemma counter_get_snoc (c : Counter) (k0 k : string) (v0 : nat) :
  ~ In k0 (keys c) ->
  counter_get (c ++ [(k0, v0)]) k
  = counter_get c k + (if String.eqb k0 k then v0 else 0).
Proof.
  induction c as [|[k' v'] c IH]; simpl; intros Hni.
  - rewrite (String.eqb_sym k k0). now destruct (String.eqb k0 k).
  - destruct (String.eqb k k') eqn:E.
    + apply String.eqb_eq in E. subst k'.
      destruct (String.eqb k0 k) eqn:E'; [|lia].
      apply String.eqb_eq in E'. subst. tauto.
    + apply IH. tauto.
Qed.

Lemma counter_get_In (c : Counter) (k : string) (v : nat) :
  counter_wf c -> In (k, v) c -> counter_get c k = v.
Proof.
  unfold counter_wf. induction c as [|[k' v'] c IH]; simpl; intros Hwf Hin; [tauto|].
  inversion Hwf as [|? ? Hni Hwf']; subst.
  destruct Hin as [Heq|Hin].
  - injection Heq as -> ->. now rewrite String.eqb_refl.
  - destruct (String.eqb k k') eqn:E; [|now apply IH].
    apply String.eqb_eq in E. subst k'. exfalso. apply Hni.
    change k with (fst (k, v)). now apply in_map.
Qed.

Lemma In_counter_get (c : Counter) (k : string) :
  In k (keys c) -> In (k, counter_get c k) c.
Proof.
  induction c as [|[k' v'] c IH]; simpl; intros Hin; [tauto|].
  destruct (String.eqb k k') eqn:E.
  - apply String.eqb_eq in E. subst. now left.
  - right. apply IH. destruct Hin as [->|Hin]; [|assumption].
    now rewrite String.eqb_refl in E.
Qed.

Lemma fold_add (l : list nat) (a : nat) :
  fold_left Nat.add l a = a + list_sum l.
Proof.
  revert a. induction l as [|x l IH]; simpl; intros a; [lia|].
  rewrite IH. lia.
Qed.

Lemma sum_values_sum (c : Counter) : sum_values c = list_sum (map snd c).
Proof. unfold sum_values. now rewrite fold_add. Qed.

Lemma sum_values_counter_set (c : Counter) (k : string) (v : nat) :
  sum_values (counter_set c k v) + counter_get c k = sum_values c + v.
Proof.
  rewrite !sum_values_sum.
  induction c as [|[k' v'] c IH]; simpl; [lia|].
  destruct (String.eqb k k'); simpl; lia.
Qed.

Lemma sum_values_incr (c : Counter) (k : string) :
  sum_values (counter_incr c k) = S (sum_values c).
Proof.
  unfold counter_incr.
  pose proof (sum_values_counter_set c k (counter_get c k + 1)). lia.
Qed.

Lemma sum_values_perm (c1 c2 : Counter) :
  Permutation c1 c2 -> sum_values c1 = sum_values c2.
Proof.
  rewrite !sum_values_sum. intros H. induction H; simpl; lia.
Qed.

Lemma counter_get_incr (c : Counter) (x k : string) :
  counter_get (counter_incr c x) k
  = counter_get c k + (if String.eqb x k then 1 else 0).
Proof.
  unfold counter_incr. destruct (String.eqb x k) eqn:E.
  - apply String.eqb_eq in E. subst. now rewrite counter_get_set_eq.
  - apply String.eqb_neq in E. rewrite counter_get_set_neq by assumption. lia.
Qed.

(** ** Counting a list of names *)

Lemma tally_snoc (l : list string) (x : string) :
  tally (l ++ [x]) = counter_incr (tally l) x.
Proof. unfold tally. now rewrite fold_left_app. Qed.

Lemma first_seen_snoc (l : list string) (x : string) :
  first_seen (l ++ [x])
  = if mem x (first_seen l) then first_seen l else first_seen l ++ [x].
Proof. unfold first_seen. now rewrite fold_left_app. Qed.

Lemma tally_wf (l : list string) : counter_wf (tally l).
Proof.
  induction l as [|x l IH] using rev_ind; [constructor|].
  rewrite tally_snoc. now apply counter_set_wf.
Qed.

Lemma keys_tally (l : list string) : keys (tally l) = first_seen l.
Proof.
  induction l as [|x l IH] using rev_ind; [reflexivity|].
  rewrite tally_snoc, first_seen_snoc. unfold counter_incr.
  now rewrite keys_counter_set, IH.
Qed.

Lemma get_tally (l : list string) (k : string) :
  counter_get (tally l) k = occurrences l k.
Proof.
  unfold occurrences.
  induction l as [|x l IH] using rev_ind; [reflexivity|].
  rewrite tally_snoc, counter_get_incr, IH, count_occ_app. simpl.
  destruct (string_dec x k) as [->|Hne].
  - now rewrite String.eqb_refl.
  - apply String.eqb_neq in Hne. now rewrite Hne.
Qed.

Lemma sum_tally (l : list string) : sum_values (tally l) = List.length l.
Proof.
  induction l as [|x l IH] using rev_ind; [reflexivity|].
  rewrite tally_snoc, sum_values_incr, IH, length_app. simpl. lia.
Qed.

Lemma In_first_seen (l : list string) (x : string) :
  In x (first_seen l) <-> In x l.
Proof.
  induction l as [|y l IH] using rev_ind; [reflexivity|].
  rewrite first_seen_snoc, in_app_iff. simpl.
  destruct (mem y (first_seen l)) eqn:E.
  - apply mem_In in E. rewrite IH. split; [tauto|].
    intros [H|[Heq|[]]]; [assumption | subst; now apply IH].
  - rewrite in_app_iff, IH. simpl. tauto.
Qed.

Lemma first_seen_NoDup (l : list string) : NoDup (first_seen l).
Proof. rewrite <- keys_tally. apply tally_wf. Qed.

Lemma mem_first_seen (l : list string) (x : string) :
  mem x (first_seen l) = mem x l.
Proof.
  destruct (mem x l) eqn:E.
  - apply mem_In. apply In_first_seen. now apply mem_In.
  - apply mem_false. rewrite In_first_seen. now apply mem_false.
Qed.

Lemma first_seen_app (a b : list string) :
  first_seen (a ++ b)
  = first_seen a ++ filter (fun k => negb (mem k (first_seen a))) (first_seen b).
Proof.
  induction b as [|x b IH] using rev_ind.
  - simpl. now rewrite !app_nil_r.
  - rewrite app_assoc, !first_seen_snoc, IH.
    rewrite <- IH at 1. rewrite !mem_first_seen.
    destruct (mem x b) eqn:Eb.
    + replace (mem x (a ++ b)) with true; [reflexivity|].
      symmetry. apply mem_In, in_app_iff. right. now apply mem_In.
    + rewrite filter_app. simpl. rewrite mem_first_seen.
      destruct (mem x a) eqn:Ea; simpl.
      * replace (mem x (a ++ b)) with true; [now rewrite app_nil_r|].
        symmetry. apply mem_In, in_app_iff. left. now apply mem_In.
      * replace (mem x (a ++ b)) with false; [now rewrite app_assoc|].
        symmetry. apply mem_false. rewrite in_app_iff.
        apply mem_false in Ea, Eb. tauto.
Qed.

(** ** Merging counters *)

Lemma counter_update_snoc (c o : Counter) (k : string) (v : nat) :
  counter_update c (o ++ [(k, v)])
  = counter_set (counter_update c o) k (v + counter_get (counter_update c o) k).
Proof. unfold counter_update. now rewrite fold_left_app. Qed.

Lemma counter_update_wf (c o : Counter) :
  counter_wf c -> counter_wf (counter_update c o).
Proof.
  intros Hwf. induction o as [|[k v] o IH] using rev_ind; [assumption|].
  rewrite counter_update_snoc. now apply counter_set_wf.
Qed.

Lemma counter_wf_snoc (o : Counter) (k : string) (v : nat) :
  counter_wf (o ++ [(k, v)]) -> counter_wf o /\ ~ In k (keys o).
Proof.
  unfold counter_wf, keys. rewrite map_app. simpl. intros H.
  apply NoDup_remove in H. now rewrite app_nil_r in H.
Qed.

Lemma get_counter_update (c o : Counter) (k : string) :
  counter_wf o ->
  counter_get (counter_update c o) k = counter_get c k + counter_get o k.
Proof.
  induction o as [|[k0 v0] o IH] using rev_ind; intros Hwf; [simpl; lia|].
  apply counter_wf_snoc in Hwf. destruct Hwf as [Hwf Hni].
  rewrite counter_update_snoc, counter_get_snoc by assumption.
  destruct (String.eqb k0 k) eqn:E.
  - apply String.eqb_eq in E. subst k0.
    rewrite counter_get_set_eq, IH by assumption.
    rewrite (counter_get_absent o k Hni). lia.
  - apply String.eqb_neq in E.
    rewrite counter_get_set_neq, IH by assumption. lia.
Qed.

Lemma keys_counter_update (c o : Counter) :
  counter_wf o ->
  keys (counter_update c o)
  = keys c ++ filter (fun k => negb (mem k (keys c))) (keys o).
Proof.
  induction o as [|[k0 v0] o IH] using rev_ind; intros Hwf.
  - simpl. now rewrite app_nil_r.
  - apply counter_wf_snoc in Hwf. destruct Hwf as [Hwf Hni].
    assert (Hk : keys (o ++ [(k0, v0)]) = keys o ++ [k0])
      by (unfold keys; now rewrite map_app).
    rewrite counter_update_snoc, keys_counter_set, IH, Hk, filter_app by assumption.
    simpl.
    destruct (mem k0 (keys c)) eqn:Ec; simpl.
    + rewrite app_nil_r.
      replace (mem k0 _) with true; [reflexivity|].
      symmetry. apply mem_In, in_app_iff. left. now apply mem_In.
    + replace (mem k0 _) with false; [now rewrite app_assoc|].
      symmetry. apply mem_false. rewrite in_app_iff, filter_In.
      apply mem_false in Ec. tauto.
Qed.

(** Merging the counts of [b] into the counts of [a] counts [a ++ b]. *)
Lemma counter_update_tally (a b : list string) :
  counter_update (tally a) (tally b) = tally (a ++ b).
Proof.
  apply counter_ext.
  - apply counter_update_wf, tally_wf.
  - rewrite keys_counter_update by apply tally_wf.
    now rewrite !keys_tally, first_seen_app.
  - intros k _. rewrite get_counter_update by apply tally_wf.
    rewrite !get_tally. unfold occurrences. now rewrite count_occ_app.
Qed.

(* ================================================================== *)
(** * The stable sort *)

Section StableSortFacts.
Context {A : Type}.
Variable le : A -> A -> bool.

Let before (x y : A) : Prop := le x y = true.

Lemma insert_by_perm (x : A) (l : list A) :
  Permutation (insert_by le x l) (x :: l).
Proof.
  induction l as [|y l IH]; simpl; [reflexivity|].
  destruct (le x y); [reflexivity|].
  rewrite IH. apply perm_swap.
Qed.

Lemma sorted_by_perm (l : list A) : Permutation (sorted_by le l) l.
Proof.
  induction l as [|x l IH]; simpl; [reflexivity|].
  rewrite insert_by_perm. now constructor.
Qed.

(** Elements that the order does not separate keep their relative
    places. *)
Lemma filter_insert_by (p : A -> bool) (x : A) (l : list A) :
  (forall y, In y l -> p x = true -> p y = true -> le x y = true) ->
  filter p (insert_by le x l) = filter p (x :: l).
Proof.
  induction l as [|y l IH]; intros H; [reflexivity|].
  simpl. destruct (le x y) eqn:E; [reflexivity|].
  simpl. rewrite IH by (intros; apply H; simpl; auto).
  simpl. destruct (p x) eqn:Px, (p y) eqn:Py; try reflexivity.
  rewrite H in E; simpl; auto. discriminate.
Qed.

Lemma filter_sorted_by (p : A -> bool) (l : list A) :
  (forall x y, p x = true -> p y = true -> le x y = true) ->
  filter p (sorted_by le l) = filter p l.
Proof.
  intros H. induction l as [|x l IH]; [reflexivity|].
  simpl sorted_by. rewrite filter_insert_by by (intros; now apply H).
  simpl. now rewrite IH.
Qed.

Hypothesis le_total : forall x y, le x y = true \/ le y x = true.
Hypothesis le_trans :
  forall x y z, le x y = true -> le y z = true -> le x z = true.

Lemma insert_by_sorted (x : A) (l : list A) :
  StronglySorted before l -> StronglySorted before (insert_by le x l).
Proof.
  induction l as [|y l IH]; intros Hs; simpl.
  - repeat constructor.
  - inversion Hs as [|? ? Hs' Hall]; subst.
    destruct (le x y) eqn:E.
    + constructor; [assumption|]. constructor; [assumption|].
      eapply Forall_impl; [|exact Hall]. intros z Hz. now apply (le_trans x y z).
    + constructor; [now apply IH|].
      eapply Permutation_Forall; [symmetry; apply insert_by_perm|].
      constructor; [|assumption].
      destruct (le_total x y) as [H|H]; [congruence | exact H].
Qed.

Lemma sorted_by_sorted (l : list A) : StronglySorted before (sorted_by le l).
Proof.
  induction l as [|x l IH]; simpl; [constructor|].
  now apply insert_by_sorted.
Qed.
End StableSortFacts.

Lemma StronglySorted_impl {A : Type} (R R' : A -> A -> Prop) (l : list A) :
  (forall x y, R x y -> R' x y) -> StronglySorted R l -> StronglySorted R' l.
Proof.
  intros H Hs. induction Hs as [|x l Hs IH Hall]; constructor; [assumption|].
  eapply Forall_impl; [|exact Hall]. auto.
Qed.

(** ** [most_common] and [dict] *)

Lemma most_common_perm (c : Counter) : Permutation (most_common c) c.
Proof. apply sorted_by_perm. Qed.

Lemma most_common_wf (c : Counter) : counter_wf c -> counter_wf (most_common c).
Proof.
  unfold counter_wf, keys. intros H.
  eapply Permutation_NoDup; [|exact H].
  apply Permutation_map. symmetry. apply most_common_perm.
Qed.

Lemma most_common_sorted (c : Counter) :
  StronglySorted (fun x y => snd y <= snd x) (most_common c).
Proof.
  apply (StronglySorted_impl (fun x y => count_ge x y = true)).
  - intros x y H. now apply Nat.leb_le.
  - apply sorted_by_sorted.
    + intros x y. unfold count_ge. rewrite !Nat.leb_le. lia.
    + intros x y z. unfold count_ge. rewrite !Nat.leb_le. lia.
Qed.

Lemma most_common_stable (c : Counter) (n : nat) :
  filter (fun kv => Nat.eqb (snd kv) n) (most_common c)
  = filter (fun kv => Nat.eqb (snd kv) n) c.
Proof.
  apply filter_sorted_by. intros x y Hx Hy.
  apply Nat.eqb_eq in Hx, Hy. unfold count_ge. apply Nat.leb_le. lia.
Qed.

Lemma dict_of_fold (l acc : Counter) :
  counter_wf (acc ++ l) ->
  fold_left (fun d kv => counter_set d (fst kv) (snd kv)) l acc = acc ++ l.
Proof.
  revert acc. induction l as [|[k v] l IH]; intros acc Hwf; simpl.
  - now rewrite app_nil_r.
  - assert (Hni : ~ In k (keys acc)).
    { unfold counter_wf, keys in *. rewrite map_app in Hwf. simpl in Hwf.
      apply NoDup_remove_2 in Hwf. rewrite in_app_iff in Hwf. tauto. }
    rewrite counter_set_fresh by assumption.
    rewrite IH; rewrite <- app_assoc; [reflexivity | exact Hwf].
Qed.

Lemma dict_of_wf (c : Counter) : counter_wf c -> dict_of c = c.
Proof. intros H. unfold dict_of. now rewrite dict_of_fold. Qed.

Lemma keys_filter_count (c : Counter) (n : nat) :
  counter_wf c ->
  keys (filter (fun kv => Nat.eqb (snd kv) n) c)
  = filter (fun k => Nat.eqb (counter_get c k) n) (keys c).
Proof.
  unfold counter_wf.
  induction c as [|[k v] c IH]; intros Hwf; [reflexivity|].
  simpl in Hwf. inversion Hwf as [|? ? Hni Hwf']; subst.
  simpl. rewrite String.eqb_refl.
  assert (Htl : filter (fun k0 => Nat.eqb (if String.eqb k0 k then v
                                            else counter_get c k0) n) (keys c)
                = filter (fun k0 => Nat.eqb (counter_get c k0) n) (keys c)).
  { apply filter_ext_in. intros k0 Hin.
    destruct (String.eqb k0 k) eqn:E; [|reflexivity].
    apply String.eqb_eq in E. subst. contradiction. }
  fold (keys c). rewrite Htl, <- IH by assumption.
  now destruct (Nat.eqb v n).
Qed.

(** The report built from the counts of a list of names is ranked. *)
Lemma ranked_report (names : list string) :
  ranked names (dict_of (most_common (tally names))).
Proof.
  rewrite dict_of_wf by apply most_common_wf, tally_wf.
  split; [apply most_common_sorted | split].
  - intros k v. rewrite <- (In_first_seen names k), <- keys_tally.
    rewrite <- get_tally. split.
    + intros Hin.
      apply (Permutation_in _ (most_common_perm (tally names))) in Hin.
      split.
      * change k with (fst (k, v)). now apply in_map.
      * symmetry. apply counter_get_In; [apply tally_wf | assumption].
    + intros [Hin ->].
      apply (Permutation_in _ (Permutation_sym (most_common_perm (tally names)))).
      now apply In_counter_get.
  - intros n. rewrite most_common_stable, keys_filter_count by apply tally_wf.
    rewrite keys_tally. apply filter_ext. intros k. now rewrite get_tally.
Qed.

(* ================================================================== *)
(** * The workflows *)

Section WorkflowFacts.
Variable lang : LanguageReference.
Variable generate_tokens : string -> TokenStream.

(** The loop of [tokenize_source] appends one pair per [NAME] token. *)
Lemma tokenize_loop (yielded : list TokenInfo) (acc : list token) :
  fold_left (tokenize_step lang) yielded acc
  = acc ++ map (classify lang) (name_strings yielded).
Proof.
  revert acc. induction yielded as [|tok yielded IH]; intros acc; simpl.
  - now rewrite app_nil_r.
  - rewrite IH. unfold tokenize_step, name_strings. simpl.
    destruct (token_type_eqb (tok_type tok) NAME); simpl; [|reflexivity].
    unfold classify.
    destruct (mem (tok_string tok) (KEYWORDS lang)); now rewrite <- app_assoc.
Qed.

Lemma tokenize_source_eq (source : string) :
  tokenize_source lang generate_tokens source
  = match snd (generate_tokens source) with
    | StopIteration | Raised TokenError =>
        Ok (map (classify lang) (scanned_names generate_tokens source))
    | Raised e => Raise e
    end.
Proof.
  unfold tokenize_source, scanned_names.
  destruct (generate_tokens source) as [yielded fin]. simpl.
  rewrite tokenize_loop. simpl. now destruct fin as [|[]].
Qed.

Lemma tokenize_source_ok (source : string) (tokens : list token) :
  tokenize_source lang generate_tokens source = Ok tokens ->
  tokens = map (classify lang) (scanned_names generate_tokens source).
Proof.
  rewrite tokenize_source_eq.
  destruct (snd (generate_tokens source)) as [|[]]; congruence.
Qed.

(** The loop of [count_keywords_builtins_dunder] on classified names. *)
Lemma count_loop (names : list string) (kw blt dnd : Counter) :
  fold_left (count_step lang) (map (classify lang) names) (kw, blt, dnd)
  = (fold_left counter_incr (keyword_names lang names) kw,
     fold_left counter_incr (builtin_names lang names) blt,
     fold_left counter_incr (dunder_names lang names) dnd).
Proof.
  revert kw blt dnd. induction names as [|s names IH]; intros; [reflexivity|].
  simpl. unfold classify at 1.
  destruct (mem s (KEYWORDS lang)) eqn:Ek; simpl.
  - apply IH.
  - destruct (mem s (BUILTINS lang)), (mem s (SPECIAL_METHODS lang));
      simpl; apply IH.
Qed.

Lemma count_classified (names : list string) :
  count_keywords_builtins_dunder lang (map (classify lang) names)
  = (tally (keyword_names lang names),
     tally (builtin_names lang names),
     tally (dunder_names lang names)).
Proof. apply count_loop. Qed.

Lemma analysis_of_source (source source_note : string) (r : AnalysisResult) :
  rbind (tokenize_source lang generate_tokens source) (fun tokens =>
    let '(keyword_freq, builtin_freq, dunder_freq) :=
      count_keywords_builtins_dunder lang tokens in
    Ok {| meta :=
            {| source := source_note;
               language_reference := "Python 3.12 (frozen)";
               files_processed := None;
               total_tokens_analyzed := List.length tokens;
               total_keyword_occurrences := sum_values keyword_freq;
               total_builtin_occurrences := sum_values builtin_freq;
               total_dunder_occurrences := sum_values dunder_freq;
               total_bytes := None;
               repo_url := None;
               cpython_root := None |};
          keyword_freq := dict_of (most_common keyword_freq);
          builtin_freq := dict_of (most_common builtin_freq);
          dunder_freq := dict_of (most_common dunder_freq) |}) = Ok r ->
  analysis_of lang (scanned_names generate_tokens source) r.
Proof.
  destruct (tokenize_source lang generate_tokens source) as [tokens|e] eqn:Ht;
    simpl; [|discriminate].
  apply tokenize_source_ok in Ht. subst tokens.
  rewrite count_classified, length_map. intros [= <-].
  unfold analysis_of. simpl. tauto.
Qed.

(** ** The directory walk *)

Lemma walked_names_cons (path : Entry) (rest : list Entry) :
  walked_names generate_tokens (path :: rest)
  = walked_names generate_tokens [path] ++ walked_names generate_tokens rest.
Proof. unfold walked_names. simpl. now rewrite app_nil_r. Qed.

Lemma readable_cons (path : Entry) (rest : list Entry) :
  readable (path :: rest) = readable [path] ++ readable rest.
Proof. unfold readable. simpl. now destruct (read_text path). Qed.

Lemma sources_of_cons (path : Entry) (rest : list Entry) :
  sources_of (path :: rest) = sources_of [path] ++ sources_of rest.
Proof. unfold sources_of. simpl. now rewrite app_nil_r. Qed.

Lemma process_file_inv (names : list string) (n : nat) (st st' : Loop.state)
      (path : Entry) (w w' : list string) :
  loop_invariant lang names n st ->
  process_file lang generate_tokens st path w = (Ok st', w') ->
  loop_invariant lang (names ++ walked_names generate_tokens [path])
                 (n + List.length (readable [path])) st'
  /\ w' = w ++ sources_of [path].
Proof.
  intros (Hk & Hb & Hd & Ht & Hf).
  unfold process_file, walked_names, readable, sources_of. simpl.
  destruct (read_text path) as [source|e].
  - unfold bind, tokenizing, lift, ret.
    destruct (tokenize_source lang generate_tokens source) as [tokens|e] eqn:E;
      [|discriminate].
    apply tokenize_source_ok in E. subst tokens.
    rewrite count_classified. intros [= <- <-].
    rewrite !app_nil_r. split; [|reflexivity].
    unfold loop_invariant, keyword_names, builtin_names, dunder_names. simpl.
    rewrite !filter_app, <- !counter_update_tally, Hk, Hb, Hd, Ht, Hf.
    rewrite length_app, length_map. simpl. tauto.
  - rewrite !app_nil_r. simpl. rewrite Nat.add_0_r.
    destruct e; unfold ret, raise; intros [= <- <-] || discriminate.
    unfold loop_invariant. tauto.
Qed.

Lemma process_files_inv (py_files : list Entry) (names : list string) (n : nat)
      (st st' : Loop.state) (w w' : list string) :
  loop_invariant lang names n st ->
  process_files lang generate_tokens py_files st w = (Ok st', w') ->
  loop_invariant lang (names ++ walked_names generate_tokens py_files)
                 (n + List.length (readable py_files)) st'
  /\ w' = w ++ sources_of py_files.
Proof.
  revert names n st st' w w'.
  induction py_files as [|path rest IH]; intros names n st st' w w' Hinv.
  - simpl. unfold ret. intros [= <- <-].
    now rewrite !app_nil_r, Nat.add_0_r.
  - rewrite (walked_names_cons path rest), (readable_cons path rest),
      (sources_of_cons path rest).
    simpl process_files. unfold bind at 1.
    destruct (process_file lang generate_tokens st path w) as [[st1|e] w1] eqn:E1;
      [|discriminate].
    intros Hrest.
    destruct (process_file_inv _ _ _ _ _ _ _ Hinv E1) as [Hinv1 ->].
    destruct (IH _ _ _ _ _ _ Hinv1 Hrest) as [Hinv2 ->].
    rewrite length_app, !app_assoc, Nat.add_assoc. now split.
Qed.

Lemma loop_invariant_init : loop_invariant lang [] 0 Loop.init.
Proof. unfold loop_invariant. simpl. tauto. Qed.

Lemma directory_analysis (repo_root : Directory) (source_label : string)
      (w w' : list string) (r : AnalysisResult) :
  _run_workflow_directory lang generate_tokens repo_root source_label w = (Ok r, w') ->
  analysis_of lang (walked_names generate_tokens (py_files_of repo_root)) r
  /\ files_processed (meta r) = Some (List.length (readable (py_files_of repo_root)))
  /\ w' = w ++ sources_of (py_files_of repo_root).
Proof.
  unfold _run_workflow_directory, bind. fold (py_files_of repo_root).
  destruct (process_files lang generate_tokens (py_files_of repo_root) Loop.init w)
    as [[st|e] w1] eqn:E; [|discriminate].
  destruct (process_files_inv _ _ _ _ _ _ _ loop_invariant_init E)
    as [(Hk & Hb & Hd & Ht & Hf) ->].
  unfold ret. intros [= <- <-].
  unfold analysis_of. simpl. rewrite Hk, Hb, Hd, Ht, Hf. tauto.
Qed.

End WorkflowFacts.

Section ProducedFacts.
Variable lang : LanguageReference.
Variable generate_tokens : string -> TokenStream.
Variable urlopen_read : string -> result string.
Variable git_clone : string -> string -> Z -> result (list Directory).

Lemma run_workflow_repo_ok (repo_url : string) (timeout_seconds max_files : Z)
      (repo_root : Directory) (others : list Directory)
      (w w' : list string) (r : AnalysisResult) :
  clone_repo git_clone repo_url timeout_seconds = Ok (repo_root :: others) ->
  run_workflow_repo lang generate_tokens git_clone repo_url timeout_seconds
                    max_files w = (Ok r, w') ->
  exists r0,
    _run_workflow_directory lang generate_tokens repo_root repo_url w = (Ok r0, w')
    /\ r = set_repo_url repo_url r0.
Proof.
  intros Hclone. unfold run_workflow_repo, bind at 1, lift. rewrite Hclone.
  destruct (Nat.eqb _ 0); [discriminate|].
  destruct (Z.ltb _ _); [discriminate|].
  unfold bind.
  destruct (_run_workflow_directory _ _ _ _ w) as [[r0|e] w1]; [|discriminate].
  unfold ret. intros [= <- <-]. now exists r0.
Qed.

Lemma analysis_of_set_repo_url (names : list string) (url : string) r :
  analysis_of lang names r -> analysis_of lang names (set_repo_url url r).
Proof. unfold analysis_of. now simpl. Qed.

Lemma analysis_of_set_cpython_root (names : list string) (root : string) r :
  analysis_of lang names r -> analysis_of lang names (set_cpython_root root r).
Proof. unfold analysis_of. now simpl. Qed.

(** Every result reports the analysis of the names that were scanned. *)
Lemma produced_analysis (names : list string) (r : AnalysisResult) :
  produced lang generate_tokens urlopen_read git_clone names r ->
  analysis_of lang names r.
Proof.
  intros [url source r0 H | url source r0 Hread H | root label w w' r0 H
          | repo_url t m root others w w' r0 Hclone H | croot tree w w' r0 H].
  - now apply analysis_of_source in H.
  - unfold run_workflow in H. destruct url as [|c u]; [discriminate|].
    unfold fetch_corpus_into_ram in H. rewrite Hread in H.
    now apply analysis_of_source in H.
  - now apply directory_analysis in H.
  - destruct (run_workflow_repo_ok _ _ _ _ _ _ _ _ Hclone H) as (r1 & Hd & ->).
    apply analysis_of_set_repo_url. now apply directory_analysis in Hd.
  - unfold run_workflow_cpython, bind in H.
    destruct (_run_workflow_directory _ _ tree _ w) as [[r1|e] w1] eqn:Hd;
      [|discriminate].
    unfold ret in H. injection H as <- <-.
    apply analysis_of_set_cpython_root. now apply directory_analysis in Hd.
Qed.

End ProducedFacts.

(* ================================================================== *)
(** * Properties of the engine *)

Lemma occurrences_filter (p : string -> bool) (names : list string) (s : string) :
  occurrences (filter p names) s = if p s then occurrences names s else 0.
Proof.
  unfold occurrences. induction names as [|x names IH]; simpl.
  - now destruct (p s).
  - destruct (string_dec x s) as [->|Hne].
    + destruct (p s) eqn:E; simpl.
      * destruct (string_dec s s); [|contradiction]. now rewrite IH.
      * exact IH.
    + destruct (p x); simpl; [|exact IH].
      destruct (string_dec x s); [contradiction | exact IH].
Qed.

(** ** The worked example *)

(** C1, as amended. For the text ["def foo(self): return self.__len__()"],
    whatever the URL argument and the network, [run_workflow] with this
    in-memory source returns a result with
    [keyword_freq = {"def": 1, "return": 1}], [builtin_freq = {}],
    [dunder_freq = {"__len__": 1}] and [total_tokens_analyzed = 6]: the
    count of all six NAME tokens ([def], [foo], [self], [return], [self],
    [__len__]), not only of those that match a reference set. *)
Theorem run_workflow_example (urlopen_read : string -> result string)
        (corpus_url : option string) :
  exists r,
    run_workflow PY312 Lexer.generate_tokens urlopen_read corpus_url
                 (Some example_source) = Ok r
    /\ keyword_freq r = [("def", 1); ("return", 1)]
    /\ builtin_freq r = []
    /\ dunder_freq r = [("__len__", 1)]
    /\ total_tokens_analyzed (meta r) = 6.
Proof.
  eexists. split.
  - destruct corpus_url; vm_compute; reflexivity.
  - vm_compute. repeat split; reflexivity.
Qed.

(** C1, as stated, fails: no result of the example has the three tables of
    the claim together with [total_tokens_analyzed = 2]. *)
Lemma run_workflow_example_not_two_tokens :
  ~ (exists r,
        run_workflow PY312 Lexer.generate_tokens no_network None
                     (Some example_source) = Ok r
        /\ keyword_freq r = [("def", 1); ("return", 1)]
        /\ builtin_freq r = []
        /\ dunder_freq r = [("__len__", 1)]
        /\ total_tokens_analyzed (meta r) = 2).
Proof.
  intros (r & Hrun & _ & _ & _ & Htotal).
  vm_compute in Hrun. injection Hrun as <-. discriminate Htotal.
Qed.

(** ** Classification *)

(** C2. For a source text that [tokenize_source] accepts, and for every
    name [s], with [n] the number of NAME tokens scanned with the text [s]:
    when [s] is a keyword it is counted [n] times in the keyword table and
    not at all in the builtin and dunder tables; otherwise it is not in the
    keyword table, and it is counted in the builtin table exactly when it is
    a builtin and in the dunder table exactly when it is a special method,
    each test on its own, so a name in both sets is counted in both. *)
Theorem keywords_exclusive_builtins_and_dunders_independent
        (lang : LanguageReference) (generate_tokens : string -> TokenStream)
        (source : string) (tokens : list token) (kw blt dnd : Counter) :
  tokenize_source lang generate_tokens source = Ok tokens ->
  count_keywords_builtins_dunder lang tokens = (kw, blt, dnd) ->
  forall s,
    let n := occurrences (scanned_names generate_tokens source) s in
    if mem s (KEYWORDS lang)
    then counter_get kw s = n /\ counter_get blt s = 0 /\ counter_get dnd s = 0
    else counter_get kw s = 0
         /\ counter_get blt s = (if mem s (BUILTINS lang) then n else 0)
         /\ counter_get dnd s = (if mem s (SPECIAL_METHODS lang) then n else 0).
Proof.
  intros Htok Hcount s n. apply tokenize_source_ok in Htok. subst tokens.
  rewrite count_classified in Hcount. injection Hcount as <- <- <-.
  rewrite !get_tally. unfold keyword_names, builtin_names, dunder_names.
  rewrite !occurrences_filter. fold n.
  now destruct (mem s (KEYWORDS lang)).
Qed.

(** With a reference in which [__len__] is a builtin and a special method,
    the one occurrence of [__len__] is counted in both tables. *)
Lemma keywords_exclusive_builtins_and_dunders_independent_witness :
  counter_get [("def", 1); ("return", 1)] "__len__" = 0
  /\ counter_get [("len", 1); ("__len__", 1)] "__len__" = 1
  /\ counter_get [("__len__", 1)] "__len__" = 1.
Proof.
  exact (keywords_exclusive_builtins_and_dunders_independent
           overlapping_reference Lexer.generate_tokens overlapping_source
           [("keyword", "def"); ("name", "f"); ("name", "x");
            ("keyword", "return"); ("name", "len"); ("name", "x");
            ("name", "x"); ("name", "__len__")]
           [("def", 1); ("return", 1)] [("len", 1); ("__len__", 1)]
           [("__len__", 1)] eq_refl eq_refl "__len__").
Defined.

(** ** Repository references *)

(** C4. The short form, the URL and the URL with [.git] of django/django
    normalize to the same clone URL, and so have the same cache key,
    whatever the digest. *)
Theorem normalization_equivalence (sha256_hexdigest : string -> string) :
  _normalize_repo_url "django/django" = "https://github.com/django/django.git"
  /\ _normalize_repo_url "https://github.com/django/django"
     = "https://github.com/django/django.git"
  /\ _normalize_repo_url "https://github.com/django/django.git"
     = "https://github.com/django/django.git"
  /\ _cache_key sha256_hexdigest "django/django"
     = _cache_key sha256_hexdigest "https://github.com/django/django"
  /\ _cache_key sha256_hexdigest "https://github.com/django/django"
     = _cache_key sha256_hexdigest "https://github.com/django/django.git".
Proof.
  assert (H1 : _normalize_repo_url "django/django"
               = "https://github.com/django/django.git") by (vm_compute; reflexivity).
  assert (H2 : _normalize_repo_url "https://github.com/django/django"
               = "https://github.com/django/django.git") by (vm_compute; reflexivity).
  assert (H3 : _normalize_repo_url "https://github.com/django/django.git"
               = "https://github.com/django/django.git") by (vm_compute; reflexivity).
  unfold _cache_key. rewrite H1, H2, H3. repeat split; reflexivity.
Qed.

(** ** Recovery from a broken token stream *)

Section Recovery.
Variable lang : LanguageReference.
Variable generate_tokens : string -> TokenStream.

Lemma process_file_total (st : Loop.state) (path : Entry) (w : list string) :
  scans_through generate_tokens path ->
  exists st',
    process_file lang generate_tokens st path w = (Ok st', w ++ sources_of [path]).
Proof.
  unfold scans_through, process_file, sources_of. simpl.
  destruct (read_text path) as [source|e]; intros H.
  - unfold bind, tokenizing, lift, ret. rewrite tokenize_source_eq.
    rewrite app_nil_r.
    destruct (count_keywords_builtins_dunder lang
                (map (classify lang) (scanned_names generate_tokens source)))
      as [[kw blt] dnd] eqn:Ec.
    destruct H as [-> | ->]; rewrite Ec; eexists; reflexivity.
  - subst e. rewrite app_nil_r. now exists st.
Qed.

Lemma process_files_total (py_files : list Entry) (st : Loop.state)
      (w : list string) :
  Forall (scans_through generate_tokens) py_files ->
  exists st',
    process_files lang generate_tokens py_files st w
    = (Ok st', w ++ sources_of py_files).
Proof.
  intros H. revert st w. induction H as [|path rest Hp _ IH]; intros st w.
  - exists st. simpl. unfold ret. now rewrite app_nil_r.
  - destruct (process_file_total st path w Hp) as [st1 E1].
    destruct (IH st1 (w ++ sources_of [path])) as [st2 E2].
    exists st2. simpl process_files. unfold bind. rewrite E1, E2.
    now rewrite (sources_of_cons path rest), app_assoc.
Qed.

Lemma directory_total (repo_root : Directory) (source_label : string)
      (w : list string) :
  Forall (scans_through generate_tokens) (rglob_py repo_root) ->
  exists r,
    _run_workflow_directory lang generate_tokens repo_root source_label w
    = (Ok r, w ++ sources_of (py_files_of repo_root)).
Proof.
  intros H.
  assert (H' : Forall (scans_through generate_tokens) (py_files_of repo_root)).
  { eapply Permutation_Forall; [|exact H]. symmetry. apply sorted_by_perm. }
  destruct (process_files_total _ Loop.init w H') as [st E].
  unfold _run_workflow_directory, bind. fold (py_files_of repo_root).
  rewrite E. eexists. reflexivity.
Qed.
End Recovery.

(** The recovery that the code has. Let the scan of a source text end by
    [TokenError] after the tokens [yielded]. Then [tokenize_source] does not
    raise and returns the
    classified NAME tokens among [yielded], no more and no less. In the
    loop of [_run_workflow_directory] a file with this text is tokenized,
    its counts are merged into the totals and [files_processed] grows by
    one. And a walk whose files all scan to the end or up to a [TokenError]
    (or cannot be read) returns a result that counts this file among the
    [files_processed] and reports the names scanned in it. *)
Theorem token_error_keeps_partial_tokens
        (lang : LanguageReference) (generate_tokens : string -> TokenStream)
        (source : string) (yielded : list TokenInfo) :
  generate_tokens source = (yielded, Raised TokenError) ->
  let tokens := map (classify lang) (name_strings yielded) in
  let counts := count_keywords_builtins_dunder lang tokens in
  tokenize_source lang generate_tokens source = Ok tokens
  /\ (forall st path w,
        read_text path = Ok source ->
        process_file lang generate_tokens st path w
        = (Ok {| Loop.keyword_totals :=
                   counter_update (Loop.keyword_totals st) (fst (fst counts));
                 Loop.builtin_totals :=
                   counter_update (Loop.builtin_totals st) (snd (fst counts));
                 Loop.dunder_totals :=
                   counter_update (Loop.dunder_totals st) (snd counts);
                 Loop.total_tokens := Loop.total_tokens st + List.length tokens;
                 Loop.files_processed := Loop.files_processed st + 1;
                 Loop.total_bytes := Loop.total_bytes st + utf8_len source |},
           w ++ [source]))
  /\ (forall repo_root source_label w path,
        In path (rglob_py repo_root) ->
        read_text path = Ok source ->
        Forall (scans_through generate_tokens) (rglob_py repo_root) ->
        exists r,
          _run_workflow_directory lang generate_tokens repo_root source_label w
          = (Ok r, w ++ sources_of (py_files_of repo_root))
          /\ In path (readable (py_files_of repo_root))
          /\ files_processed (meta r)
             = Some (List.length (readable (py_files_of repo_root)))
          /\ analysis_of lang
               (walked_names generate_tokens (py_files_of repo_root)) r).
Proof.
  intros Hgen tokens counts.
  assert (Htok : tokenize_source lang generate_tokens source = Ok tokens).
  { rewrite tokenize_source_eq. unfold scanned_names. now rewrite Hgen. }
  split; [exact Htok | split].
  - intros st path w Hread. unfold process_file. rewrite Hread.
    unfold bind, tokenizing, lift, ret. rewrite Htok.
    subst counts. now destruct (count_keywords_builtins_dunder lang tokens) as [[kw blt] dnd].
  - intros repo_root source_label w path Hin Hread Hall.
    destruct (directory_total lang generate_tokens repo_root source_label w Hall)
      as [r Hrun].
    exists r. split; [exact Hrun|].
    destruct (directory_analysis lang generate_tokens _ _ _ _ _ Hrun) as (Ha & Hf & _).
    split; [|now split].
    unfold readable. apply filter_In. rewrite Hread. split; [|reflexivity].
    eapply Permutation_in; [|exact Hin]. symmetry. apply sorted_by_perm.
Qed.

(** The text that ends inside two open brackets keeps its nine names, and
    the walk over the sample tree counts its three readable files. *)
Lemma token_error_keeps_partial_tokens_witness :
  tokenize_source PY312 Lexer.generate_tokens unterminated_bracket
  = Ok [("name", "total"); ("name", "sum"); ("name", "len"); ("name", "x");
        ("keyword", "for"); ("name", "x"); ("keyword", "in"); ("name", "a");
        ("name", "b")]
  /\ exists r,
       fst (_run_workflow_directory PY312 Lexer.generate_tokens sample_tree
                                    "sample" []) = Ok r
       /\ files_processed (meta r) = Some 3.
Proof.
  assert (Hgen : Lexer.generate_tokens unterminated_bracket
                 = (fst (Lexer.generate_tokens unterminated_bracket),
                    Raised TokenError))
    by (vm_compute; reflexivity).
  destruct (token_error_keeps_partial_tokens
              PY312 Lexer.generate_tokens unterminated_bracket _ Hgen)
    as (H1 & _ & H3).
  split; [exact H1|].
  destruct (H3 sample_tree "sample" []
               {| parts := ["pkg"; "broken.py"];
                  read_text := Ok unterminated_bracket |})
    as (r & Hrun & _ & Hf & _).
  - vm_compute. auto.
  - reflexivity.
  - repeat (apply Forall_cons; [vm_compute; auto|]). apply Forall_nil.
  - exists r. rewrite Hrun. split; [reflexivity|].
    rewrite Hf. vm_compute. reflexivity.
Defined.

(** The text that ends inside a string literal keeps the two names before
    the literal. *)
Lemma unterminated_string_keeps_names :
  snd (Lexer.generate_tokens unterminated_string) = Raised TokenError
  /\ tokenize_source PY312 Lexer.generate_tokens unterminated_string
     = Ok [("name", "label"); ("name", "str")].
Proof. split; vm_compute; reflexivity. Qed.

(** A fault of the tokenizer that is not a [TokenError] is not caught: the
    dedent to an unknown column leaves [tokenize_source] by
    [IndentationError]. *)
Lemma indentation_error_propagates :
  tokenize_source PY312 Lexer.generate_tokens bad_dedent = Raise IndentationError.
Proof. vm_compute. reflexivity. Qed.

(** C3, where the code falls short of it. The token stream of [bad_dedent]
    is structurally broken: after the names [if], [x] and [a] the tokenizer
    meets a dedent to a column that no enclosing block has, and raises
    [IndentationError], which is not a [TokenError]. [tokenize_source]
    catches [TokenError] alone, so it raises instead of returning the tokens
    produced before the fault; and [_run_workflow_directory], which calls it
    outside any [try], returns no result for a tree that holds such a file:
    the file is not counted as processed, and the two sound files tokenized
    before it are lost with it. *)
Theorem indentation_fault_aborts_file_and_walk :
  (exists yielded,
      Lexer.generate_tokens bad_dedent = (yielded, Raised IndentationError)
      /\ name_strings yielded = ["if"; "x"; "a"])
  /\ tokenize_source PY312 Lexer.generate_tokens bad_dedent
     = Raise IndentationError
  /\ _run_workflow_directory PY312 Lexer.generate_tokens bad_dedent_tree
                             "sample" []
     = (Raise IndentationError,
        [example_source; "def size(x): return len(x)"; bad_dedent]).
Proof.
  split; [|split].
  - eexists. split; vm_compute; reflexivity.
  - vm_compute. reflexivity.
  - vm_compute. reflexivity.
Qed.

(** ** The checks before the walk *)

(** C5. When the clone leaves a repository with more paths matching [*.py]
    than the ceiling [max_files] (a ceiling is not negative),
    [run_workflow_repo] raises the over-limit error, and the record of
    tokenized texts is the one it started with: no file is tokenized and no
    count is accumulated. *)
Theorem over_limit_fails_before_tokenizing
        (lang : LanguageReference) (generate_tokens : string -> TokenStream)
        (git_clone : string -> string -> Z -> result (list Directory))
        (repo_url : string) (timeout_seconds max_files : Z)
        (repo_root : Directory) (others : list Directory) (w : list string) :
  clone_repo git_clone repo_url timeout_seconds = Ok (repo_root :: others) ->
  (0 <= max_files)%Z ->
  (max_files < Z.of_nat (List.length (rglob_py repo_root)))%Z ->
  run_workflow_repo lang generate_tokens git_clone repo_url timeout_seconds
                    max_files w
  = (Raise (too_many_files_error (List.length (rglob_py repo_root)) max_files), w).
Proof.
  intros Hclone Hmax Hover.
  unfold run_workflow_repo, bind, lift. rewrite Hclone.
  destruct (Nat.eqb_spec (List.length (rglob_py repo_root)) 0) as [E|_].
  - rewrite E in Hover. simpl in Hover. lia.
  - apply Z.ltb_lt in Hover. now rewrite Hover.
Qed.

(** The sample tree has four paths matching [*.py], one more than a
    ceiling of three. *)
Lemma over_limit_fails_before_tokenizing_witness :
  run_workflow_repo PY312 Lexer.generate_tokens (clone_yielding sample_tree)
                    "django/django" 120 3 []
  = (Raise (ValueError "Repository has 4 .py files; max allowed is 3"), []).
Proof.
  apply (over_limit_fails_before_tokenizing
           PY312 Lexer.generate_tokens (clone_yielding sample_tree)
           "django/django" 120 3 sample_tree [] []).
  - reflexivity.
  - lia.
  - vm_compute. reflexivity.
Defined.

(** Whatever the sign of the ceiling, a repository with more matching paths
    than [max_files] is rejected before any tokenization; under a negative
    ceiling a repository without matching paths is rejected by the
    empty-corpus check, which comes first. *)
Lemma over_limit_never_tokenizes
      (lang : LanguageReference) (generate_tokens : string -> TokenStream)
      (git_clone : string -> string -> Z -> result (list Directory))
      (repo_url : string) (timeout_seconds max_files : Z)
      (repo_root : Directory) (others : list Directory) (w : list string) :
  clone_repo git_clone repo_url timeout_seconds = Ok (repo_root :: others) ->
  (max_files < Z.of_nat (List.length (rglob_py repo_root)))%Z ->
  run_workflow_repo lang generate_tokens git_clone repo_url timeout_seconds
                    max_files w
  = (Raise (if Nat.eqb (List.length (rglob_py repo_root)) 0
            then no_py_files_error
            else too_many_files_error (List.length (rglob_py repo_root)) max_files),
     w).
Proof.
  intros Hclone Hover.
  unfold run_workflow_repo, bind, lift. rewrite Hclone.
  destruct (Nat.eqb (List.length (rglob_py repo_root)) 0); [reflexivity|].
  apply Z.ltb_lt in Hover. now rewrite Hover.
Qed.

Lemma rglob_py_none (repo_root : Directory) :
  (forall path, In path repo_root -> endswith (name (parts path)) ".py" = false) ->
  rglob_py repo_root = [].
Proof.
  unfold rglob_py. induction repo_root as [|path rest IH]; intros Hnone;
    [reflexivity|].
  simpl. rewrite Hnone by (simpl; auto).
  apply IH. intros path' Hin. apply Hnone. simpl. auto.
Qed.

(** C9. When the clone leaves a repository in which no path matches [*.py],
    whatever else and however much it contains, [run_workflow_repo] raises
    the empty-corpus error, and the record of tokenized texts is the one it
    started with. *)
Theorem empty_corpus_fails_before_tokenizing
        (lang : LanguageReference) (generate_tokens : string -> TokenStream)
        (git_clone : string -> string -> Z -> result (list Directory))
        (repo_url : string) (timeout_seconds max_files : Z)
        (repo_root : Directory) (others : list Directory) (w : list string) :
  clone_repo git_clone repo_url timeout_seconds = Ok (repo_root :: others) ->
  (forall path, In path repo_root -> endswith (name (parts path)) ".py" = false) ->
  run_workflow_repo lang generate_tokens git_clone repo_url timeout_seconds
                    max_files w
  = (Raise no_py_files_error, w).
Proof.
  intros Hclone Hnone.
  unfold run_workflow_repo, bind, lift.
  rewrite Hclone, (rglob_py_none repo_root Hnone). reflexivity.
Qed.

(** A tree of four files, none of which matches [*.py]. *)
Lemma empty_corpus_fails_before_tokenizing_witness :
  run_workflow_repo PY312 Lexer.generate_tokens (clone_yielding docs_only_tree)
                    "django/django" 120 50000 []
  = (Raise (ValueError "Repository contains no .py files"), []).
Proof.
  apply (empty_corpus_fails_before_tokenizing
           PY312 Lexer.generate_tokens (clone_yielding docs_only_tree)
           "django/django" 120 50000 docs_only_tree [] []).
  - reflexivity.
  - intros path [<-|[<-|[<-|[<-|[]]]]]; reflexivity.
Defined.

(** ** Invariants of every result *)

Lemma report_sum (names : list string) :
  sum_values (dict_of (most_common (tally names))) = sum_values (tally names).
Proof.
  rewrite dict_of_wf by apply most_common_wf, tally_wf.
  apply sum_values_perm, most_common_perm.
Qed.

Lemma report_keys (names : list string) (k : string) :
  In k (keys (dict_of (most_common (tally names)))) <-> In k names.
Proof.
  rewrite dict_of_wf by apply most_common_wf, tally_wf.
  rewrite <- (In_first_seen names k), <- (keys_tally names). unfold keys.
  split; apply Permutation_in, Permutation_map;
    [|symmetry]; apply most_common_perm.
Qed.

(** C6. In every analysis result produced by a workflow, each total of
    [meta] is the sum of the values of its frequency map. *)
Theorem totals_match_tables
        (lang : LanguageReference) (generate_tokens : string -> TokenStream)
        (urlopen_read : string -> result string)
        (git_clone : string -> string -> Z -> result (list Directory))
        (names : list string) (r : AnalysisResult) :
  produced lang generate_tokens urlopen_read git_clone names r ->
  total_keyword_occurrences (meta r) = sum_values (keyword_freq r)
  /\ total_builtin_occurrences (meta r) = sum_values (builtin_freq r)
  /\ total_dunder_occurrences (meta r) = sum_values (dunder_freq r).
Proof.
  intros H. apply produced_analysis in H.
  destruct H as (-> & -> & -> & _ & -> & -> & ->).
  now rewrite !report_sum.
Qed.

(** The walk over the sample tree: 6 keyword, 3 builtin and 1 dunder
    occurrences. *)
Lemma totals_match_tables_witness :
  exists r,
    fst (_run_workflow_directory PY312 Lexer.generate_tokens sample_tree
                                 "sample" []) = Ok r
    /\ total_keyword_occurrences (meta r) = 6
    /\ (total_keyword_occurrences (meta r) = sum_values (keyword_freq r)
        /\ total_builtin_occurrences (meta r) = sum_values (builtin_freq r)
        /\ total_dunder_occurrences (meta r) = sum_values (dunder_freq r)).
Proof.
  destruct (_run_workflow_directory PY312 Lexer.generate_tokens sample_tree
                                    "sample" []) as [[r|e] w'] eqn:E.
  - exists r. split; [reflexivity|]. split.
    + vm_compute in E. injection E as <- _. reflexivity.
    + exact (totals_match_tables
               PY312 Lexer.generate_tokens no_network no_git _ r
               (produced_directory PY312 Lexer.generate_tokens no_network no_git
                                   sample_tree "sample" [] w' r E)).
  - vm_compute in E. discriminate E.
Defined.

(** C7. In every analysis result produced by a workflow, the keys of
    [keyword_freq] are keywords, the keys of [builtin_freq] are builtins and
    the keys of [dunder_freq] are special methods of the reference. *)
Theorem table_keys_in_reference
        (lang : LanguageReference) (generate_tokens : string -> TokenStream)
        (urlopen_read : string -> result string)
        (git_clone : string -> string -> Z -> result (list Directory))
        (names : list string) (r : AnalysisResult) :
  produced lang generate_tokens urlopen_read git_clone names r ->
  (forall k, In k (keys (keyword_freq r)) -> In k (KEYWORDS lang))
  /\ (forall k, In k (keys (builtin_freq r)) -> In k (BUILTINS lang))
  /\ (forall k, In k (keys (dunder_freq r)) -> In k (SPECIAL_METHODS lang)).
Proof.
  intros H. apply produced_analysis in H.
  destruct H as (-> & -> & -> & _).
  unfold keyword_names, builtin_names, dunder_names.
  repeat split; intros k Hin; apply report_keys, filter_In in Hin;
    destruct Hin as [_ Hin].
  - now apply mem_In.
  - apply andb_prop in Hin. now apply mem_In.
  - apply andb_prop in Hin. now apply mem_In.
Qed.

(** The worked example: [def] and [return] are keywords, [__len__] is a
    special method. *)
Lemma table_keys_in_reference_witness :
  exists r,
    run_workflow PY312 Lexer.generate_tokens no_network None
                 (Some example_source) = Ok r
    /\ keys (keyword_freq r) = ["def"; "return"]
    /\ ((forall k, In k (keys (keyword_freq r)) -> In k PY312_KEYWORDS)
        /\ (forall k, In k (keys (builtin_freq r)) -> In k PY312_BUILTINS)
        /\ (forall k, In k (keys (dunder_freq r)) -> In k PY312_SPECIAL_METHODS)).
Proof.
  destruct (run_workflow PY312 Lexer.generate_tokens no_network None
                         (Some example_source)) as [r|e] eqn:E.
  - exists r. split; [reflexivity|]. split.
    + vm_compute in E. injection E as <-. reflexivity.
    + exact (table_keys_in_reference
               PY312 Lexer.generate_tokens no_network no_git _ r
               (produced_in_memory PY312 Lexer.generate_tokens no_network no_git
                                   None example_source r E)).
  - vm_compute in E. discriminate E.
Defined.

(** C8. In every analysis result produced by a workflow, each frequency
    map is ranked for the names that went to its table: the entries are the
    names with their numbers of occurrences, in descending order of the
    count, and entries with the same count stand in the order in which
    their names were first scanned (within the source text, or along the
    walk over the files). *)
Theorem tables_ranked_by_count_then_first_seen
        (lang : LanguageReference) (generate_tokens : string -> TokenStream)
        (urlopen_read : string -> result string)
        (git_clone : string -> string -> Z -> result (list Directory))
        (names : list string) (r : AnalysisResult) :
  produced lang generate_tokens urlopen_read git_clone names r ->
  ranked (keyword_names lang names) (keyword_freq r)
  /\ ranked (builtin_names lang names) (builtin_freq r)
  /\ ranked (dunder_names lang names) (dunder_freq r).
Proof.
  intros H. apply produced_analysis in H.
  destruct H as (-> & -> & -> & _).
  split; [|split]; apply ranked_report.
Qed.

(** The walk over the sample tree visits [app.py], [pkg/broken.py],
    [pkg/util.py]: [def] and [return] (twice each) come before [for] and
    [in] (once each), each pair in the order of first occurrence. *)
Lemma tables_ranked_by_count_then_first_seen_witness :
  exists r,
    fst (_run_workflow_directory PY312 Lexer.generate_tokens sample_tree
                                 "sample" []) = Ok r
    /\ keyword_freq r = [("def", 2); ("return", 2); ("for", 1); ("in", 1)]
    /\ (ranked (keyword_names PY312
                  (walked_names Lexer.generate_tokens (py_files_of sample_tree)))
               (keyword_freq r)
        /\ ranked (builtin_names PY312
                     (walked_names Lexer.generate_tokens (py_files_of sample_tree)))
                  (builtin_freq r)
        /\ ranked (dunder_names PY312
                     (walked_names Lexer.generate_tokens (py_files_of sample_tree)))
                  (dunder_freq r)).
Proof.
  destruct (_run_workflow_directory PY312 Lexer.generate_tokens sample_tree
                                    "sample" []) as [[r|e] w'] eqn:E.
  - exists r. split; [reflexivity|]. split.
    + vm_compute in E. injection E as <- _. reflexivity.
    + exact (tables_ranked_by_count_then_first_seen
               PY312 Lexer.generate_tokens no_network no_git _ r
               (produced_directory PY312 Lexer.generate_tokens no_network no_git
                                   sample_tree "sample" [] w' r E)).
  - vm_compute in E. discriminate E.
Defined.

(** ** The frozen reference *)

Lemma py312_disjoint_bool :
  forallb (fun s => negb (mem s PY312_SPECIAL_METHODS)) PY312_BUILTINS = true.
Proof. vm_compute. reflexivity. Qed.

(** C10. No builtin of the frozen reference is a special method of it;
    hence, in every analysis result produced with this reference, no name
    is a key of both [builtin_freq] and [dunder_freq]. *)
Theorem py312_builtins_and_special_methods_disjoint :
  (forall s, In s PY312_BUILTINS -> ~ In s PY312_SPECIAL_METHODS)
  /\ (forall (generate_tokens : string -> TokenStream)
             (urlopen_read : string -> result string)
             (git_clone : string -> string -> Z -> result (list Directory))
             (names : list string) (r : AnalysisResult),
         produced PY312 generate_tokens urlopen_read git_clone names r ->
         forall k, In k (keys (builtin_freq r)) -> ~ In k (keys (dunder_freq r))).
Proof.
  assert (Hdisj : forall s, In s PY312_BUILTINS -> ~ In s PY312_SPECIAL_METHODS).
  { intros s Hb Hs.
    pose proof (proj1 (forallb_forall _ _) py312_disjoint_bool s Hb) as H.
    apply mem_In in Hs. cbv beta in H. rewrite Hs in H. discriminate H. }
  split; [exact Hdisj|].
  intros generate_tokens urlopen_read git_clone names r H k Hb Hd.
  apply produced_analysis in H. destruct H as (_ & Eb & Ed & _).
  rewrite Eb in Hb. rewrite Ed in Hd.
  apply report_keys, filter_In in Hb. apply report_keys, filter_In in Hd.
  destruct Hb as [_ Hb]. destruct Hd as [_ Hd].
  apply andb_prop in Hb. apply andb_prop in Hd.
  apply (Hdisj k); apply mem_In; tauto.
Qed.

(** The sample tree analysed through [run_workflow_repo]: [len] and [sum]
    are the builtins found, [__len__] the special method. *)
Lemma py312_builtins_and_special_methods_disjoint_witness :
  ~ In "__import__" PY312_SPECIAL_METHODS
  /\ exists r,
       fst (run_workflow_repo PY312 Lexer.generate_tokens
                              (clone_yielding sample_tree) "django/django"
                              default_timeout_seconds default_max_files []) = Ok r
       /\ keys (builtin_freq r) = ["len"; "sum"]
       /\ keys (dunder_freq r) = ["__len__"]
       /\ forall k, In k (keys (builtin_freq r)) -> ~ In k (keys (dunder_freq r)).
Proof.
  destruct py312_builtins_and_special_methods_disjoint as [Hsets Hres].
  split.
  - apply Hsets. vm_compute. tauto.
  - destruct (run_workflow_repo PY312 Lexer.generate_tokens
                                (clone_yielding sample_tree) "django/django"
                                default_timeout_seconds default_max_files [])
      as [[r|e] w'] eqn:E.
    + exists r. split; [reflexivity|].
      split; [vm_compute in E; injection E as <- _; reflexivity|].
      split; [vm_compute in E; injection E as <- _; reflexivity|].
      exact (Hres Lexer.generate_tokens no_network (clone_yielding sample_tree) _ r
                  (produced_repo PY312 Lexer.generate_tokens no_network
                                 (clone_yielding sample_tree) "django/django"
                                 default_timeout_seconds default_max_files
                                 sample_tree [] [] w' r eq_refl E)).
    + vm_compute in E. discriminate E.
Defined.

(* ================================================================== *)
(** * Further properties of the tokenizer and the classifier *)

(** The texts of the tokens carrying the tag [kind]. *)
Definition tagged (kind : string) (tokens : list token) : list string :=
  map snd (filter (fun tok => String.eqb (fst tok) kind) tokens).

(** [tokenize_source] returns one pair per NAME token, in the order of the
    scan, and nothing for any other token; the tag of a pair is ["keyword"]
    when its text is in the keyword set and ["name"] otherwise. *)
Theorem tokenize_source_pairs
        (lang : LanguageReference) (generate_tokens : string -> TokenStream)
        (source : string) (tokens : list token) :
  tokenize_source lang generate_tokens source = Ok tokens ->
  map snd tokens = name_strings (fst (generate_tokens source))
  /\ (forall kind s, In (kind, s) tokens ->
        kind = if mem s (KEYWORDS lang) then "keyword" else "name").
Proof.
  intros H. apply tokenize_source_ok in H. subst tokens. split.
  - rewrite map_map. unfold classify. simpl. apply map_id.
  - intros kind s Hin. apply in_map_iff in Hin.
    destruct Hin as (x & Heq & _). unfold classify in Heq.
    now injection Heq as <- <-.
Qed.

Lemma tokenize_source_pairs_witness :
  map snd [("keyword", "def"); ("name", "foo"); ("name", "self");
           ("keyword", "return"); ("name", "self"); ("name", "__len__")]
  = name_strings (fst (Lexer.generate_tokens example_source))
  /\ (forall kind s,
        In (kind, s) [("keyword", "def"); ("name", "foo"); ("name", "self");
                      ("keyword", "return"); ("name", "self"); ("name", "__len__")] ->
        kind = if mem s (KEYWORDS PY312) then "keyword" else "name").
Proof.
  apply (tokenize_source_pairs PY312 Lexer.generate_tokens example_source).
  vm_compute. reflexivity.
Defined.

(** An exception of the tokenizer other than [TokenError] leaves
    [tokenize_source] unchanged, and the walk over a directory with it: when
    the files before [path] scan through and the scan of [path] raises [e],
    [_run_workflow_directory] raises [e] and returns no result, although
    the earlier files and [path] went through the tokenizer. *)
Theorem other_exception_aborts_the_walk
        (lang : LanguageReference) (generate_tokens : string -> TokenStream)
        (repo_root : Directory) (source_label : string) (w : list string)
        (before after : list Entry) (path : Entry) (source : string)
        (yielded : list TokenInfo) (e : exn) :
  py_files_of repo_root = before ++ path :: after ->
  Forall (scans_through generate_tokens) before ->
  read_text path = Ok source ->
  generate_tokens source = (yielded, Raised e) ->
  e <> TokenError ->
  tokenize_source lang generate_tokens source = Raise e
  /\ _run_workflow_directory lang generate_tokens repo_root source_label w
     = (Raise e, w ++ sources_of before ++ [source]).
Proof.
  intros Hfiles Hbefore Hread Hgen Hne.
  assert (Htok : tokenize_source lang generate_tokens source = Raise e).
  { rewrite tokenize_source_eq, Hgen. simpl. now destruct e. }
  split; [exact Htok|].
  unfold _run_workflow_directory, bind. fold (py_files_of repo_root).
  rewrite Hfiles.
  assert (Hloop : forall st w0,
             process_files lang generate_tokens (before ++ path :: after) st w0
             = (Raise e, w0 ++ sources_of before ++ [source])).
  { clear Hfiles. induction Hbefore as [|p rest Hp _ IH]; intros st w0.
    - simpl. unfold bind at 1, process_file. rewrite Hread.
      unfold bind, tokenizing, lift. now rewrite Htok.
    - rewrite (sources_of_cons p rest), <- app_comm_cons.
      simpl process_files. unfold bind at 1.
      destruct (process_file_total lang generate_tokens st p w0 Hp) as [st1 E1].
      rewrite E1, IH. now rewrite <- !app_assoc. }
  now rewrite Hloop.
Qed.

Lemma other_exception_aborts_the_walk_witness :
  tokenize_source PY312 Lexer.generate_tokens bad_dedent = Raise IndentationError
  /\ _run_workflow_directory PY312 Lexer.generate_tokens bad_dedent_tree "sample" []
     = (Raise IndentationError,
        [] ++ sources_of [ {| parts := ["app.py"]; read_text := Ok example_source |};
                           {| parts := ["pkg"; "util.py"];
                              read_text := Ok "def size(x): return len(x)" |} ]
           ++ [bad_dedent]).
Proof.
  apply (other_exception_aborts_the_walk
           PY312 Lexer.generate_tokens bad_dedent_tree "sample" []
           [ {| parts := ["app.py"]; read_text := Ok example_source |};
             {| parts := ["pkg"; "util.py"];
                read_text := Ok "def size(x): return len(x)" |} ]
           []
           {| parts := ["pkg"; "zz_legacy.py"]; read_text := Ok bad_dedent |}
           bad_dedent (fst (Lexer.generate_tokens bad_dedent)) IndentationError).
  - vm_compute. reflexivity.
  - repeat (apply Forall_cons; [vm_compute; auto|]). apply Forall_nil.
  - reflexivity.
  - vm_compute. reflexivity.
  - discriminate.
Defined.

Lemma count_loop_by_tag (lang : LanguageReference) (tokens : list token)
      (kw blt dnd : Counter) :
  fold_left (count_step lang) tokens (kw, blt, dnd)
  = (fold_left counter_incr (tagged "keyword" tokens) kw,
     fold_left counter_incr
               (filter (fun s => mem s (BUILTINS lang)) (tagged "name" tokens)) blt,
     fold_left counter_incr
               (filter (fun s => mem s (SPECIAL_METHODS lang)) (tagged "name" tokens))
               dnd).
Proof.
  revert kw blt dnd. induction tokens as [|[kind s] tokens IH]; intros; [reflexivity|].
  unfold tagged in *. cbn [fold_left count_step filter fst snd map].
  destruct (String.eqb kind "keyword") eqn:Ek.
  - apply String.eqb_eq in Ek. subst kind. cbn. apply IH.
  - destruct (String.eqb kind "name") eqn:En; [|apply IH].
    cbn. destruct (mem s (BUILTINS lang)), (mem s (SPECIAL_METHODS lang));
      cbn; apply IH.
Qed.

(** [count_keywords_builtins_dunder] goes by the tag of each token: a token
    tagged ["keyword"] is counted in the keyword table whatever its text, a
    token tagged ["name"] in the builtin table when its text is a builtin
    and in the dunder table when it is a special method, and a token with
    any other tag is ignored. *)
Theorem count_goes_by_tag (lang : LanguageReference) (tokens : list token) :
  count_keywords_builtins_dunder lang tokens
  = (tally (tagged "keyword" tokens),
     tally (filter (fun s => mem s (BUILTINS lang)) (tagged "name" tokens)),
     tally (filter (fun s => mem s (SPECIAL_METHODS lang)) (tagged "name" tokens))).
Proof. apply count_loop_by_tag. Qed.

Lemma tagged_app (kind : string) (t1 t2 : list token) :
  tagged kind (t1 ++ t2) = tagged kind t1 ++ tagged kind t2.
Proof. unfold tagged. now rewrite filter_app, map_app. Qed.

(** Counting two token lists one after the other and merging the second
    counters into the first with [Counter.update], as the directory walk
    does, gives the counters of the concatenated list, entry for entry and
    in the same order. *)
Theorem count_of_concatenation (lang : LanguageReference) (t1 t2 : list token) :
  count_keywords_builtins_dunder lang (t1 ++ t2)
  = (counter_update (fst (fst (count_keywords_builtins_dunder lang t1)))
                    (fst (fst (count_keywords_builtins_dunder lang t2))),
     counter_update (snd (fst (count_keywords_builtins_dunder lang t1)))
                    (snd (fst (count_keywords_builtins_dunder lang t2))),
     counter_update (snd (count_keywords_builtins_dunder lang t1))
                    (snd (count_keywords_builtins_dunder lang t2))).
Proof.
  unfold count_keywords_builtins_dunder. rewrite !count_loop_by_tag.
  cbn [fst snd]. rewrite !tagged_app, !filter_app.
  repeat match goal with
         | |- context [fold_left counter_incr ?l []] =>
             change (fold_left counter_incr l []) with (tally l)
         end.
  now rewrite !counter_update_tally.
Qed.

(* ================================================================== *)
(** * Further invariants of every result *)

Section ResultFacts.
Variable lang : LanguageReference.
Variable generate_tokens : string -> TokenStream.
Variable urlopen_read : string -> result string.
Variable git_clone : string -> string -> Z -> result (list Directory).

Lemma produced_keys (names : list string) (r : AnalysisResult) :
  produced lang generate_tokens urlopen_read git_clone names r ->
  (forall k, In k (keys (keyword_freq r)) <-> In k (keyword_names lang names))
  /\ (forall k, In k (keys (builtin_freq r)) <-> In k (builtin_names lang names))
  /\ (forall k, In k (keys (dunder_freq r)) <-> In k (dunder_names lang names)).
Proof.
  intros H. apply produced_analysis in H. destruct H as (-> & -> & -> & _).
  repeat split; intros Hin; now apply report_keys.
Qed.

Lemma produced_totals (names : list string) (r : AnalysisResult) :
  produced lang generate_tokens urlopen_read git_clone names r ->
  total_tokens_analyzed (meta r) = List.length names
  /\ total_keyword_occurrences (meta r) = List.length (keyword_names lang names)
  /\ total_builtin_occurrences (meta r) = List.length (builtin_names lang names)
  /\ total_dunder_occurrences (meta r) = List.length (dunder_names lang names).
Proof.
  intros H. apply produced_analysis in H.
  destruct H as (_ & _ & _ & -> & -> & -> & ->).
  now rewrite !sum_tally.
Qed.
End ResultFacts.

Lemma filter_exclusive_length {A : Type} (p q : A -> bool) (l : list A) :
  (forall x, p x = true -> q x = true -> False) ->
  List.length (filter p l) + List.length (filter q l) <= List.length l.
Proof.
  intros H. induction l as [|x l IH]; simpl; [lia|].
  destruct (p x) eqn:Px, (q x) eqn:Qx; simpl; try lia.
  exfalso. now apply (H x).
Qed.

Lemma filter_exclusive3_length {A : Type} (p q r : A -> bool) (l : list A) :
  (forall x, p x = true -> q x = true -> False) ->
  (forall x, p x = true -> r x = true -> False) ->
  (forall x, q x = true -> r x = true -> False) ->
  List.length (filter p l) + List.length (filter q l) + List.length (filter r l)
  <= List.length l.
Proof.
  intros Hpq Hpr Hqr. induction l as [|x l IH]; simpl; [lia|].
  destruct (p x) eqn:Px, (q x) eqn:Qx, (r x) eqn:Rx; simpl; try lia; exfalso.
  - now apply (Hpq x).
  - now apply (Hpq x).
  - now apply (Hpr x).
  - now apply (Hqr x).
Qed.

(** In every analysis result produced by a workflow, for any reference, no
    key of [keyword_freq] is a key of [builtin_freq] or of [dunder_freq]:
    a name of the keyword set is never reported as a builtin or a special
    method, even when the reference lists it there too. *)
Theorem keyword_table_disjoint_from_the_others
        (lang : LanguageReference) (generate_tokens : string -> TokenStream)
        (urlopen_read : string -> result string)
        (git_clone : string -> string -> Z -> result (list Directory))
        (names : list string) (r : AnalysisResult) :
  produced lang generate_tokens urlopen_read git_clone names r ->
  (forall k, In k (KEYWORDS lang) ->
             ~ In k (keys (builtin_freq r)) /\ ~ In k (keys (dunder_freq r)))
  /\ (forall k, In k (keys (keyword_freq r)) ->
                ~ In k (keys (builtin_freq r)) /\ ~ In k (keys (dunder_freq r))).
Proof.
  intros H.
  destruct (produced_keys _ _ _ _ _ _ H) as (Hk & Hb & Hd).
  assert (Hkw : forall k, In k (KEYWORDS lang) ->
                  ~ In k (keys (builtin_freq r)) /\ ~ In k (keys (dunder_freq r))).
  { intros k Hin. apply mem_In in Hin.
    split; intros Hc; [apply Hb in Hc | apply Hd in Hc];
      apply filter_In in Hc; destruct Hc as [_ Hc];
      rewrite Hin in Hc; discriminate Hc. }
  split; [exact Hkw|].
  intros k Hin. apply Hkw. apply Hk, filter_In in Hin.
  now apply mem_In.
Qed.

(** The source [x = type(None)] under the frozen reference: [type] and
    [None] are builtins of the reference and keywords, and are reported as
    keywords only. *)
Lemma keyword_table_disjoint_from_the_others_witness :
  exists r,
    run_workflow PY312 Lexer.generate_tokens no_network None
                 (Some "x = type(None)") = Ok r
    /\ keyword_freq r = [("type", 1); ("None", 1)]
    /\ builtin_freq r = []
    /\ ((forall k, In k (KEYWORDS PY312) ->
                   ~ In k (keys (builtin_freq r)) /\ ~ In k (keys (dunder_freq r)))
        /\ (forall k, In k (keys (keyword_freq r)) ->
                      ~ In k (keys (builtin_freq r)) /\ ~ In k (keys (dunder_freq r)))).
Proof.
  destruct (run_workflow PY312 Lexer.generate_tokens no_network None
                         (Some "x = type(None)")) as [r|e] eqn:E.
  - exists r. split; [reflexivity|].
    split; [vm_compute in E; injection E as <-; reflexivity|].
    split; [vm_compute in E; injection E as <-; reflexivity|].
    exact (keyword_table_disjoint_from_the_others
             PY312 Lexer.generate_tokens no_network no_git _ r
             (produced_in_memory PY312 Lexer.generate_tokens no_network no_git
                                 None "x = type(None)" r E)).
  - vm_compute in E. discriminate E.
Defined.

(** The builtins of the frozen reference that are also keywords of it are
    [None], [False], [True] and [type], and no other; no analysis result
    produced with the frozen reference has one of them as a key of
    [builtin_freq]. *)
Theorem py312_builtins_shadowed_by_keywords :
  (forall s, In s PY312_BUILTINS /\ In s PY312_KEYWORDS
             <-> In s ["None"; "False"; "True"; "type"])
  /\ (forall (generate_tokens : string -> TokenStream)
             (urlopen_read : string -> result string)
             (git_clone : string -> string -> Z -> result (list Directory))
             (names : list string) (r : AnalysisResult),
         produced PY312 generate_tokens urlopen_read git_clone names r ->
         forall s, In s ["None"; "False"; "True"; "type"] ->
                   ~ In s (keys (builtin_freq r))).
Proof.
  assert (Hset : forall s, In s PY312_BUILTINS /\ In s PY312_KEYWORDS
                           <-> In s ["None"; "False"; "True"; "type"]).
  { intros s.
    assert (Hf : filter (fun s => mem s PY312_KEYWORDS) PY312_BUILTINS
                 = ["type"; "None"; "False"; "True"; "type"])
      by (vm_compute; reflexivity).
    rewrite <- (mem_In s PY312_KEYWORDS).
    rewrite <- (filter_In (fun s => mem s PY312_KEYWORDS) s PY312_BUILTINS), Hf.
    simpl. tauto. }
  split; [exact Hset|].
  intros generate_tokens urlopen_read git_clone names r H s Hs Hin.
  apply Hset in Hs. destruct Hs as [_ Hk].
  destruct (produced_keys _ _ _ _ _ _ H) as (_ & Hb & _).
  apply Hb, filter_In in Hin. destruct Hin as [_ Hin].
  apply mem_In in Hk. change (KEYWORDS PY312) with PY312_KEYWORDS in Hin.
  rewrite Hk in Hin. discriminate Hin.
Qed.

(** In every analysis result produced by a workflow, the keyword
    occurrences and the builtin occurrences together, and the keyword
    occurrences and the dunder occurrences together, do not exceed the
    tokens analysed. *)
Theorem occurrences_bounded_by_tokens
        (lang : LanguageReference) (generate_tokens : string -> TokenStream)
        (urlopen_read : string -> result string)
        (git_clone : string -> string -> Z -> result (list Directory))
        (names : list string) (r : AnalysisResult) :
  produced lang generate_tokens urlopen_read git_clone names r ->
  total_keyword_occurrences (meta r) + total_builtin_occurrences (meta r)
  <= total_tokens_analyzed (meta r)
  /\ total_keyword_occurrences (meta r) + total_dunder_occurrences (meta r)
     <= total_tokens_analyzed (meta r).
Proof.
  intros H. destruct (produced_totals _ _ _ _ _ _ H) as (-> & -> & -> & ->).
  unfold keyword_names, builtin_names, dunder_names.
  split; apply filter_exclusive_length; intros x Hp Hq;
    rewrite Hp in Hq; discriminate Hq.
Qed.

Lemma occurrences_bounded_by_tokens_witness :
  exists r,
    fst (_run_workflow_directory PY312 Lexer.generate_tokens sample_tree
                                 "sample" []) = Ok r
    /\ total_tokens_analyzed (meta r) = 21
    /\ (total_keyword_occurrences (meta r) + total_builtin_occurrences (meta r)
        <= total_tokens_analyzed (meta r)
        /\ total_keyword_occurrences (meta r) + total_dunder_occurrences (meta r)
           <= total_tokens_analyzed (meta r)).
Proof.
  destruct (_run_workflow_directory PY312 Lexer.generate_tokens sample_tree
                                    "sample" []) as [[r|e] w'] eqn:E.
  - exists r. split; [reflexivity|]. split.
    + vm_compute in E. injection E as <- _. reflexivity.
    + exact (occurrences_bounded_by_tokens
               PY312 Lexer.generate_tokens no_network no_git _ r
               (produced_directory PY312 Lexer.generate_tokens no_network no_git
                                   sample_tree "sample" [] w' r E)).
  - vm_compute in E. discriminate E.
Defined.

(** With the frozen reference, whose builtins and special methods are
    disjoint, the three totals together do not exceed the tokens
    analysed. *)
Theorem py312_occurrences_bounded_by_tokens
        (generate_tokens : string -> TokenStream)
        (urlopen_read : string -> result string)
        (git_clone : string -> string -> Z -> result (list Directory))
        (names : list string) (r : AnalysisResult) :
  produced PY312 generate_tokens urlopen_read git_clone names r ->
  total_keyword_occurrences (meta r) + total_builtin_occurrences (meta r)
  + total_dunder_occurrences (meta r)
  <= total_tokens_analyzed (meta r).
Proof.
  intros H. destruct (produced_totals _ _ _ _ _ _ H) as (-> & -> & -> & ->).
  unfold keyword_names, builtin_names, dunder_names.
  apply filter_exclusive3_length; intros x Hp Hq.
  - rewrite Hp in Hq. discriminate Hq.
  - rewrite Hp in Hq. discriminate Hq.
  - apply andb_prop in Hp, Hq. destruct Hp as [_ Hb]. destruct Hq as [_ Hs].
    apply mem_In in Hb.
    pose proof (proj1 (forallb_forall _ _) py312_disjoint_bool x Hb) as Hd.
    cbv beta in Hd. change (SPECIAL_METHODS PY312) with PY312_SPECIAL_METHODS in Hs.
    rewrite Hs in Hd. discriminate Hd.
Qed.

Lemma py312_occurrences_bounded_by_tokens_witness :
  exists r,
    fst (_run_workflow_directory PY312 Lexer.generate_tokens sample_tree
                                 "sample" []) = Ok r
    /\ total_keyword_occurrences (meta r) + total_builtin_occurrences (meta r)
       + total_dunder_occurrences (meta r)
       <= total_tokens_analyzed (meta r).
Proof.
  destruct (_run_workflow_directory PY312 Lexer.generate_tokens sample_tree
                                    "sample" []) as [[r|e] w'] eqn:E.
  - exists r. split; [reflexivity|].
    exact (py312_occurrences_bounded_by_tokens
             Lexer.generate_tokens no_network no_git _ r
             (produced_directory PY312 Lexer.generate_tokens no_network no_git
                                 sample_tree "sample" [] w' r E)).
  - vm_compute in E. discriminate E.
Defined.

(* ================================================================== *)
(** * Further properties of the directory walk *)

(** A path whose text cannot be read: the loop passes it over. *)
Definition skipped (path : Entry) : bool :=
  match read_text path with
  | Raise OSError => true
  | _ => false
  end.

(** The directory without the paths that cannot be read. *)
Definition without_skipped (repo_root : Directory) : Directory :=
  filter (fun path => negb (skipped path)) repo_root.

(** The sample tree as another file system might list it, with one more
    file that does not match. *)
Definition sample_tree_relisted : Directory :=
  [ {| parts := ["app.py"]; read_text := Ok example_source |};
    {| parts := ["setup.cfg"]; read_text := Ok "import os" |};
    {| parts := ["locked.py"]; read_text := Raise OSError |};
    {| parts := ["pkg"; "util.py"]; read_text := Ok "def size(x): return len(x)" |};
    {| parts := ["pkg"; "broken.py"]; read_text := Ok unterminated_bracket |};
    {| parts := ["README.md"]; read_text := Ok "print" |} ].

(** ** The order of paths *)

Lemma ascii_compare_lt_trans (a b c : ascii) :
  Ascii.compare a b = Lt -> Ascii.compare b c = Lt -> Ascii.compare a c = Lt.
Proof.
  unfold Ascii.compare. rewrite !N.compare_lt_iff. lia.
Qed.

Lemma string_compare_lt_trans (x y z : string) :
  String.compare x y = Lt -> String.compare y z = Lt -> String.compare x z = Lt.
Proof.
  revert y z. induction x as [|a x IH]; intros [|b y] [|c z]; simpl;
    try discriminate; try reflexivity.
  destruct (Ascii.compare a b) eqn:Eab; try discriminate.
  - apply Ascii.compare_eq_iff in Eab. subst b.
    destruct (Ascii.compare a c) eqn:Eac; try discriminate; [|reflexivity].
    apply IH.
  - destruct (Ascii.compare b c) eqn:Ebc; try discriminate.
    + apply Ascii.compare_eq_iff in Ebc. subst c. now rewrite Eab.
    + now rewrite (ascii_compare_lt_trans a b c Eab Ebc).
Qed.

Lemma string_compare_refl (x : string) : String.compare x x = Eq.
Proof.
  induction x as [|a x IH]; simpl; [reflexivity|].
  assert (E : Ascii.compare a a = Eq).
  { unfold Ascii.compare. apply N.compare_refl. }
  now rewrite E.
Qed.

Lemma path_compare_eq (p q : list string) : path_compare p q = Eq -> p = q.
Proof.
  revert q. induction p as [|a p IH]; intros [|b q]; simpl; try discriminate;
    [reflexivity|].
  destruct (String.compare a b) eqn:E; try discriminate.
  apply String.compare_eq_iff in E. subst b. intros H. f_equal. now apply IH.
Qed.

Lemma path_compare_antisym (p q : list string) :
  path_compare p q = CompOpp (path_compare q p).
Proof.
  revert q. induction p as [|a p IH]; intros [|b q]; simpl; try reflexivity.
  rewrite (String.compare_antisym a b).
  destruct (String.compare b a); simpl; [apply IH | reflexivity | reflexivity].
Qed.

Lemma path_compare_lt_trans (p q r : list string) :
  path_compare p q = Lt -> path_compare q r = Lt -> path_compare p r = Lt.
Proof.
  revert q r. induction p as [|a p IH]; intros [|b q] [|c r]; simpl;
    try discriminate; try reflexivity.
  destruct (String.compare a b) eqn:Eab; try discriminate.
  - apply String.compare_eq_iff in Eab. subst b.
    destruct (String.compare a c) eqn:Eac; try discriminate; [|reflexivity].
    apply IH.
  - destruct (String.compare b c) eqn:Ebc; try discriminate.
    + apply String.compare_eq_iff in Ebc. subst c. now rewrite Eab.
    + now rewrite (string_compare_lt_trans a b c Eab Ebc).
Qed.

Lemma path_le_total (a b : Entry) : path_le a b = true \/ path_le b a = true.
Proof.
  unfold path_le. rewrite (path_compare_antisym (parts b) (parts a)).
  destruct (path_compare (parts a) (parts b)); simpl; auto.
Qed.

Lemma path_le_trans (a b c : Entry) :
  path_le a b = true -> path_le b c = true -> path_le a c = true.
Proof.
  unfold path_le.
  destruct (path_compare (parts a) (parts b)) eqn:Eab; try discriminate; intros _.
  - apply path_compare_eq in Eab. now rewrite Eab.
  - destruct (path_compare (parts b) (parts c)) eqn:Ebc; try discriminate; intros _.
    + apply path_compare_eq in Ebc. now rewrite <- Ebc, Eab.
    + now rewrite (path_compare_lt_trans _ _ _ Eab Ebc).
Qed.

Lemma path_le_antisym (a b : Entry) :
  path_le a b = true -> path_le b a = true -> parts a = parts b.
Proof.
  unfold path_le. rewrite (path_compare_antisym (parts b) (parts a)).
  destruct (path_compare (parts a) (parts b)) eqn:E; simpl; try discriminate.
  intros _ _. now apply path_compare_eq.
Qed.

(** ** Sorting and filtering *)

Section SortUnique.
Context {A : Type}.
Variable le : A -> A -> bool.
Hypothesis le_total : forall x y, le x y = true \/ le y x = true.
Hypothesis le_trans :
  forall x y z, le x y = true -> le y z = true -> le x z = true.

Lemma sorted_perm_eq (l1 l2 : list A) :
  StronglySorted (fun x y => le x y = true) l1 ->
  StronglySorted (fun x y => le x y = true) l2 ->
  Permutation l1 l2 ->
  (forall x y, In x l1 -> In y l1 -> le x y = true -> le y x = true -> x = y) ->
  l1 = l2.
Proof.
  revert l2. induction l1 as [|x l1 IH]; intros l2 H1 H2 Hp Hanti.
  - apply Permutation_nil in Hp. now subst.
  - destruct l2 as [|y l2].
    + apply Permutation_sym, Permutation_nil in Hp. discriminate Hp.
    + inversion H1 as [|? ? H1' Hx]; subst. inversion H2 as [|? ? H2' Hy]; subst.
      assert (Hxy : x = y).
      { assert (Hin_x : In x (y :: l2))
          by (eapply Permutation_in; [exact Hp | now left]).
        assert (Hin_y : In y (x :: l1))
          by (eapply Permutation_in; [symmetry; exact Hp | now left]).
        destruct Hin_x as [->|Hin_x]; [reflexivity|].
        destruct Hin_y as [->|Hin_y]; [reflexivity|].
        apply Hanti; simpl; auto.
        - rewrite Forall_forall in Hx. now apply Hx.
        - rewrite Forall_forall in Hy. now apply Hy. }
      subst y. f_equal. apply IH; try assumption.
      * now apply Permutation_cons_inv in Hp.
      * intros a b Ha Hb. apply Hanti; simpl; auto.
Qed.

Lemma sorted_by_perm_eq (l1 l2 : list A) :
  Permutation l1 l2 ->
  (forall x y, In x l1 -> In y l1 -> le x y = true -> le y x = true -> x = y) ->
  sorted_by le l1 = sorted_by le l2.
Proof.
  intros Hp Hanti. apply sorted_perm_eq.
  - now apply sorted_by_sorted.
  - now apply sorted_by_sorted.
  - rewrite !sorted_by_perm. exact Hp.
  - intros x y Hx Hy. apply Hanti;
      eapply Permutation_in; try eassumption; apply sorted_by_perm.
Qed.

Lemma insert_by_front (x : A) (l : list A) :
  Forall (fun z => le x z = true) l -> insert_by le x l = x :: l.
Proof.
  intros H. destruct l as [|y l]; [reflexivity|].
  simpl. inversion H as [|? ? Hy _]; subst. now rewrite Hy.
Qed.

Lemma filter_insert_by_out (p : A -> bool) (x : A) (l : list A) :
  p x = false -> filter p (insert_by le x l) = filter p l.
Proof.
  intros Px. induction l as [|y l IH]; simpl; [now rewrite Px|].
  destruct (le x y); simpl; [now rewrite Px|]. now rewrite IH.
Qed.

Lemma filter_insert_by_in (p : A -> bool) (x : A) (l : list A) :
  StronglySorted (fun a b => le a b = true) l ->
  p x = true ->
  filter p (insert_by le x l) = insert_by le x (filter p l).
Proof.
  intros Hs Px. induction Hs as [|y l Hs IH Hy]; simpl; [now rewrite Px|].
  destruct (le x y) eqn:E; simpl.
  - rewrite Px. destruct (p y) eqn:Py; simpl; [now rewrite E|].
    symmetry. apply insert_by_front.
    apply Forall_forall. intros z Hz. apply filter_In in Hz.
    rewrite Forall_forall in Hy. apply (le_trans x y z E). apply Hy. tauto.
  - rewrite IH. destruct (p y); simpl; [now rewrite E | reflexivity].
Qed.

Lemma filter_sorted_by_comm (p : A -> bool) (l : list A) :
  filter p (sorted_by le l) = sorted_by le (filter p l).
Proof.
  induction l as [|x l IH]; [reflexivity|].
  simpl. destruct (p x) eqn:Px.
  - rewrite filter_insert_by_in; [simpl; now rewrite IH | | exact Px].
    now apply sorted_by_sorted.
  - now rewrite filter_insert_by_out.
Qed.
End SortUnique.

Lemma NoDup_map_eq {A B : Type} (f : A -> B) (l : list A) (x y : A) :
  NoDup (map f l) -> In x l -> In y l -> f x = f y -> x = y.
Proof.
  induction l as [|a l IH]; simpl; intros Hnd Hx Hy Hf; [tauto|].
  inversion Hnd as [|? ? Hni Hnd']; subst.
  destruct Hx as [->|Hx], Hy as [->|Hy]; try reflexivity.
  - exfalso. apply Hni. rewrite Hf. now apply in_map.
  - exfalso. apply Hni. rewrite <- Hf. now apply in_map.
  - now apply IH.
Qed.

(** ** What the walk reads *)

Section WalkFacts.
Variable lang : LanguageReference.
Variable generate_tokens : string -> TokenStream.

Lemma process_file_bytes (st st' : Loop.state) (path : Entry) (w w' : list string) :
  process_file lang generate_tokens st path w = (Ok st', w') ->
  Loop.total_bytes st'
  = Loop.total_bytes st + list_sum (map utf8_len (sources_of [path])).
Proof.
  unfold process_file, sources_of. simpl.
  destruct (read_text path) as [source|e].
  - unfold bind, tokenizing, lift, ret.
    destruct (tokenize_source lang generate_tokens source) as [tokens|e];
      [|discriminate].
    destruct (count_keywords_builtins_dunder lang tokens) as [[kw blt] dnd].
    intros [= <- _]. simpl. lia.
  - destruct e; unfold ret, raise; intros [= <- _] || discriminate.
    simpl. lia.
Qed.

Lemma process_files_bytes (py_files : list Entry) (st st' : Loop.state)
      (w w' : list string) :
  process_files lang generate_tokens py_files st w = (Ok st', w') ->
  Loop.total_bytes st'
  = Loop.total_bytes st + list_sum (map utf8_len (sources_of py_files)).
Proof.
  revert st w. induction py_files as [|path rest IH]; intros st w.
  - simpl. unfold ret. intros [= <- _]. simpl. lia.
  - rewrite (sources_of_cons path rest). simpl process_files. unfold bind at 1.
    destruct (process_file lang generate_tokens st path w) as [[st1|e] w1] eqn:E1;
      [|discriminate].
    intros Hrest. apply IH in Hrest. apply process_file_bytes in E1.
    rewrite Hrest, E1, map_app, list_sum_app. lia.
Qed.

Lemma process_files_skip (py_files : list Entry) (st : Loop.state) (w : list string) :
  process_files lang generate_tokens
                (filter (fun path => negb (skipped path)) py_files) st w
  = process_files lang generate_tokens py_files st w.
Proof.
  revert st w. induction py_files as [|path rest IH]; intros st w; [reflexivity|].
  simpl filter. destruct (skipped path) eqn:E; simpl negb; cbv iota.
  - simpl process_files. unfold bind at 1, process_file.
    unfold skipped in E. destruct (read_text path) as [s|[]]; try discriminate E.
    unfold ret. apply IH.
  - simpl process_files. unfold bind.
    destruct (process_file lang generate_tokens st path w) as [[st1|e] w1];
      [apply IH | reflexivity].
Qed.
End WalkFacts.

Lemma readable_sources_length (py_files : list Entry) :
  List.length (readable py_files) = List.length (sources_of py_files).
Proof.
  unfold readable, sources_of.
  induction py_files as [|path rest IH]; [reflexivity|].
  simpl. destruct (read_text path); simpl; now rewrite IH.
Qed.

Lemma sources_length_le (py_files : list Entry) :
  List.length (sources_of py_files) <= List.length py_files.
Proof.
  unfold sources_of. induction py_files as [|path rest IH]; [simpl; lia|].
  simpl. destruct (read_text path); simpl; lia.
Qed.

Lemma rglob_py_filter (q : Entry -> bool) (repo_root : Directory) :
  rglob_py (filter q repo_root) = filter q (rglob_py repo_root).
Proof.
  unfold rglob_py. induction repo_root as [|e rest IH]; [reflexivity|].
  simpl. destruct (q e) eqn:Q, (endswith (name (parts e)) ".py") eqn:P; simpl;
    rewrite ?Q, ?P, IH; reflexivity.
Qed.

(** When [_run_workflow_directory] returns a result, its [meta] describes
    the matching paths whose text could be read, taken in path order:
    [files_processed] is their number (at most the number of matching
    paths), [total_bytes] the UTF-8 length of their texts,
    [total_tokens_analyzed] the number of NAME tokens scanned in them, and
    each of these texts went through the tokenizer once. *)
Theorem directory_meta_counts_what_was_read
        (lang : LanguageReference) (generate_tokens : string -> TokenStream)
        (repo_root : Directory) (source_label : string)
        (w w' : list string) (r : AnalysisResult) :
  _run_workflow_directory lang generate_tokens repo_root source_label w = (Ok r, w') ->
  let texts := sources_of (py_files_of repo_root) in
  source (meta r) = source_label
  /\ files_processed (meta r) = Some (List.length texts)
  /\ List.length texts <= List.length (rglob_py repo_root)
  /\ total_bytes (meta r) = Some (list_sum (map utf8_len texts))
  /\ total_tokens_analyzed (meta r)
     = List.length (walked_names generate_tokens (py_files_of repo_root))
  /\ w' = w ++ texts.
Proof.
  intros Hrun texts.
  destruct (directory_analysis _ _ _ _ _ _ _ Hrun) as (Ha & Hf & Hw).
  destruct Ha as (_ & _ & _ & Ht & _).
  unfold _run_workflow_directory, bind in Hrun. fold (py_files_of repo_root) in Hrun.
  destruct (process_files lang generate_tokens (py_files_of repo_root) Loop.init w)
    as [[st|e] w1] eqn:E; [|discriminate].
  apply process_files_bytes in E. unfold ret in Hrun. injection Hrun as <- _.
  simpl in *. rewrite Hf, readable_sources_length, E.
  repeat split; try assumption.
  unfold texts. rewrite (sources_length_le (py_files_of repo_root)).
  unfold py_files_of. now rewrite (Permutation_length (sorted_by_perm path_le _)).
Qed.

Lemma directory_meta_counts_what_was_read_witness :
  exists r w',
    _run_workflow_directory PY312 Lexer.generate_tokens sample_tree "sample" []
    = (Ok r, w')
    /\ files_processed (meta r) = Some 3
    /\ total_bytes (meta r) = Some 95
    /\ w' = [example_source; unterminated_bracket; "def size(x): return len(x)"].
Proof.
  destruct (_run_workflow_directory PY312 Lexer.generate_tokens sample_tree
                                    "sample" []) as [[r|e] w'] eqn:E.
  - exists r, w'. split; [reflexivity|].
    destruct (directory_meta_counts_what_was_read
                PY312 Lexer.generate_tokens sample_tree "sample" [] w' r E)
      as (_ & Hf & _ & Hb & _ & Hw).
    split; [exact Hf|]. split; [exact Hb | exact Hw].
  - vm_compute in E. discriminate E.
Defined.

(** A matching path whose text cannot be read ([OSError]) is passed over
    without a trace: the walk returns what it returns on the directory
    without these paths, the same result or the same exception, with the
    same texts tokenized. *)
Theorem unreadable_paths_are_passed_over
        (lang : LanguageReference) (generate_tokens : string -> TokenStream)
        (repo_root : Directory) (source_label : string) (w : list string) :
  _run_workflow_directory lang generate_tokens repo_root source_label w
  = _run_workflow_directory lang generate_tokens (without_skipped repo_root)
                            source_label w.
Proof.
  unfold _run_workflow_directory, without_skipped.
  rewrite rglob_py_filter.
  rewrite <- (filter_sorted_by_comm path_le path_le_total path_le_trans).
  unfold bind. now rewrite process_files_skip.
Qed.

(** The result does not depend on the order in which the file system lists
    the directory, nor on the paths that do not match [*.py]: two listings
    whose matching paths are the same up to order, each path listed once,
    give the same outcome. *)
Theorem directory_result_independent_of_listing
        (lang : LanguageReference) (generate_tokens : string -> TokenStream)
        (repo_root repo_root' : Directory) (source_label : string)
        (w : list string) :
  Permutation (rglob_py repo_root) (rglob_py repo_root') ->
  NoDup (map parts (rglob_py repo_root)) ->
  _run_workflow_directory lang generate_tokens repo_root source_label w
  = _run_workflow_directory lang generate_tokens repo_root' source_label w.
Proof.
  intros Hp Hnd. unfold _run_workflow_directory.
  rewrite (sorted_by_perm_eq path_le path_le_total path_le_trans _ _ Hp);
    [reflexivity|].
  intros x y Hx Hy Hxy Hyx.
  apply (NoDup_map_eq parts (rglob_py repo_root)); try assumption.
  now apply path_le_antisym.
Qed.

Lemma directory_result_independent_of_listing_witness :
  _run_workflow_directory PY312 Lexer.generate_tokens sample_tree "sample" []
  = _run_workflow_directory PY312 Lexer.generate_tokens sample_tree_relisted
                            "sample" [].
Proof.
  apply (directory_result_independent_of_listing
           PY312 Lexer.generate_tokens sample_tree sample_tree_relisted "sample" []).
  - change (rglob_py sample_tree)
      with [ {| parts := ["pkg"; "util.py"];
                read_text := Ok "def size(x): return len(x)" |};
             {| parts := ["pkg"; "broken.py"]; read_text := Ok unterminated_bracket |};
             {| parts := ["locked.py"]; read_text := Raise OSError |};
             {| parts := ["app.py"]; read_text := Ok example_source |} ].
    change (rglob_py sample_tree_relisted)
      with [ {| parts := ["app.py"]; read_text := Ok example_source |};
             {| parts := ["locked.py"]; read_text := Raise OSError |};
             {| parts := ["pkg"; "util.py"];
                read_text := Ok "def size(x): return len(x)" |};
             {| parts := ["pkg"; "broken.py"]; read_text := Ok unterminated_bracket |} ].
    eapply perm_trans; [apply Permutation_rev|]. simpl.
    do 2 apply perm_skip. apply perm_swap.
  - vm_compute. repeat constructor; simpl; intuition discriminate.
Defined.

(** A directory without a matching path is no error for the walk itself:
    [run_workflow_cpython], which has no check before the walk, returns a
    result with [files_processed = 0], zero totals and empty tables. *)
Theorem run_workflow_cpython_on_no_files
        (lang : LanguageReference) (generate_tokens : string -> TokenStream)
        (cpython_root : string) (tree : Directory) (w : list string) :
  rglob_py tree = [] ->
  run_workflow_cpython lang generate_tokens cpython_root tree w
  = (Ok {| meta := {| source := "python/cpython (full repo)";
                      language_reference := "Python 3.12 (frozen)";
                      files_processed := Some 0;
                      total_tokens_analyzed := 0;
                      total_keyword_occurrences := 0;
                      total_builtin_occurrences := 0;
                      total_dunder_occurrences := 0;
                      total_bytes := Some 0;
                      repo_url := None;
                      cpython_root := Some cpython_root |};
           keyword_freq := [];
           builtin_freq := [];
           dunder_freq := [] |}, w).
Proof.
  intros H. unfold run_workflow_cpython, _run_workflow_directory, bind.
  rewrite H. reflexivity.
Qed.

Lemma run_workflow_cpython_on_no_files_witness :
  fst (run_workflow_cpython PY312 Lexer.generate_tokens "/opt/cpython"
                            docs_only_tree [])
  = Ok {| meta := {| source := "python/cpython (full repo)";
                     language_reference := "Python 3.12 (frozen)";
                     files_processed := Some 0;
                     total_tokens_analyzed := 0;
                     total_keyword_occurrences := 0;
                     total_builtin_occurrences := 0;
                     total_dunder_occurrences := 0;
                     total_bytes := Some 0;
                     repo_url := None;
                     cpython_root := Some "/opt/cpython" |};
          keyword_freq := [];
          builtin_freq := [];
          dunder_freq := [] |}.
Proof.
  rewrite (run_workflow_cpython_on_no_files
             PY312 Lexer.generate_tokens "/opt/cpython" docs_only_tree []).
  - reflexivity.
  - reflexivity.
Defined.

(* ================================================================== *)
(** * Further properties of the entry points *)

(** The result [r] with [meta.source] set to [note]. *)
Definition with_source (note : string) (r : AnalysisResult) : AnalysisResult :=
  let m := meta r in
  {| meta := {| source := note;
                language_reference := language_reference m;
                files_processed := files_processed m;
                total_tokens_analyzed := total_tokens_analyzed m;
                total_keyword_occurrences := total_keyword_occurrences m;
                total_builtin_occurrences := total_builtin_occurrences m;
                total_dunder_occurrences := total_dunder_occurrences m;
                total_bytes := total_bytes m;
                repo_url := repo_url m;
                cpython_root := cpython_root m |};
     keyword_freq := keyword_freq r;
     builtin_freq := builtin_freq r;
     dunder_freq := dunder_freq r |}.

(** A network that serves the example text at every URL. *)
Definition example_network : string -> result string :=
  fun _ => Ok example_source.

(** How [run_workflow] chooses its corpus. With an in-memory source the URL
    and the network play no part. Without one, a missing or empty URL is a
    [ValueError]; a non-empty URL is fetched, a failure of the fetch is
    raised as it is, and the text fetched is analysed as an in-memory source
    would be, with the URL instead of ["in_memory"] as [meta.source]. *)
Theorem run_workflow_corpus_choice
        (lang : LanguageReference) (generate_tokens : string -> TokenStream)
        (urlopen_read : string -> result string) :
  (forall corpus_url corpus_url' urlopen_read' source,
      run_workflow lang generate_tokens urlopen_read corpus_url (Some source)
      = run_workflow lang generate_tokens urlopen_read' corpus_url' (Some source))
  /\ (forall corpus_url,
         corpus_url = None \/ corpus_url = Some EmptyString ->
         run_workflow lang generate_tokens urlopen_read corpus_url None
         = Raise (ValueError "Provide either corpus_url or in_memory_source"))
  /\ (forall url,
         url <> EmptyString ->
         run_workflow lang generate_tokens urlopen_read (Some url) None
         = match urlopen_read url with
           | Raise e => Raise e
           | Ok text =>
               match run_workflow lang generate_tokens urlopen_read None
                                  (Some text) with
               | Ok r => Ok (with_source url r)
               | Raise e => Raise e
               end
           end).
Proof.
  split; [reflexivity | split].
  - intros corpus_url [-> | ->]; reflexivity.
  - intros [|c u] Hne; [contradiction|].
    unfold run_workflow, fetch_corpus_into_ram.
    destruct (urlopen_read (String c u)) as [text|e]; [|reflexivity].
    simpl. destruct (tokenize_source lang generate_tokens text) as [tokens|e];
      [|reflexivity].
    simpl. now destruct (count_keywords_builtins_dunder lang tokens) as [[kw blt] dnd].
Qed.

Lemma run_workflow_corpus_choice_witness :
  run_workflow PY312 Lexer.generate_tokens example_network
               (Some "https://example.org/a.py") None
  = match run_workflow PY312 Lexer.generate_tokens example_network None
                       (Some example_source) with
    | Ok r => Ok (with_source "https://example.org/a.py" r)
    | Raise e => Raise e
    end.
Proof.
  destruct (run_workflow_corpus_choice PY312 Lexer.generate_tokens example_network)
    as (_ & _ & H).
  apply (H "https://example.org/a.py"). discriminate.
Defined.

(** When [run_workflow_repo] returns a result for a clone that left the
    directory [repo_root], the result is the one of the walk over
    [repo_root] with [meta.repo_url] set to the reference given (which is
    also [meta.source]); the repository has between one and [max_files]
    matching paths, and [files_processed] does not exceed the ceiling. *)
Theorem run_workflow_repo_result
        (lang : LanguageReference) (generate_tokens : string -> TokenStream)
        (git_clone : string -> string -> Z -> result (list Directory))
        (repo : string) (timeout_seconds max_files : Z)
        (repo_root : Directory) (others : list Directory)
        (w w' : list string) (r : AnalysisResult) :
  clone_repo git_clone repo timeout_seconds = Ok (repo_root :: others) ->
  run_workflow_repo lang generate_tokens git_clone repo timeout_seconds
                    max_files w = (Ok r, w') ->
  (exists r0,
      _run_workflow_directory lang generate_tokens repo_root repo w = (Ok r0, w')
      /\ r = set_repo_url repo r0)
  /\ repo_url (meta r) = Some repo
  /\ source (meta r) = repo
  /\ 0 < List.length (rglob_py repo_root)
  /\ (Z.of_nat (List.length (rglob_py repo_root)) <= max_files)%Z
  /\ exists n, files_processed (meta r) = Some n /\ (Z.of_nat n <= max_files)%Z.
Proof.
  intros Hclone Hrun.
  assert (Hcount : 0 < List.length (rglob_py repo_root)
                   /\ (Z.of_nat (List.length (rglob_py repo_root)) <= max_files)%Z).
  { unfold run_workflow_repo, bind at 1, lift in Hrun. rewrite Hclone in Hrun.
    destruct (Nat.eqb_spec (List.length (rglob_py repo_root)) 0);
      [discriminate Hrun|].
    destruct (Z.ltb_spec max_files (Z.of_nat (List.length (rglob_py repo_root))));
      [discriminate Hrun|].
    split; lia. }
  destruct (run_workflow_repo_ok lang generate_tokens git_clone _ _ _ _ _ _ _ _
                                 Hclone Hrun) as (r0 & Hdir & ->).
  destruct (directory_analysis lang generate_tokens _ _ _ _ _ Hdir) as (_ & Hf & _).
  assert (Hsrc : source (meta r0) = repo).
  { unfold _run_workflow_directory, bind in Hdir.
    destruct (process_files _ _ _ _ _) as [[st|e] w1]; [|discriminate].
    unfold ret in Hdir. now injection Hdir as <- _. }
  split; [now exists r0|].
  repeat split; try tauto; try assumption.
  exists (List.length (readable (py_files_of repo_root))).
  split; [exact Hf|].
  rewrite readable_sources_length.
  pose proof (sources_length_le (py_files_of repo_root)) as Hle.
  unfold py_files_of in Hle at 2.
  rewrite (Permutation_length (sorted_by_perm path_le _)) in Hle. lia.
Qed.

Lemma run_workflow_repo_result_witness :
  exists r w',
    run_workflow_repo PY312 Lexer.generate_tokens (clone_yielding sample_tree)
                      "django/django" 90 30000 [] = (Ok r, w')
    /\ repo_url (meta r) = Some "django/django"
    /\ files_processed (meta r) = Some 3.
Proof.
  destruct (run_workflow_repo PY312 Lexer.generate_tokens
                              (clone_yielding sample_tree) "django/django"
                              90 30000 []) as [[r|e] w'] eqn:E.
  - exists r, w'. split; [reflexivity|].
    destruct (run_workflow_repo_result
                PY312 Lexer.generate_tokens (clone_yielding sample_tree)
                "django/django" 90 30000 sample_tree [] [] w' r eq_refl E)
      as (_ & Hurl & _).
    split; [exact Hurl|].
    vm_compute in E. injection E as <- _. reflexivity.
  - vm_compute in E. discriminate E.
Defined.

(** [run_workflow_repo] returns a result whenever the clone leaves a
    directory with between one and [max_files] matching paths, each of which
    scans to the end or up to a [TokenError], or cannot be read. *)
Theorem run_workflow_repo_returns
        (lang : LanguageReference) (generate_tokens : string -> TokenStream)
        (git_clone : string -> string -> Z -> result (list Directory))
        (repo_url : string) (timeout_seconds max_files : Z)
        (repo_root : Directory) (others : list Directory) (w : list string) :
  clone_repo git_clone repo_url timeout_seconds = Ok (repo_root :: others) ->
  rglob_py repo_root <> [] ->
  (Z.of_nat (List.length (rglob_py repo_root)) <= max_files)%Z ->
  Forall (scans_through generate_tokens) (rglob_py repo_root) ->
  exists r,
    run_workflow_repo lang generate_tokens git_clone repo_url timeout_seconds
                      max_files w
    = (Ok r, w ++ sources_of (py_files_of repo_root)).
Proof.
  intros Hclone Hne Hmax Hall.
  destruct (directory_total lang generate_tokens repo_root repo_url w Hall)
    as [r0 Hdir].
  exists (set_repo_url repo_url r0).
  unfold run_workflow_repo, bind at 1, lift. rewrite Hclone.
  destruct (Nat.eqb_spec (List.length (rglob_py repo_root)) 0) as [E|_].
  - destruct (rglob_py repo_root); [contradiction | discriminate E].
  - destruct (Z.ltb_spec max_files (Z.of_nat (List.length (rglob_py repo_root))));
      [lia|].
    unfold bind. now rewrite Hdir.
Qed.

Lemma run_workflow_repo_returns_witness :
  exists r,
    run_workflow_repo PY312 Lexer.generate_tokens (clone_yielding sample_tree)
                      "django/django" 90 4 []
    = (Ok r, [] ++ sources_of (py_files_of sample_tree)).
Proof.
  apply (run_workflow_repo_returns
           PY312 Lexer.generate_tokens (clone_yielding sample_tree)
           "django/django" 90 4 sample_tree [] []).
  - reflexivity.
  - discriminate.
  - vm_compute. discriminate.
  - repeat (apply Forall_cons; [vm_compute; auto|]). apply Forall_nil.
Defined.

(* ================================================================== *)
(** * Further properties of repository references *)

(** The short form [owner/name] of a repository on GitHub. *)
Definition short_form (owner name : string) : string :=
  owner ++ "/" ++ name.

(** A string that [strip] leaves as it is. *)
Definition stripped (s : string) : Prop :=
  lstrip s = s /\ rstrip_by isspace s = s.

(** ** Strings *)

Lemma str_app_assoc (a b c : string) : ((a ++ b) ++ c = a ++ (b ++ c))%string.
Proof. induction a as [|x a IH]; simpl; [reflexivity | now rewrite IH]. Qed.

Lemma str_app_nil_r (a : string) : (a ++ "")%string = a.
Proof. induction a as [|x a IH]; simpl; [reflexivity | now rewrite IH]. Qed.

Lemma str_length_app (a b : string) :
  String.length (a ++ b) = String.length a + String.length b.
Proof. induction a as [|x a IH]; simpl; [reflexivity | now rewrite IH]. Qed.

Lemma list_ascii_app (a b : string) :
  list_ascii_of_string (a ++ b)
  = (list_ascii_of_string a ++ list_ascii_of_string b)%list.
Proof. induction a as [|x a IH]; simpl; [reflexivity | now rewrite IH]. Qed.

Lemma list_ascii_inj (a b : string) :
  list_ascii_of_string a = list_ascii_of_string b -> a = b.
Proof.
  intros H. rewrite <- (string_of_list_ascii_of_string a),
              <- (string_of_list_ascii_of_string b).
  now rewrite H.
Qed.

Lemma substring_app_skip (a b : string) (m : nat) :
  substring (String.length a) m (a ++ b) = substring 0 m b.
Proof. induction a as [|x a IH]; simpl; [reflexivity | exact IH]. Qed.

Lemma substring_all (b : string) : substring 0 (String.length b) b = b.
Proof. induction b as [|x b IH]; simpl; [reflexivity | now rewrite IH]. Qed.

Lemma substring_split (s : string) (n : nat) :
  n <= String.length s ->
  s = (substring 0 n s ++ substring n (String.length s - n) s)%string.
Proof.
  revert n. induction s as [|c s IH]; intros [|n] Hn; simpl in *; try lia.
  - reflexivity.
  - now rewrite substring_all.
  - rewrite <- IH by lia. reflexivity.
Qed.

Lemma endswith_app (a suffix : string) : endswith (a ++ suffix) suffix = true.
Proof.
  unfold endswith. rewrite str_length_app.
  replace (String.length a + String.length suffix - String.length suffix)
    with (String.length a) by lia.
  rewrite substring_app_skip, substring_all, String.eqb_refl.
  rewrite andb_true_r. apply Nat.leb_le. lia.
Qed.

Lemma endswith_iff (s suffix : string) :
  endswith s suffix = true <-> exists a, s = (a ++ suffix)%string.
Proof.
  split.
  - unfold endswith. intros H. apply andb_prop in H. destruct H as [Hl He].
    apply Nat.leb_le in Hl. apply String.eqb_eq in He.
    exists (substring 0 (String.length s - String.length suffix) s).
    assert (Hn : String.length s - String.length suffix <= String.length s) by lia.
    pose proof (substring_split s _ Hn) as Hs.
    replace (String.length s - (String.length s - String.length suffix))
      with (String.length suffix) in Hs by lia.
    rewrite He in Hs. exact Hs.
  - intros [a ->]. apply endswith_app.
Qed.

Lemma endswith_app_l (a s suffix : string) :
  endswith s suffix = true -> endswith (a ++ s) suffix = true.
Proof.
  rewrite !endswith_iff. intros [x ->]. exists (a ++ x)%string.
  now rewrite str_app_assoc.
Qed.

(** A suffix without the character [c] does not reach back beyond an
    occurrence of [c]. *)
Lemma endswith_through_sep (a b suffix : string) (c : ascii) :
  ~ In c (list_ascii_of_string suffix) ->
  endswith (a ++ String c b) suffix = endswith b suffix.
Proof.
  intros Hni. destruct (endswith b suffix) eqn:Eb.
  - change (String c b) with (String c EmptyString ++ b)%string.
    rewrite <- str_app_assoc. now apply endswith_app_l.
  - destruct (endswith (a ++ String c b) suffix) eqn:E; [|reflexivity].
    apply endswith_iff in E. destruct E as [x Hx].
    apply (f_equal list_ascii_of_string) in Hx.
    rewrite !list_ascii_app in Hx. simpl in Hx.
    apply app_eq_app in Hx. destruct Hx as [l [[_ Hs] | [_ Hs]]].
    + exfalso. apply Hni. rewrite Hs. apply in_or_app. right. now left.
    + destruct l as [|d l]; simpl in Hs.
      * exfalso. apply Hni. rewrite <- Hs. now left.
      * injection Hs as _ Hs.
        assert (Hb : endswith b suffix = true).
        { apply endswith_iff. exists (string_of_list_ascii l).
          apply list_ascii_inj.
          now rewrite list_ascii_app, list_ascii_of_string_of_list_ascii. }
        congruence.
Qed.

(** The last character of a string that ends with a one-character suffix. *)
Lemma endswith_last (a : string) (d c : ascii) :
  endswith (a ++ String d EmptyString) (String c EmptyString) = true -> d = c.
Proof.
  intros H. apply endswith_iff in H. destruct H as [x Hx].
  apply (f_equal list_ascii_of_string) in Hx.
  rewrite !list_ascii_app in Hx. simpl in Hx.
  apply app_inj_tail in Hx. tauto.
Qed.

Lemma prefix_app (sub s b : string) :
  prefix sub s = true -> prefix sub (s ++ b) = true.
Proof.
  revert s. induction sub as [|x sub IH]; intros [|y s]; simpl; try discriminate;
    try reflexivity.
  - now destruct b.
  - destruct (ascii_dec x y); [apply IH | discriminate].
Qed.

Lemma contains_app (sub s b : string) :
  contains sub s = true -> contains sub (s ++ b) = true.
Proof.
  induction s as [|y s IH]; intros H.
  - simpl in H. apply String.eqb_eq in H. subst sub.
    destruct b; reflexivity.
  - change (contains sub (String y s))
      with (prefix sub (String y s) || contains sub s) in H.
    change (contains sub (String y s ++ b))
      with (prefix sub (String y s ++ b) || contains sub (s ++ b)).
    apply orb_prop in H. destruct H as [H|H].
    + now rewrite (prefix_app _ _ b H).
    + rewrite (IH H). apply orb_true_r.
Qed.

(** ** [strip] *)

Lemma lstrip_length (s : string) : String.length (lstrip s) <= String.length s.
Proof.
  induction s as [|c s IH]; simpl; [lia|].
  destruct (isspace c); simpl; lia.
Qed.

Lemma lstrip_head (c : ascii) (s : string) :
  lstrip (String c s) = String c s -> isspace c = false.
Proof.
  simpl. destruct (isspace c); [|reflexivity].
  intros H. pose proof (lstrip_length s) as Hl. rewrite H in Hl. simpl in Hl. lia.
Qed.

Lemma lstrip_idem (s : string) : lstrip (lstrip s) = lstrip s.
Proof.
  induction s as [|c s IH]; simpl; [reflexivity|].
  destruct (isspace c) eqn:E; [exact IH|]. simpl. now rewrite E.
Qed.

Lemma rstrip_idem (p : ascii -> bool) (s : string) :
  rstrip_by p (rstrip_by p s) = rstrip_by p s.
Proof.
  induction s as [|c s IH]; simpl; [reflexivity|].
  destruct (rstrip_by p s) as [|d r] eqn:E.
  - destruct (p c) eqn:Pc; simpl; [reflexivity | now rewrite Pc].
  - simpl. simpl in IH. now rewrite IH.
Qed.

Lemma rstrip_keeps_head (p : ascii -> bool) (c : ascii) (s : string) :
  p c = false -> exists r, rstrip_by p (String c s) = String c r.
Proof.
  intros Pc. simpl. destruct (rstrip_by p s) as [|d r].
  - rewrite Pc. now exists EmptyString.
  - now exists (String d r).
Qed.

Lemma strip_stripped (s : string) : stripped (strip s).
Proof.
  unfold stripped, strip. split; [|apply rstrip_idem].
  pose proof (lstrip_idem s) as H. destruct (lstrip s) as [|c u]; [reflexivity|].
  apply lstrip_head in H.
  destruct (rstrip_keeps_head isspace c u H) as [r ->]. simpl. now rewrite H.
Qed.

Lemma stripped_strip (t : string) : stripped t -> strip t = t.
Proof. intros [Hl Hr]. unfold strip. now rewrite Hl. Qed.

Lemma rstrip_app_keep (p : ascii -> bool) (a b : string) :
  b <> EmptyString -> rstrip_by p b = b ->
  rstrip_by p (a ++ b) = (a ++ b)%string.
Proof.
  intros Hne Hb. induction a as [|d a IH]; [exact Hb|].
  simpl. rewrite IH.
  destruct (a ++ b)%string as [|x y] eqn:E; [|reflexivity].
  destruct a; simpl in E; [contradiction | discriminate E].
Qed.

Lemma lstrip_app_keep (a b : string) :
  a <> EmptyString -> lstrip a = a -> lstrip (a ++ b) = (a ++ b)%string.
Proof.
  intros Hne Ha. destruct a as [|c a]; [contradiction|].
  apply lstrip_head in Ha. simpl. now rewrite Ha.
Qed.

(** ** The pattern for the short form *)

Lemma is_repo_char_not_space (c : ascii) :
  is_repo_char c = true -> isspace c = false.
Proof.
  destruct c as [[] [] [] [] [] [] [] []]; vm_compute; congruence.
Qed.

Lemma all_repo_chars_head (s : string) :
  all_repo_chars s = true ->
  exists c s', s = String c s' /\ is_repo_char c = true.
Proof.
  destruct s as [|c s]; simpl; [discriminate|].
  intros H. exists c, s. split; [reflexivity|].
  destruct s; [exact H|]. now apply andb_prop in H.
Qed.

Lemma all_repo_chars_last (s : string) :
  all_repo_chars s = true ->
  exists s' d, s = (s' ++ String d EmptyString)%string /\ is_repo_char d = true.
Proof.
  induction s as [|c s IH]; [discriminate|].
  destruct s as [|c' s].
  - intros H. now exists EmptyString, c.
  - intros H. change (is_repo_char c && all_repo_chars (String c' s) = true) in H.
    apply andb_prop in H. destruct H as [_ H].
    destruct (IH H) as (s' & d & -> & Hd).
    exists (String c s'), d. split; [reflexivity | exact Hd].
Qed.

Lemma owner_then_repo_short (seen : bool) (owner name : string) :
  all_repo_chars owner = true -> all_repo_chars name = true ->
  owner_then_repo seen (short_form owner name) = true.
Proof.
  intros Ho Hn. revert seen. unfold short_form.
  induction owner as [|c owner IH]; intros seen; [discriminate|].
  destruct owner as [|c' owner].
  - simpl in Ho. simpl. rewrite Ho. simpl. now rewrite Hn.
  - change (is_repo_char c && all_repo_chars (String c' owner) = true) in Ho.
    apply andb_prop in Ho. destruct Ho as [Hc Ho].
    change (owner_then_repo seen (String c (String c' owner ++ "/" ++ name)) = true).
    cbn [owner_then_repo]. rewrite Hc. now apply IH.
Qed.

Lemma all_repo_chars_app_git (t : string) :
  all_repo_chars (t ++ ".git") = true -> t = EmptyString \/ all_repo_chars t = true.
Proof.
  induction t as [|c t IH]; [now left|].
  intros H. right.
  change (String c t ++ ".git")%string with (String c (t ++ ".git")) in H.
  destruct t as [|c' t].
  - simpl in H. apply andb_prop in H. simpl. tauto.
  - change (is_repo_char c && all_repo_chars (String c' t ++ ".git") = true) in H.
    apply andb_prop in H. destruct H as [Hc H].
    destruct (IH H) as [E|E]; [discriminate E|].
    change (is_repo_char c && all_repo_chars (String c' t) = true).
    now rewrite Hc, E.
Qed.

Lemma endswith_cons (c : ascii) (t suffix : string) :
  endswith t suffix = true -> endswith (String c t) suffix = true.
Proof. apply (endswith_app_l (String c EmptyString)). Qed.

Lemma not_endswith_newline_git (t : string) :
  endswith (t ++ ".git") (String "010"%char EmptyString) = false.
Proof.
  destruct (endswith _ _) eqn:E; [|reflexivity].
  change (t ++ ".git")%string with (t ++ (".gi" ++ "t"))%string in E.
  rewrite <- str_app_assoc in E. apply endswith_last in E. discriminate E.
Qed.

Lemma owner_then_repo_git (seen : bool) (t : string) :
  owner_then_repo seen (t ++ ".git") = true ->
  owner_then_repo seen t = true \/ endswith t "/" = true.
Proof.
  revert seen. induction t as [|c t IH]; intros seen; [simpl; discriminate|].
  change (String c t ++ ".git")%string with (String c (t ++ ".git")).
  cbn [owner_then_repo].
  destruct (is_repo_char c).
  - intros H. destruct (IH _ H) as [H'|H']; [now left|].
    right. now apply endswith_cons.
  - destruct (Ascii.eqb c "/"%char) eqn:Ec; [|discriminate].
    apply Ascii.eqb_eq in Ec. subst c.
    rewrite not_endswith_newline_git, orb_false_r.
    intros H. apply andb_prop in H. destruct H as [-> H].
    apply all_repo_chars_app_git in H. destruct H as [-> | H].
    + right. reflexivity.
    + left. now rewrite H.
Qed.

(** ** Canonical clone URLs *)

Lemma github_url_tests (y : string) :
  re_match_owner_repo ("https://github.com/" ++ y) = false
  /\ contains "github.com" ("https://github.com/" ++ y) = true.
Proof. split; reflexivity. Qed.

Lemma github_url_stripped (y : string) :
  y <> EmptyString -> rstrip_by isspace y = y ->
  strip ("https://github.com/" ++ y) = ("https://github.com/" ++ y)%string.
Proof.
  intros Hne Hy. apply stripped_strip. split.
  - apply lstrip_app_keep; [discriminate | reflexivity].
  - now apply rstrip_app_keep.
Qed.

Lemma rstrip_git (x : string) :
  rstrip_by isspace (x ++ ".git") = (x ++ ".git")%string.
Proof. apply rstrip_app_keep; [discriminate | reflexivity]. Qed.

Lemma app_git_nonempty (x : string) : (x ++ ".git")%string <> EmptyString.
Proof. destruct x; discriminate. Qed.

(** A URL on GitHub that ends in [.git] is its own clone URL. *)
Lemma normalize_canonical (x : string) :
  _normalize_repo_url ("https://github.com/" ++ x ++ ".git")
  = ("https://github.com/" ++ x ++ ".git")%string.
Proof.
  unfold _normalize_repo_url.
  rewrite (github_url_stripped (x ++ ".git") (app_git_nonempty x) (rstrip_git x)).
  destruct (github_url_tests (x ++ ".git")) as [-> ->].
  rewrite <- (str_app_assoc "https://github.com/" x ".git"), endswith_app.
  reflexivity.
Qed.

Lemma normalize_fixed (t : string) :
  stripped t ->
  re_match_owner_repo t = false ->
  contains "github.com" t && negb (endswith t ".git") = false
  \/ endswith t "/" = true ->
  _normalize_repo_url t = t.
Proof.
  intros Hs Hre H. unfold _normalize_repo_url.
  rewrite (stripped_strip t Hs), Hre.
  destruct (contains "github.com" t && negb (endswith t ".git")) eqn:E;
    [|reflexivity].
  destruct H as [H|H]; [discriminate H | now rewrite H].
Qed.

(** Normalising a repository reference twice changes nothing more: the
    clone URL of a reference is its own clone URL, so a cache key computed
    from the clone URL is the key computed from the reference. White space
    around the reference is immaterial. *)
Theorem normalize_idempotent (sha256_hexdigest : string -> string) (s : string) :
  _normalize_repo_url (_normalize_repo_url s) = _normalize_repo_url s
  /\ _normalize_repo_url (strip s) = _normalize_repo_url s
  /\ _cache_key sha256_hexdigest (_normalize_repo_url s)
     = _cache_key sha256_hexdigest s.
Proof.
  assert (Hst : stripped (strip s)) by apply strip_stripped.
  assert (Hidem : _normalize_repo_url (_normalize_repo_url s) = _normalize_repo_url s).
  { unfold _normalize_repo_url at 2 3.
    destruct (re_match_owner_repo (strip s)) eqn:Hre; [apply normalize_canonical|].
    destruct (contains "github.com" (strip s)) eqn:Hc; simpl.
    - destruct (endswith (strip s) ".git") eqn:Hg; simpl.
      + apply normalize_fixed; [exact Hst | exact Hre |].
        left. now rewrite Hc, Hg.
      + destruct (endswith (strip s) "/") eqn:Hsl.
        * apply normalize_fixed; [exact Hst | exact Hre | now right].
        * assert (Hne : strip s <> EmptyString).
          { intros E. rewrite E in Hc. discriminate Hc. }
          apply normalize_fixed.
          -- destruct Hst as [Hl Hr]. split.
             ++ now apply lstrip_app_keep.
             ++ apply rstrip_git.
          -- unfold re_match_owner_repo in *.
             destruct (owner_then_repo false (strip s ++ ".git")) eqn:E;
               [|reflexivity].
             apply owner_then_repo_git in E. destruct E; congruence.
          -- left. now rewrite endswith_app, andb_false_r.
    - apply normalize_fixed; [exact Hst | exact Hre |].
      left. now rewrite Hc. }
  split; [exact Hidem | split].
  - unfold _normalize_repo_url. now rewrite (stripped_strip _ Hst).
  - unfold _cache_key. now rewrite Hidem.
Qed.

(** For every owner and name made of word characters, dots and dashes, the
    name not ending in [.git]: the short form, the URL on GitHub and that
    URL with [.git] have the same clone URL, and so the same cache key. *)
Theorem short_form_and_urls_agree
        (sha256_hexdigest : string -> string) (owner name : string) :
  all_repo_chars owner = true ->
  all_repo_chars name = true ->
  endswith name ".git" = false ->
  let canonical := ("https://github.com/" ++ short_form owner name ++ ".git")%string in
  _normalize_repo_url (short_form owner name) = canonical
  /\ _normalize_repo_url ("https://github.com/" ++ short_form owner name) = canonical
  /\ _normalize_repo_url canonical = canonical
  /\ _cache_key sha256_hexdigest (short_form owner name)
     = _cache_key sha256_hexdigest ("https://github.com/" ++ short_form owner name)
  /\ _cache_key sha256_hexdigest (short_form owner name)
     = _cache_key sha256_hexdigest canonical.
Proof.
  intros Ho Hn Hg canonical.
  destruct (all_repo_chars_head owner Ho) as (c & o' & Eo & Hc).
  destruct (all_repo_chars_last name Hn) as (n' & d & En & Hd).
  assert (Hrn : rstrip_by isspace name = name).
  { rewrite En. apply rstrip_app_keep; [discriminate|].
    simpl. now rewrite (is_repo_char_not_space d Hd). }
  assert (Hne : name <> EmptyString) by (rewrite En; destruct n'; discriminate).
  assert (Hrt : rstrip_by isspace (short_form owner name) = short_form owner name).
  { unfold short_form. apply rstrip_app_keep; [discriminate|].
    now apply (rstrip_app_keep isspace "/"). }
  assert (Hst : stripped (short_form owner name)).
  { split; [|exact Hrt]. unfold short_form. rewrite Eo. simpl.
    now rewrite (is_repo_char_not_space c Hc). }
  assert (H1 : _normalize_repo_url (short_form owner name) = canonical).
  { unfold _normalize_repo_url. rewrite (stripped_strip _ Hst).
    unfold re_match_owner_repo. now rewrite owner_then_repo_short. }
  assert (H2 : _normalize_repo_url ("https://github.com/" ++ short_form owner name)
               = canonical).
  { unfold _normalize_repo_url.
    rewrite github_url_stripped;
      [| unfold short_form; rewrite Eo; discriminate | exact Hrt].
    destruct (github_url_tests (short_form owner name)) as [-> ->].
    assert (Eg : endswith ("https://github.com/" ++ short_form owner name) ".git"
                 = false).
    { unfold short_form. rewrite <- str_app_assoc.
      change ("/" ++ name)%string with (String "/" name).
      rewrite endswith_through_sep; [exact Hg|].
      simpl. intros [H|[H|[H|[H|[]]]]]; discriminate H. }
    assert (Es : endswith ("https://github.com/" ++ short_form owner name) "/"
                 = false).
    { destruct (endswith _ "/") eqn:E; [|reflexivity].
      unfold short_form in E. rewrite En in E.
      change ("/" ++ n' ++ String d "")%string
        with (("/" ++ n') ++ String d "")%string in E.
      rewrite <- !str_app_assoc in E. apply endswith_last in E.
      subst d. discriminate Hd. }
    rewrite Eg, Es. simpl negb. cbv iota. unfold canonical.
    now rewrite str_app_assoc. }
  assert (H3 : _normalize_repo_url canonical = canonical)
    by apply normalize_canonical.
  unfold _cache_key. rewrite H1, H2, H3. repeat split; reflexivity.
Qed.

Lemma short_form_and_urls_agree_witness :
  _normalize_repo_url "python/cpython" = "https://github.com/python/cpython.git"
  /\ _normalize_repo_url "https://github.com/python/cpython"
     = "https://github.com/python/cpython.git".
Proof.
  destruct (short_form_and_urls_agree (fun s => s) "python" "cpython")
    as (H1 & H2 & _); try reflexivity.
  split; [exact H1 | exact H2].
Defined.

(** ** The directory name of a clone *)

Lemma contains_char_iff (c : ascii) (s : string) :
  contains (String c EmptyString) s = true <-> In c (list_ascii_of_string s).
Proof.
  induction s as [|d s IH]; simpl.
  - split; [discriminate | tauto].
  - destruct (ascii_dec c d) as [->|Hne].
    + split; [now left | intros _; destruct s; reflexivity].
    + simpl. rewrite IH. split; [now right|].
      intros [H|H]; [congruence | exact H].
Qed.

Lemma last_segment_no_sep (sep : ascii) (s : string) :
  ~ In sep (list_ascii_of_string (last_segment sep s)).
Proof.
  induction s as [|c s IH]; simpl; [tauto|].
  destruct (Ascii.eqb_spec c sep) as [->|Hne]; [exact IH|].
  destruct (contains (String sep EmptyString) s) eqn:E; [exact IH|].
  simpl. intros [H|H]; [contradiction|].
  apply contains_char_iff in H. congruence.
Qed.

Lemma remove_all_from_incl (old : string) (k : nat) (s : string) (x : ascii) :
  In x (list_ascii_of_string (remove_all_from old k s)) ->
  In x (list_ascii_of_string s).
Proof.
  revert k. induction s as [|c s IH]; intros k; [simpl; tauto|].
  cbn [remove_all_from]. destruct k as [|k].
  - destruct (prefix old (String c s)).
    + intros H. right. exact (IH _ H).
    + simpl. intros [H|H]; [now left | right; exact (IH _ H)].
  - intros H. right. exact (IH _ H).
Qed.

(** A file system in which [.] and [..] exist, as they do under every
    directory, nothing can be removed and every clone succeeds. *)
Definition guarded_parent : unit -> string -> bool :=
  fun _ name => String.eqb name "." || String.eqb name "..".

Definition no_removal : unit -> string -> result unit :=
  fun _ _ => Raise OSError.

Definition git_always : unit -> string -> string -> Z -> result unit :=
  fun _ _ _ _ => Ok tt.

(** From every reference [clone_repo] computes a directory name that is not
    empty and holds no slash, and runs the removal and the clone on the
    clone URL and this name. The name is not always that of a sub-directory:
    for a reference that ends in [/..] it is [..], so where the parent of
    the working directory cannot be removed the exception of [rmtree] leaves
    [clone_repo] before [git] is run. *)
Theorem clone_repo_directory_name
        (FS : Type) (path_exists : FS -> string -> bool)
        (rmtree : FS -> string -> result FS)
        (git : FS -> string -> string -> Z -> result FS)
        (iterdir : FS -> list Directory)
        (work : FS) (timeout_seconds : Z) :
  let step := remove_then_clone FS path_exists rmtree git iterdir work in
  (forall repo_ref,
      exists name,
        clone_repo step repo_ref timeout_seconds
        = step (_normalize_repo_url repo_ref) name timeout_seconds
        /\ name <> EmptyString
        /\ contains "/" name = false)
  /\ clone_repo step "https://github.com/x/.." timeout_seconds
     = step "https://github.com/x/...git" ".." timeout_seconds
  /\ (forall e,
         path_exists work ".." = true ->
         rmtree work ".." = Raise e ->
         clone_repo step "https://github.com/x/.." timeout_seconds = Raise e).
Proof.
  intros step. split; [|split].
  - intros repo_ref. unfold clone_repo.
    set (seg := last_segment "/"%char
                  (rstrip_by (Ascii.eqb "/"%char) (_normalize_repo_url repo_ref))).
    assert (Hseg : ~ In "/"%char (list_ascii_of_string (remove_all ".git" seg))).
    { intros H. apply remove_all_from_incl in H.
      now apply last_segment_no_sep in H. }
    destruct (remove_all ".git" seg) as [|c n] eqn:E.
    + exists "repo". split; [reflexivity | split; [discriminate | reflexivity]].
    + exists (String c n). split; [reflexivity | split; [discriminate|]].
      destruct (contains "/" (String c n)) eqn:Ec; [|reflexivity].
      apply contains_char_iff in Ec. contradiction.
  - reflexivity.
  - intros e Hex Hrm.
    change (clone_repo step "https://github.com/x/.." timeout_seconds)
      with (step "https://github.com/x/...git" ".." timeout_seconds).
    unfold step, remove_then_clone. now rewrite Hex, Hrm.
Qed.

Lemma clone_repo_directory_name_witness :
  clone_repo (remove_then_clone unit guarded_parent no_removal git_always
                                (fun _ => [sample_tree]) tt)
             "https://github.com/x/.." 90
  = Raise OSError.
Proof.
  destruct (clone_repo_directory_name
              unit guarded_parent no_removal git_always
              (fun _ => [sample_tree]) tt 90) as (_ & _ & H).
  apply H; reflexivity.
Defined.

(* ================================================================== *)
(** * The request handler of app.py *)

(** What [request.get_json(force=True, silent=True)] returns: a parsed JSON
    document, [JNone] for [null] and for a body that does not parse. A float
    is kept by whether it is zero, which is all a truth test sees of it; a
    dict is given by its items, keys distinct. *)
#[warnings="-register-all"]
Inductive json : Type :=
| JNone
| JBool (b : bool)
| JInt (z : Z)
| JFloat (is_zero : bool)
| JStr (s : string)
| JList (items : list json)
| JDict (items : list (string * json)).

(** [bool(v)] *)
Definition truthy (v : json) : bool :=
  match v with
  | JNone => false
  | JBool b => b
  | JInt z => negb (z =? 0)%Z
  | JFloat is_zero => negb is_zero
  | JStr s => negb (String.eqb s EmptyString)
  | JList items => match items with [] => false | _ :: _ => true end
  | JDict items => match items with [] => false | _ :: _ => true end
  end.

(** [a or b] *)
Definition py_or (a b : json) : json := if truthy a then a else b.

(** [d.get(key)] *)
Fixpoint dict_get (items : list (string * json)) (key : string) : json :=
  match items with
  | [] => JNone
  | (k, v) :: rest => if String.eqb k key then v else dict_get rest key
  end.

(** What leaves the handler without being caught. *)
Inductive uncaught : Type :=
| AttributeError
| Uncaught (e : exn).

(** [jsonify(result)] and [jsonify({'error': message})]. *)
Inductive payload : Type :=
| Analytics (result : AnalysisResult)
| ErrorMessage (error : string).

Inductive reply : Type :=
| Reply (status : nat) (body : payload)
| Escapes (e : uncaught).

(** A file of the cache directory: a record written by [json.dump], which
    [json.load] gives back, or a file on which [open] raises [OSError] or
    [json.load] raises [JSONDecodeError]. *)
Inductive cache_file : Type :=
| Record_of (result : AnalysisResult)
| Unloadable.

(** The cache directory: the file found under each key, and whether files can
    be created and removed in it. *)
Record CacheDir : Type := {
  file : string -> option cache_file;
  writable : bool
}.

(** [cache_path.unlink(missing_ok=True)] *)
Definition unlink (d : CacheDir) (key : string) : CacheDir :=
  {| file := fun k => if String.eqb k key then None else file d k;
     writable := writable d |}.

(** [json.dump(result, f, indent=2)] into the file of [key]. *)
Definition dump (d : CacheDir) (key : string) (result : AnalysisResult)
  : CacheDir :=
  {| file := fun k => if String.eqb k key then Some (Record_of result)
                      else file d k;
     writable := writable d |}.

Definition missing_repo_message : string :=
  "Missing 'repo'. Send e.g. { " ++ String "034" "repo" ++ String "034" ": "
    ++ String "034" "django/django" ++ String "034" " }".

(** [(data.get('repo') or '').strip()] with [data = body or {}]; [None] when
    a value without the method asked of it raises [AttributeError]. *)
Definition requested_repo (body : json) : option string :=
  match py_or body (JDict []) with
  | JDict items =>
      match py_or (dict_get items "repo") (JStr EmptyString) with
      | JStr s => Some (strip s)
      | _ => None
      end
  | _ => None
  end.

(** The body [{'repo': s}]. *)
Definition request_for (s : string) : json := JDict [("repo", JStr s)].

Section Handler.
Variable lang : LanguageReference.
Variable generate_tokens : string -> TokenStream.
Variable git_clone : string -> string -> Z -> result (list Directory).
Variable sha256_hexdigest : string -> string.
(** [str(e)] *)
Variable str : exn -> string.

(** The second [try] of [analyze]: run the workflow, store the result. *)
Definition analyze_uncached (repo key : string) (d : CacheDir) (w : list string)
  : reply * CacheDir * list string :=
  match run_workflow_repo lang generate_tokens git_clone repo 90 30000 w with
  | (Ok result, w') =>
      if writable d then (Reply 200 (Analytics result), dump d key result, w')
      else (Reply 500 (ErrorMessage ("Analysis failed: " ++ str OSError)), d, w')
  | (Raise (ValueError msg), w') => (Reply 400 (ErrorMessage msg), d, w')
  | (Raise TimeoutExpired, w') =>
      (Reply 408 (ErrorMessage "Clone timed out. Try a smaller repo."), d, w')
  | (Raise e, w') =>
      (Reply 500 (ErrorMessage ("Analysis failed: " ++ str e)), d, w')
  end.

(** [analyze]: the reply, the cache directory it leaves, and the log of the
    texts tokenized. *)
Definition analyze (body : json) (d : CacheDir) (w : list string)
  : reply * CacheDir * list string :=
  match requested_repo body with
  | None => (Escapes AttributeError, d, w)
  | Some repo =>
      if String.eqb repo EmptyString
      then (Reply 400 (ErrorMessage missing_repo_message), d, w)
      else
        let key := _cache_key sha256_hexdigest repo in
        match file d key with
        | Some (Record_of result) => (Reply 200 (Analytics result), d, w)
        | Some Unloadable =>
            if writable d then analyze_uncached repo key (unlink d key) w
            else (Escapes (Uncaught OSError), d, w)
        | None => analyze_uncached repo key d w
        end
  end.

End Handler.

(** An empty cache directory. *)
Definition empty_cache : CacheDir :=
  {| file := fun _ => None; writable := true |}.

(** A stand-in for the digest in examples. *)
Definition sample_digest : string -> string := fun url => url.

Definition sample_str : exn -> string := fun _ => "error".

(** ** Requests *)

Lemma requested_repo_stripped (body : json) (repo : string) :
  requested_repo body = Some repo -> stripped repo.
Proof.
  unfold requested_repo. intros H.
  destruct (py_or body (JDict [])); try discriminate H.
  destruct (py_or (dict_get items "repo") (JStr EmptyString));
    try discriminate H.
  injection H as <-. apply strip_stripped.
Qed.

Lemma requested_repo_for (s : string) :
  requested_repo (request_for s) = Some (strip s).
Proof.
  unfold requested_repo, request_for, py_or. simpl.
  destruct (String.eqb s EmptyString) eqn:E; simpl; [|reflexivity].
  apply String.eqb_eq in E. now subst.
Qed.

Lemma normalize_nonempty (t : string) :
  stripped t -> t <> EmptyString -> _normalize_repo_url t <> EmptyString.
Proof.
  intros Hs Hne. unfold _normalize_repo_url. rewrite (stripped_strip t Hs).
  destruct (re_match_owner_repo t); [discriminate|].
  destruct (contains "github.com" t && negb (endswith t ".git")); [|exact Hne].
  destruct (endswith t "/"); [exact Hne|].
  destruct t; [contradiction | discriminate].
Qed.

(** A body that is falsy, or a dict whose [repo] is falsy or blank, is
    answered 400 with the hint; nothing is looked up, cloned or tokenized. *)
Theorem analyze_missing_repo
        (lang : LanguageReference) (generate_tokens : string -> TokenStream)
        (git_clone : string -> string -> Z -> result (list Directory))
        (sha256_hexdigest : string -> string) (str : exn -> string)
        (body : json) (d : CacheDir) (w : list string) :
  truthy body = false
  \/ (exists items,
         body = JDict items
         /\ (truthy (dict_get items "repo") = false
             \/ exists s, dict_get items "repo" = JStr s
                          /\ strip s = EmptyString)) ->
  analyze lang generate_tokens git_clone sha256_hexdigest str body d w
  = (Reply 400 (ErrorMessage missing_repo_message), d, w).
Proof.
  intros H.
  assert (Hreq : requested_repo body = Some EmptyString).
  { unfold requested_repo, py_or.
    destruct H as [H | (items & -> & H)].
    - rewrite H. reflexivity.
    - destruct items as [|kv items]; [reflexivity|].
      cbn [truthy]. destruct H as [H | (s & Hs & Hblank)].
      + now rewrite H.
      + rewrite Hs. destruct (truthy (JStr s)); [now rewrite Hblank | reflexivity]. }
  unfold analyze. now rewrite Hreq.
Qed.

Lemma analyze_missing_repo_witness :
  analyze PY312 Lexer.generate_tokens no_git sample_digest sample_str
          (request_for "   ") empty_cache []
  = (Reply 400 (ErrorMessage missing_repo_message), empty_cache, []).
Proof.
  apply analyze_missing_repo. right. exists [("repo", JStr "   ")].
  split; [reflexivity|]. right. exists "   ". split; reflexivity.
Defined.

(** A truthy body that is not a dict, and a dict whose [repo] is truthy and
    not a string, are not answered by the handler: [AttributeError] leaves
    it, outside both [try] blocks. *)
Theorem analyze_attribute_error
        (lang : LanguageReference) (generate_tokens : string -> TokenStream)
        (git_clone : string -> string -> Z -> result (list Directory))
        (sha256_hexdigest : string -> string) (str : exn -> string)
        (body : json) (d : CacheDir) (w : list string) :
  (truthy body = true /\ forall items, body <> JDict items)
  \/ (exists items,
         body = JDict items
         /\ truthy (dict_get items "repo") = true
         /\ forall s, dict_get items "repo" <> JStr s) ->
  analyze lang generate_tokens git_clone sha256_hexdigest str body d w
  = (Escapes AttributeError, d, w).
Proof.
  intros H.
  assert (Hreq : requested_repo body = None).
  { unfold requested_repo, py_or.
    destruct H as [[Ht Hnd] | (items & -> & Ht & Hns)].
    - rewrite Ht. destruct body; try reflexivity. now destruct (Hnd items).
    - destruct items as [|kv items]; [discriminate Ht|].
      cbn [truthy]. rewrite Ht.
      destruct (dict_get (kv :: items) "repo") eqn:E; try reflexivity.
      now destruct (Hns s). }
  unfold analyze. now rewrite Hreq.
Qed.

Lemma analyze_attribute_error_witness :
  analyze PY312 Lexer.generate_tokens no_git sample_digest sample_str
          (JDict [("repo", JInt 7)]) empty_cache []
  = (Escapes AttributeError, empty_cache, [])
  /\ analyze PY312 Lexer.generate_tokens no_git sample_digest sample_str
             (JList [JStr "django/django"]) empty_cache []
     = (Escapes AttributeError, empty_cache, []).
Proof.
  split; apply analyze_attribute_error.
  - right. exists [("repo", JInt 7)].
    split; [reflexivity | split; [reflexivity | discriminate]].
  - left. split; [reflexivity | discriminate].
Defined.

(** ** Replies and the cache *)

Section HandlerFacts.
Variable lang : LanguageReference.
Variable generate_tokens : string -> TokenStream.
Variable git_clone : string -> string -> Z -> result (list Directory).
Variable str : exn -> string.

Lemma analyze_uncached_cases (repo key : string) (d d' : CacheDir)
      (w w' : list string) (rep : reply) :
  analyze_uncached lang generate_tokens git_clone str repo key d w
  = (rep, d', w') ->
  (exists r, rep = Reply 200 (Analytics r) /\ d' = dump d key r
             /\ writable d = true
             /\ run_workflow_repo lang generate_tokens git_clone repo 90 30000 w
                = (Ok r, w'))
  \/ (exists status msg,
         rep = Reply status (ErrorMessage msg) /\ d' = d
         /\ (status = 400 \/ status = 408 \/ status = 500)).
Proof.
  unfold analyze_uncached.
  destruct (run_workflow_repo lang generate_tokens git_clone repo 90 30000 w)
    as [[r|e] w1].
  - destruct (writable d) eqn:Hw; intros H; injection H as <- <- <-.
    + left. exists r. repeat split; assumption.
    + right. eexists _, _. repeat split. tauto.
  - intros H. right.
    destruct e; injection H as <- <- <-; eexists _, _; repeat split; tauto.
Qed.

End HandlerFacts.

Lemma reply_200_on_file
      (lang : LanguageReference) (generate_tokens : string -> TokenStream)
      (git_clone : string -> string -> Z -> result (list Directory))
      (sha256_hexdigest : string -> string) (str : exn -> string)
      (body : json) (repo : string) (d d' : CacheDir) (w w' : list string)
      (r : AnalysisResult) :
  requested_repo body = Some repo ->
  analyze lang generate_tokens git_clone sha256_hexdigest str body d w
  = (Reply 200 (Analytics r), d', w') ->
  file d' (_cache_key sha256_hexdigest repo) = Some (Record_of r).
Proof.
  intros Hreq Hrun. unfold analyze in Hrun. rewrite Hreq in Hrun.
  destruct (String.eqb repo EmptyString); [discriminate Hrun|].
  cbv zeta in Hrun. set (key := _cache_key sha256_hexdigest repo) in *.
  assert (Hun : forall d0,
             analyze_uncached lang generate_tokens git_clone str repo key d0 w
             = (Reply 200 (Analytics r), d', w') ->
             file d' key = Some (Record_of r)).
  { intros d0 H.
    destruct (analyze_uncached_cases _ _ _ _ _ _ _ _ _ _ _ H)
      as [(r0 & Hrep & -> & _ & _) | (st & msg & Hrep & _)];
      [|discriminate Hrep].
    injection Hrep as ->. simpl. now rewrite String.eqb_refl. }
  destruct (file d key) as [[r0| ]|] eqn:Hfile.
  - injection Hrun as <- <- <-. exact Hfile.
  - destruct (writable d); [|discriminate Hrun]. exact (Hun _ Hrun).
  - exact (Hun _ Hrun).
Qed.






(** Once a request has been answered 200, every later request for a
    reference with the same clone URL is answered from the file of the key
    with the same record, whatever [git] and the tokenizer would do now; the
    directory is left as it is and nothing is tokenized. *)
Theorem repeat_request_served_from_cache
        (lang lang' : LanguageReference)
        (generate_tokens generate_tokens' : string -> TokenStream)
        (git_clone git_clone' : string -> string -> Z -> result (list Directory))
        (sha256_hexdigest : string -> string) (str str' : exn -> string)
        (body body' : json) (repo repo' : string) (d d' : CacheDir)
        (w w' w2 : list string) (r : AnalysisResult) :
  requested_repo body = Some repo ->
  requested_repo body' = Some repo' ->
  _normalize_repo_url repo' = _normalize_repo_url repo ->
  analyze lang generate_tokens git_clone sha256_hexdigest str body d w
  = (Reply 200 (Analytics r), d', w') ->
  analyze lang' generate_tokens' git_clone' sha256_hexdigest str' body' d' w2
  = (Reply 200 (Analytics r), d', w2).
Proof.
  intros Hreq Hreq' Hnorm Hrun.
  assert (Hne : repo <> EmptyString).
  { intros ->. unfold analyze in Hrun. rewrite Hreq in Hrun. discriminate Hrun. }
  assert (Hne' : repo' <> EmptyString).
  { intros ->.
    apply (normalize_nonempty repo (requested_repo_stripped _ _ Hreq) Hne).
    now rewrite <- Hnorm. }
  assert (Hkey : _cache_key sha256_hexdigest repo'
                 = _cache_key sha256_hexdigest repo).
  { unfold _cache_key. now rewrite Hnorm. }
  assert (Hfile : file d' (_cache_key sha256_hexdigest repo)
                  = Some (Record_of r)).
  { exact (reply_200_on_file _ _ _ _ _ _ _ _ _ _ _ _ Hreq Hrun). }
  unfold analyze. rewrite Hreq'.
  destruct (String.eqb_spec repo' EmptyString) as [E|_]; [contradiction|].
  cbv zeta. now rewrite Hkey, Hfile.
Qed.

Lemma repeat_request_served_from_cache_witness :
  exists r d',
    fst (analyze PY312 Lexer.generate_tokens (clone_yielding sample_tree)
                 sample_digest sample_str (request_for "django/django")
                 empty_cache [])
    = (Reply 200 (Analytics r), d')
    /\ analyze overlapping_reference Lexer.generate_tokens no_git sample_digest
               sample_str (request_for "https://github.com/django/django ")
               d' []
       = (Reply 200 (Analytics r), d', []).
Proof.
  destruct (analyze PY312 Lexer.generate_tokens (clone_yielding sample_tree)
                    sample_digest sample_str (request_for "django/django")
                    empty_cache []) as [[rep d'] w'] eqn:E.
  assert (Hrep : exists r, rep = Reply 200 (Analytics r)).
  { vm_compute in E. injection E as <- _ _. now eexists. }
  destruct Hrep as [r ->]. exists r, d'. split; [reflexivity|].
  apply (repeat_request_served_from_cache
           PY312 overlapping_reference Lexer.generate_tokens
           Lexer.generate_tokens (clone_yielding sample_tree) no_git
           sample_digest sample_str sample_str
           (request_for "django/django")
           (request_for "https://github.com/django/django ")
           "django/django" "https://github.com/django/django"
           empty_cache d' [] w' [] r);
    [reflexivity | reflexivity | reflexivity | exact E].
Defined.

(* ================================================================== *)
(** * The panels of plot_analytics.py *)

Definition TOP_N : nat := 25.

(** [list(data['keyword_freq'].items())[:TOP_N]] *)
Definition top_items (freq : Counter) : list (string * nat) :=
  firstn TOP_N freq.

(** [[x[0] for x in reversed(kw)]] and [[x[1] for x in reversed(kw)]]: the
    bars of a panel, from the bottom one up. *)
Definition bar_labels (top : list (string * nat)) : list string :=
  map fst (rev top).

Definition bar_values (top : list (string * nat)) : list nat :=
  map snd (rev top).

(** [ncols = 3 if dnd else 2] *)
Definition ncols (data : AnalysisResult) : nat :=
  match top_items (dunder_freq data) with
  | [] => 2
  | _ :: _ => 3
  end.

Section SortedParts.
Context {A : Type}.
Variable R : A -> A -> Prop.

Lemma sorted_firstn (n : nat) (l : list A) :
  StronglySorted R l -> StronglySorted R (firstn n l).
Proof.
  intros H. revert n. induction H as [|x l Hs IH Hall]; intros [|n]; simpl;
    try constructor; [apply IH|].
  rewrite Forall_forall in *. intros y Hy. apply Hall.
  rewrite <- (firstn_skipn n l). apply in_or_app. now left.
Qed.

Lemma sorted_firstn_skipn (n : nat) (l : list A) (x y : A) :
  StronglySorted R l -> In x (firstn n l) -> In y (skipn n l) -> R x y.
Proof.
  intros H. revert n. induction H as [|z l Hs IH Hall]; intros [|n]; simpl;
    try tauto.
  intros [->|Hx] Hy.
  - rewrite Forall_forall in Hall. apply Hall.
    rewrite <- (firstn_skipn n l). apply in_or_app. now right.
  - now apply (IH n).
Qed.

Lemma sorted_rev (l : list A) :
  StronglySorted R l -> StronglySorted (fun x y => R y x) (rev l).
Proof.
  induction 1 as [|x l Hs IH Hall]; simpl; [constructor|].
  assert (Happ : forall l1,
             StronglySorted (fun a b => R b a) l1 ->
             Forall (fun a => R x a) l1 ->
             StronglySorted (fun a b => R b a) (l1 ++ [x])).
  { induction 1 as [|a l1 Hs1 IH1 Hall1]; intros Hx; simpl.
    - repeat constructor.
    - inversion Hx; subst. constructor; [now apply IH1|].
      apply Forall_app. split; [assumption | now constructor]. }
  apply Happ; [exact IH|].
  rewrite Forall_forall in *. intros a Ha. apply Hall. now apply in_rev.
Qed.

End SortedParts.

Lemma In_firstn_incl_pairs (n : nat) (l : list (string * nat)) (kv : string * nat) :
  In kv l -> In kv (firstn n l) \/ In kv (skipn n l).
Proof.
  intros H. rewrite <- (firstn_skipn n l) in H. now apply in_app_or.
Qed.

Lemma combine_fst_snd (l : list (string * nat)) :
  combine (map fst l) (map snd l) = l.
Proof. induction l as [|[k v] l IH]; simpl; [reflexivity | now rewrite IH]. Qed.

Section PlotFacts.
Variable lang : LanguageReference.
Variable generate_tokens : string -> TokenStream.
Variable urlopen_read : string -> result string.
Variable git_clone : string -> string -> Z -> result (list Directory).

Lemma produced_tables_sorted (names : list string) (r : AnalysisResult)
      (freq : Counter) :
  produced lang generate_tokens urlopen_read git_clone names r ->
  In freq [keyword_freq r; builtin_freq r; dunder_freq r] ->
  StronglySorted (fun x y => snd y <= snd x) freq.
Proof.
  intros H Hin. apply produced_analysis in H.
  destruct H as (Hk & Hb & Hd & _).
  destruct Hin as [<-|[<-|[<-|[]]]];
    [rewrite Hk | rewrite Hb | rewrite Hd]; apply ranked_report.
Qed.

End PlotFacts.

(** For every table of a result of the workflows, a panel shows
    [min(25, len(table))] bars, each label beside its own count, with the
    counts growing from the bottom bar to the top one; no entry left out of
    the panel has a larger count than a bar of the panel. *)
Theorem plotted_bars_are_the_most_frequent
        (lang : LanguageReference) (generate_tokens : string -> TokenStream)
        (urlopen_read : string -> result string)
        (git_clone : string -> string -> Z -> result (list Directory))
        (names : list string) (r : AnalysisResult) (freq : Counter) :
  produced lang generate_tokens urlopen_read git_clone names r ->
  In freq [keyword_freq r; builtin_freq r; dunder_freq r] ->
  let top := top_items freq in
  List.length (bar_values top) = Nat.min 25 (List.length freq)
  /\ combine (bar_labels top) (bar_values top) = rev top
  /\ StronglySorted le (bar_values top)
  /\ (forall k v,
         In (k, v) freq -> ~ In k (bar_labels top) ->
         Forall (fun b => v <= b) (bar_values top)).
Proof.
  intros H Hin top.
  pose proof (produced_tables_sorted _ _ _ _ _ _ _ H Hin) as Hs.
  unfold bar_values, bar_labels. split; [|split; [|split]].
  - rewrite length_map, length_rev. apply length_firstn.
  - apply combine_fst_snd.
  - apply (sorted_firstn _ TOP_N) in Hs. apply sorted_rev in Hs.
    fold (top_items freq) in Hs. fold top in Hs.
    induction Hs as [|x l Hs' IH Hall]; simpl; constructor; [exact IH|].
    rewrite Forall_forall in *. intros b Hb.
    apply in_map_iff in Hb. destruct Hb as (y & <- & Hy). now apply Hall.
  - intros k v Hkv Hout.
    destruct (In_firstn_incl_pairs TOP_N freq (k, v) Hkv) as [Hfirst | Hrest].
    + exfalso. apply Hout. apply in_map_iff. exists (k, v).
      split; [reflexivity|]. apply in_rev. now rewrite rev_involutive.
    + rewrite Forall_forall. intros b Hb.
      apply in_map_iff in Hb. destruct Hb as (y & <- & Hy).
      apply in_rev in Hy.
      exact (sorted_firstn_skipn _ TOP_N freq y (k, v) Hs Hy Hrest).
Qed.

(** The keyword panel for the sample tree: four bars, [in] and [for] with
    one occurrence below [return] and [def] with two. *)
Lemma plotted_bars_are_the_most_frequent_witness :
  exists r,
    fst (_run_workflow_directory PY312 Lexer.generate_tokens sample_tree
                                 "sample" []) = Ok r
    /\ bar_labels (top_items (keyword_freq r)) = ["in"; "for"; "return"; "def"]
    /\ bar_values (top_items (keyword_freq r)) = [1; 1; 2; 2]
    /\ StronglySorted le (bar_values (top_items (keyword_freq r)))
    /\ combine (bar_labels (top_items (keyword_freq r)))
               (bar_values (top_items (keyword_freq r)))
       = rev (top_items (keyword_freq r)).
Proof.
  destruct (_run_workflow_directory PY312 Lexer.generate_tokens sample_tree
                                    "sample" []) as [[r|e] w'] eqn:E;
    [|vm_compute in E; discriminate E].
  exists r. split; [reflexivity|].
  assert (Hbars : bar_labels (top_items (keyword_freq r))
                  = ["in"; "for"; "return"; "def"]
                  /\ bar_values (top_items (keyword_freq r)) = [1; 1; 2; 2]).
  { pose proof E as E'. vm_compute in E'. injection E' as <- _.
    split; reflexivity. }
  destruct Hbars as [Hl Hv]. split; [exact Hl | split; [exact Hv|]].
  destruct (plotted_bars_are_the_most_frequent
              PY312 Lexer.generate_tokens no_network no_git
              (walked_names Lexer.generate_tokens (py_files_of sample_tree)) r
              (keyword_freq r)) as (_ & Hc & Hs & _).
  - exact (produced_directory PY312 Lexer.generate_tokens no_network no_git
                              sample_tree "sample" [] w' r E).
  - now left.
  - split; [exact Hs | exact Hc].
Defined.

(** The plot of a result of the workflows has its third panel exactly when
    the result counted an occurrence of a special-method name. *)
Theorem third_panel_iff_dunders_counted
        (lang : LanguageReference) (generate_tokens : string -> TokenStream)
        (urlopen_read : string -> result string)
        (git_clone : string -> string -> Z -> result (list Directory))
        (names : list string) (r : AnalysisResult) :
  produced lang generate_tokens urlopen_read git_clone names r ->
  (ncols r = 3 <-> 0 < total_dunder_occurrences (meta r))
  /\ (ncols r = 2 <-> total_dunder_occurrences (meta r) = 0).
Proof.
  intros H.
  destruct (produced_keys _ _ _ _ _ _ H) as (_ & _ & Hkeys).
  destruct (produced_totals _ _ _ _ _ _ H) as (_ & _ & _ & ->).
  unfold ncols, top_items.
  destruct (dunder_freq r) as [|[k v] rest] eqn:E; simpl.
  - destruct (dunder_names lang names) as [|x l] eqn:En.
    + simpl. split; split; intros; try reflexivity; try discriminate; lia.
    + exfalso. apply (proj2 (Hkeys x)). now left.
  - destruct (dunder_names lang names) as [|x l] eqn:En.
    + exfalso. apply (proj1 (Hkeys k)). now left.
    + simpl. split; split; intros; try reflexivity; try discriminate; lia.
Qed.

Lemma third_panel_iff_dunders_counted_witness :
  exists r,
    run_workflow overlapping_reference Lexer.generate_tokens no_network None
                 (Some overlapping_source) = Ok r
    /\ (ncols r = 3 <-> 0 < total_dunder_occurrences (meta r)).
Proof.
  destruct (run_workflow overlapping_reference Lexer.generate_tokens no_network
                         None (Some overlapping_source)) as [r|e] eqn:E;
    [|vm_compute in E; discriminate E].
  exists r. split; [reflexivity|].
  apply (third_panel_iff_dunders_counted
           overlapping_reference Lexer.generate_tokens no_network no_git
           (scanned_names Lexer.generate_tokens overlapping_source) r).
  now apply produced_in_memory with (corpus_url := None).
Defined.
